(** * go-zetasqlite: the function runtime of [internal/function_bind.go]

    A shallow embedding of the binding layer that adapts the host store's
    calling convention to the value model: the scalar binders, the
    return-value converters, and the [Aggregator] / [WindowAggregator]
    state machines with their DISTINCT and IGNORE NULLS options.

    The value model itself ([Value] and its [To*] methods), the SQL
    implementations the binders call ([ADD], [MD5], ...), the option parsers,
    the encoder and the catalog live in files that are not part of the
    sources at hand.  What the binders need from them is taken as an
    interface ([ValueMethods], [Runtime]); the encoder and the catalog are
    modelled from the specification, and say so. *)

From Stdlib Require Import ZArith List String Ascii Bool Lia.
From Stdlib Require Import Decimal DecimalString.
From stdpp Require Import base decidable countable strings gmap.
Import ListNotations.

Local Set Warnings "-register-all".
Local Open Scope Z_scope.
Local Open Scope list_scope.

(** ** Go preliminaries *)

Module Go.

(** The error taxonomy of the specification (section 7). *)
Inductive ErrorKind : Type :=
| KParse | KAnalyze
| KTypeMismatch | KTypeCoercion | KOverflow | KDivisionByZero
| KInvalidArgument
| KUdfRuntime | KUdfTimeout | KUdfMemory
| KCatalogConflict | KCatalogMissing
| KTransactionAborted | KCanceled | KInternal.

(** A Go [error] value.  [Errorf] is an error built by [fmt.Errorf] in the
    embedded source; [Kinded] is an error reported by code outside it. *)
Inductive error : Type :=
| Errorf (msg : string)
| Kinded (k : ErrorKind) (msg : string).

(** [err.Error()] *)
Definition Error (e : error) : string :=
  match e with
  | Errorf msg => msg
  | Kinded _ msg => msg
  end.

(** The result of running a Go function that returns [(A, error)]:
    a value, an error, or a run-time panic (a method called on a nil
    interface value). *)
Inductive outcome (A : Type) : Type :=
| Ok (a : A)
| Err (e : error)
| Panic.
Arguments Ok {A} a.
Arguments Err {A} e.
Arguments Panic {A}.

Definition bind {A B} (m : outcome A) (k : A -> outcome B) : outcome B :=
  match m with
  | Ok a => k a
  | Err e => Err e
  | Panic => Panic
  end.

(** [fmt.Sprintf("%d", n)] *)
Definition fmt_d (n : Z) : string := NilZero.string_of_int (Z.to_int n).

(** [len(args)] as the [int] that [%d] prints. *)
Definition len {A} (l : list A) : Z := Z.of_nat (length l).

(** [fmt.Sprintf("%t", b)] *)
Definition fmt_t (b : bool) : string :=
  if b then "true"%string else "false"%string.

(** [fmt.Errorf("<name>: invalid argument num %d", len(args))] *)
Definition invalid_argument_num {A} (name : string) (args : list A) : error :=
  Errorf (name +:+ ": invalid argument num " +:+ fmt_d (len args)).

End Go.
Export Go.

(** [outcome] is a monad; the sequencing [x ← m; k] is Go's
    "if err != nil { return nil, err }". *)
#[global] Instance outcome_ret : MRet outcome := fun _ a => Ok a.
#[global] Instance outcome_bind : MBind outcome := fun _ _ k m => Go.bind m k.

(** ** The value model *)

(** [time.Time]: an instant and the location it is shown in. *)
Record Time : Type := mkTime { unixNano : Z; location : string }.

(** Modelled from the spec: the [Value] tagged union of section 3, whose Go
    declaration is outside the sources at hand.  The constructors carry the
    names the binders use ([IntValue], [StringValue], [JsonValue],
    [SafeValue]).  [Null] is Go's nil [Value]: the binders test it with
    [v == nil], and a method called on it panics. *)
Inductive Value : Type :=
| Null
| IntValue (i : Z)
| FloatValue (bits : N)
| BoolValue (b : bool)
| StringValue (s : string)
| BytesValue (b : list Byte.byte)
| NumericValue (unscaled : Z)
| BigNumericValue (unscaled : Z)
| DateValue (days : Z)
| TimeValue (nanos : Z)
| DatetimeValue (micros : Z)
| TimestampValue (micros : Z)
| IntervalValue (months days nanos : Z)
| JsonValue (text : string)
| ArrayValue (elems : list Value)
| StructValue (fields : list (option string * Value))
| SafeValue (value : Value).

(** [v == nil] *)
Definition isNil (v : Value) : bool :=
  match v with Null => true | _ => false end.

(** A cell of the host store, the [interface{}] the driver hands over. *)
Inductive Cell : Type :=
| CNil
| CInt (i : Z)
| CFloat (bits : N)
| CBool (b : bool)
| CText (s : string)
| CBlob (b : list Byte.byte).

(** The methods of the [Value] interface.  Their bodies are per-variant code
    outside the sources at hand; the binders only call them. *)
Class ValueMethods : Type := {
  ToInt64 : Value -> outcome Z;
  ToFloat64 : Value -> outcome N;
  ToString : Value -> outcome string;
  ToBytes : Value -> outcome (list Byte.byte);
  ToBool : Value -> outcome bool;
  ToTime : Value -> outcome Time;
  ToArray : Value -> outcome (list Value);
  (** [fmt.Sprint(jsonValue.Interface())] *)
  SprintInterface : Value -> string;
  (** [fmt.Sprintf("%T", v)] *)
  fmt_T : Value -> string
}.

(** [v.m()] on an interface value: a nil receiver panics. *)
Definition call `{ValueMethods} {A} (m : Value -> outcome A) (v : Value)
  : outcome A :=
  match v with
  | Null => Panic
  | _ => m v
  end.

(** The per-step options of an aggregate call.  The record is declared
    outside the sources at hand; [Step] reads [Distinct] and [IgnoreNulls],
    and the specification (section 4.4) names ORDER BY and LIMIT. *)
Record AggregatorOption : Type := mkAggregatorOption {
  Distinct : bool;
  IgnoreNulls : bool;
  OrderBy : list (Value * bool);
  Limit : option Z
}.

(** An argument handed to an implementation function.  The binders convert
    their [Value] arguments to Go scalars before they call the implementation;
    [Arg] records which conversion each position went through. *)
Inductive Arg : Type :=
| AVal (v : Value)
| AVals (vs : list Value)
| AInt (i : Z)
| AOptInt (i : option Z)
| AStr (s : string)
| ARunes (r : option string)
| ABytes (b : list Byte.byte)
| ABool (b : bool)
| ATime (t : Time)
| AArr (elems : list Value).

(** What the binding layer takes from the rest of the package: the SQL
    implementations, addressed by their Go name ([builtin "ADD" [a; b]] is
    the call [ADD(a, b)]), the decoder [ValueOf], [time.LoadLocation], and
    the parser of the aggregate options. *)
Class Runtime : Type := {
  builtin : string -> list Arg -> outcome Value;
  ValueOf : Cell -> outcome Value;
  LoadLocation : string -> outcome string;
  parseAggregateOptions : list Cell -> outcome (list Cell * AggregatorOption)
}.

(** The parser of the window options; [W] is [*WindowFuncStatus]. *)
Class WindowRuntime (W : Type) : Type := {
  parseWindowOptions : list Cell -> outcome (list Cell * W)
}.

(** ** function_bind.go *)

Section Binders.
Context `{VM : ValueMethods} `{RT : Runtime}.

Definition SQLiteFunction : Type := list Cell -> outcome Cell.
Definition BindFunction : Type := list Value -> outcome Value.

Definition existsNull (args : list Value) : bool := existsb isNil args.

Fixpoint convertArgs (args : list Cell) : outcome (list Value) :=
  match args with
  | [] => Ok []
  | arg :: rest =>
      v ← ValueOf arg;
      values ← convertArgs rest;
      Ok (v :: values)
  end.

Definition bindIntFunc (fn : BindFunction) : SQLiteFunction := fun args =>
  values ← convertArgs args;
  ret ← fn values;
  if isNil ret then Ok CNil else i ← ToInt64 ret; Ok (CInt i).

Definition bindFloatFunc (fn : BindFunction) : SQLiteFunction := fun args =>
  values ← convertArgs args;
  ret ← fn values;
  if isNil ret then Ok CNil else f ← ToFloat64 ret; Ok (CFloat f).

Definition bindStringFunc (fn : BindFunction) : SQLiteFunction := fun args =>
  values ← convertArgs args;
  ret ← fn values;
  if isNil ret then Ok CNil else s ← ToString ret; Ok (CText s).

Definition bindBytesFunc (fn : BindFunction) : SQLiteFunction := fun args =>
  values ← convertArgs args;
  ret ← fn values;
  if isNil ret then Ok CNil else s ← ToString ret; Ok (CText s).

Definition bindBoolFunc (fn : BindFunction) : SQLiteFunction := fun args =>
  values ← convertArgs args;
  ret ← fn values;
  if isNil ret then Ok CNil else b ← ToBool ret; Ok (CBool b).

Definition bindDateFunc : BindFunction -> SQLiteFunction := bindStringFunc.
Definition bindDatetimeFunc : BindFunction -> SQLiteFunction := bindStringFunc.
Definition bindTimeFunc : BindFunction -> SQLiteFunction := bindStringFunc.
Definition bindTimestampFunc : BindFunction -> SQLiteFunction := bindStringFunc.
Definition bindJsonFunc : BindFunction -> SQLiteFunction := bindStringFunc.
Definition bindArrayFunc : BindFunction -> SQLiteFunction := bindStringFunc.
Definition bindStructFunc : BindFunction -> SQLiteFunction := bindStringFunc.

Definition ReturnValueConverter : Type := Value -> outcome Cell.

Definition intValueConverter : ReturnValueConverter := fun v =>
  if isNil v then Ok CNil else i ← ToInt64 v; Ok (CInt i).
Definition floatValueConverter : ReturnValueConverter := fun v =>
  if isNil v then Ok CNil else f ← ToFloat64 v; Ok (CFloat f).
Definition stringValueConverter : ReturnValueConverter := fun v =>
  if isNil v then Ok CNil else s ← ToString v; Ok (CText s).
Definition boolValueConverter : ReturnValueConverter := fun v =>
  if isNil v then Ok CNil else b ← ToBool v; Ok (CBool b).
Definition dateValueConverter : ReturnValueConverter := stringValueConverter.
Definition datetimeValueConverter : ReturnValueConverter := stringValueConverter.
Definition timeValueConverter : ReturnValueConverter := stringValueConverter.
Definition timestampValueConverter : ReturnValueConverter := stringValueConverter.
Definition jsonValueConverter : ReturnValueConverter := stringValueConverter.
Definition arrayValueConverter : ReturnValueConverter := stringValueConverter.
Definition structValueConverter : ReturnValueConverter := stringValueConverter.

(** *** Operators *)

Definition bindAdd : BindFunction := fun args =>
  match args with
  | [a0; a1] => builtin "ADD" [AVal a0; AVal a1]
  | _ => Err (invalid_argument_num "ADD" args)
  end.

Definition bindSub : BindFunction := fun args =>
  match args with
  | [a0; a1] => builtin "SUB" [AVal a0; AVal a1]
  | _ => Err (invalid_argument_num "SUB" args)
  end.

Definition bindMul : BindFunction := fun args =>
  match args with
  | [a0; a1] => builtin "MUL" [AVal a0; AVal a1]
  | _ => Err (invalid_argument_num "MUL" args)
  end.

Definition bindOpDiv : BindFunction := fun args =>
  match args with
  | [a0; a1] => builtin "OP_DIV" [AVal a0; AVal a1]
  | _ => Err (invalid_argument_num "OP_DIV" args)
  end.

Definition bindEqual : BindFunction := fun args =>
  match args with
  | [a0; a1] => builtin "EQ" [AVal a0; AVal a1]
  | _ => Err (invalid_argument_num "EQ" args)
  end.

Definition bindNotEqual : BindFunction := fun args =>
  match args with
  | [a0; a1] => builtin "NOT_EQ" [AVal a0; AVal a1]
  | _ => Err (invalid_argument_num "NOT_EQ" args)
  end.

Definition bindGreater : BindFunction := fun args =>
  match args with
  | [a0; a1] => builtin "GT" [AVal a0; AVal a1]
  | _ => Err (invalid_argument_num "GT" args)
  end.

(** The message of this binder names GT, as the source has it. *)
Definition bindGreaterOrEqual : BindFunction := fun args =>
  match args with
  | [a0; a1] => builtin "GTE" [AVal a0; AVal a1]
  | _ => Err (invalid_argument_num "GT" args)
  end.

Definition bindLess : BindFunction := fun args =>
  match args with
  | [a0; a1] => builtin "LT" [AVal a0; AVal a1]
  | _ => Err (invalid_argument_num "LT" args)
  end.

Definition bindLessOrEqual : BindFunction := fun args =>
  match args with
  | [a0; a1] => builtin "LTE" [AVal a0; AVal a1]
  | _ => Err (invalid_argument_num "LTE" args)
  end.

Definition bindBitNot : BindFunction := fun args =>
  match args with
  | [a0] => builtin "BIT_NOT" [AVal a0]
  | _ => Err (invalid_argument_num "BIT_NOT" args)
  end.

Definition bindBitLeftShift : BindFunction := fun args =>
  match args with
  | [a0; a1] => builtin "BIT_LEFT_SHIFT" [AVal a0; AVal a1]
  | _ => Err (invalid_argument_num "BIT_LEFT_SHIFT" args)
  end.

Definition bindBitRightShift : BindFunction := fun args =>
  match args with
  | [a0; a1] => builtin "BIT_RIGHT_SHIFT" [AVal a0; AVal a1]
  | _ => Err (invalid_argument_num "BIT_RIGHT_SHIFT" args)
  end.

Definition bindBitAnd : BindFunction := fun args =>
  match args with
  | [a0; a1] => builtin "BIT_AND" [AVal a0; AVal a1]
  | _ => Err (invalid_argument_num "BIT_AND" args)
  end.

Definition bindBitOr : BindFunction := fun args =>
  match args with
  | [a0; a1] => builtin "BIT_OR" [AVal a0; AVal a1]
  | _ => Err (invalid_argument_num "BIT_OR" args)
  end.

Definition bindBitXor : BindFunction := fun args =>
  match args with
  | [a0; a1] => builtin "BIT_XOR" [AVal a0; AVal a1]
  | _ => Err (invalid_argument_num "BIT_XOR" args)
  end.

Definition bindInArray : BindFunction := fun args =>
  match args with
  | [a0; a1] => builtin "ARRAY_IN" [AVal a0; AVal a1]
  | _ => Err (invalid_argument_num "ARRAY_IN" args)
  end.

Definition bindStructField : BindFunction := fun args =>
  match args with
  | [a0; a1] => i64 ← call ToInt64 a1; builtin "STRUCT_FIELD" [AVal a0; AInt i64]
  | _ => Err (invalid_argument_num "STRUCT_FIELD" args)
  end.

Definition bindArrayAtOffset : BindFunction := fun args =>
  match args with
  | [a0; a1] => i64 ← call ToInt64 a1; builtin "ARRAY_OFFSET" [AVal a0; AInt i64]
  | _ => Err (invalid_argument_num "ARRAY_OFFSET" args)
  end.

Definition bindSafeArrayAtOffset : BindFunction := fun args =>
  match args with
  | [a0; a1] =>
      i64 ← call ToInt64 a1; builtin "ARRAY_SAFE_OFFSET" [AVal a0; AInt i64]
  | _ => Err (invalid_argument_num "ARRAY_SAFE_OFFSET" args)
  end.

Definition bindArrayAtOrdinal : BindFunction := fun args =>
  match args with
  | [a0; a1] => i64 ← call ToInt64 a1; builtin "ARRAY_ORDINAL" [AVal a0; AInt i64]
  | _ => Err (invalid_argument_num "ARRAY_ORDINAL" args)
  end.

Definition bindSafeArrayAtOrdinal : BindFunction := fun args =>
  match args with
  | [a0; a1] =>
      i64 ← call ToInt64 a1; builtin "ARRAY_SAFE_ORDINAL" [AVal a0; AInt i64]
  | _ => Err (invalid_argument_num "ARRAY_SAFE_ORDINAL" args)
  end.

Definition bindIsDistinctFrom : BindFunction := fun args =>
  match args with
  | [a0; a1] => builtin "IS_DISTINCT_FROM" [AVal a0; AVal a1]
  | _ => Err (invalid_argument_num "IS_DISTINCT_FROM" args)
  end.

Definition bindIsNotDistinctFrom : BindFunction := fun args =>
  match args with
  | [a0; a1] => builtin "IS_NOT_DISTINCT_FROM" [AVal a0; AVal a1]
  | _ => Err (invalid_argument_num "IS_NOT_DISTINCT_FROM" args)
  end.

Definition bindExtract : BindFunction := fun args =>
  match args with
  | [a0; a1] =>
      t ← call ToTime a0;
      part ← call ToString a1;
      builtin "EXTRACT" [ATime t; AStr part]
  | _ => Err (invalid_argument_num "EXTRACT" args)
  end.

Definition bindGenerateUUID : BindFunction := fun args =>
  match args with
  | [] => builtin "GENERATE_UUID" []
  | _ => Err (invalid_argument_num "GENERATE_UUID" args)
  end.

Definition bindLike : BindFunction := fun args =>
  match args with
  | [a0; a1] => builtin "LIKE" [AVal a0; AVal a1]
  | _ => Err (invalid_argument_num "LIKE" args)
  end.

Definition bindBetween : BindFunction := fun args =>
  match args with
  | [a0; a1; a2] => builtin "BETWEEN" [AVal a0; AVal a1; AVal a2]
  | _ => Err (invalid_argument_num "BETWEEN" args)
  end.

Definition bindIn : BindFunction := fun args =>
  match args with
  | a0 :: ((_ :: _) as rest) => builtin "IN" [AVal a0; AVals rest]
  | _ => Err (invalid_argument_num "IN" args)
  end.

Definition bindIsNull : BindFunction := fun args =>
  match args with
  | [a0] => builtin "IS_NULL" [AVal a0]
  | _ => Err (invalid_argument_num "IS_NULL" args)
  end.

Definition bindIsTrue : BindFunction := fun args =>
  match args with
  | [a0] => builtin "IS_TRUE" [AVal a0]
  | _ => Err (invalid_argument_num "IS_TRUE" args)
  end.

Definition bindIsFalse : BindFunction := fun args =>
  match args with
  | [a0] => builtin "IS_FALSE" [AVal a0]
  | _ => Err (invalid_argument_num "IS_FALSE" args)
  end.

Definition bindNot : BindFunction := fun args =>
  match args with
  | [a0] => builtin "NOT" [AVal a0]
  | _ => Err (invalid_argument_num "NOT" args)
  end.

Definition bindAnd : BindFunction := fun args =>
  match args with
  | [] => Err (invalid_argument_num "AND" args)
  | _ => builtin "AND" [AVals args]
  end.

Definition bindOr : BindFunction := fun args =>
  match args with
  | [] => Err (invalid_argument_num "OR" args)
  | _ => builtin "OR" [AVals args]
  end.

Definition bindCaseWithValue : BindFunction := fun args =>
  match args with
  | [] => Err (invalid_argument_num "CASE_WITH_VALUE" args)
  | a0 :: rest => builtin "CASE_WITH_VALUE" [AVal a0; AVals rest]
  end.

Definition bindCaseNoValue : BindFunction := fun args =>
  match args with
  | [] => Err (invalid_argument_num "CASE_NO_VALUE" args)
  | _ => builtin "CASE_NO_VALUE" [AVals args]
  end.

Definition bindCoalesce : BindFunction := fun args =>
  match args with
  | [] => Err (invalid_argument_num "COALESCE" args)
  | _ => builtin "COALESCE" [AVals args]
  end.

Definition bindIf : BindFunction := fun args =>
  match args with
  | [a0; a1; a2] => builtin "IF" [AVal a0; AVal a1; AVal a2]
  | _ => Err (invalid_argument_num "IF" args)
  end.

Definition bindIfNull : BindFunction := fun args =>
  match args with
  | [a0; a1] => builtin "IFNULL" [AVal a0; AVal a1]
  | _ => Err (invalid_argument_num "IFNULL" args)
  end.

Definition bindNullIf : BindFunction := fun args =>
  match args with
  | [a0; a1] => builtin "NULLIF" [AVal a0; AVal a1]
  | _ => Err (invalid_argument_num "NULLIF" args)
  end.

Definition bindCast : BindFunction := fun args =>
  match args with
  | [a0] => Ok a0
  | _ => Err (invalid_argument_num "CAST" args)
  end.

Definition bindCastBoolString : BindFunction := fun args =>
  match args with
  | [a0] => b ← call ToBool a0; Ok (StringValue (fmt_t b))
  | _ => Err (invalid_argument_num "CAST" args)
  end.

Definition bindSafeCast : BindFunction := fun args =>
  match args with
  | [a0] => Ok (SafeValue a0)
  | _ => Err (invalid_argument_num "SAFE_CAST" args)
  end.

(** *** Hash functions *)

Definition bindFarmFingerprint : BindFunction := fun args =>
  match args with
  | [a0] =>
      if existsNull args then Ok Null
      else v ← call ToBytes a0; builtin "FARM_FINGERPRINT" [ABytes v]
  | _ => Err (invalid_argument_num "FARM_FINGERPRINT" args)
  end.

Definition bindMD5 : BindFunction := fun args =>
  match args with
  | [a0] =>
      if existsNull args then Ok Null
      else v ← call ToBytes a0; builtin "MD5" [ABytes v]
  | _ => Err (invalid_argument_num "MD5" args)
  end.

Definition bindSha1 : BindFunction := fun args =>
  match args with
  | [a0] =>
      if existsNull args then Ok Null
      else v ← call ToBytes a0; builtin "SHA1" [ABytes v]
  | _ => Err (invalid_argument_num "SHA1" args)
  end.

Definition bindSha256 : BindFunction := fun args =>
  match args with
  | [a0] =>
      if existsNull args then Ok Null
      else v ← call ToBytes a0; builtin "SHA256" [ABytes v]
  | _ => Err (invalid_argument_num "SHA256" args)
  end.

Definition bindSha512 : BindFunction := fun args =>
  match args with
  | [a0] =>
      if existsNull args then Ok Null
      else v ← call ToBytes a0; builtin "SHA512" [ABytes v]
  | _ => Err (invalid_argument_num "SHA512" args)
  end.

Definition timeFromUnixNano (unixNano : Z) : Time := mkTime unixNano "Local".

(** [t.In(loc)] *)
Definition In_ (t : Time) (loc : string) : Time := mkTime (unixNano t) loc.

(** *** String functions *)

Definition bindAscii : BindFunction := fun args =>
  match args with
  | [a0] =>
      if isNil a0 then Ok Null
      else
        ascii ← call ToString a0;
        if String.eqb ascii "" then Ok (IntValue 0)
        else builtin "ASCII" [AStr ascii]
  | _ => Err (invalid_argument_num "ASCII" args)
  end.

Definition bindByteLength : BindFunction := fun args =>
  match args with
  | [a0] =>
      if isNil a0 then Ok Null
      else v ← call ToBytes a0; builtin "BYTE_LENGTH" [ABytes v]
  | _ => Err (invalid_argument_num "BYTE_LENGTH" args)
  end.

Definition bindCharLength : BindFunction := fun args =>
  match args with
  | [a0] =>
      if isNil a0 then Ok Null
      else v ← call ToBytes a0; builtin "CHAR_LENGTH" [ABytes v]
  | _ => Err (invalid_argument_num "CHAR_LENGTH" args)
  end.

Definition bindChr : BindFunction := fun args =>
  match args with
  | [a0] =>
      if isNil a0 then Ok Null
      else v ← call ToInt64 a0; builtin "CHR" [AInt v]
  | _ => Err (invalid_argument_num "CHR" args)
  end.

Definition bindCodePointsToBytes : BindFunction := fun args =>
  match args with
  | [a0] =>
      if isNil a0 then Ok Null
      else v ← call ToArray a0; builtin "CODE_POINTS_TO_BYTES" [AArr v]
  | _ => Err (invalid_argument_num "CODE_POINTS_TO_BYTES" args)
  end.

Definition bindCodePointsToString : BindFunction := fun args =>
  match args with
  | [a0] =>
      if isNil a0 then Ok Null
      else v ← call ToArray a0; builtin "CODE_POINTS_TO_STRING" [AArr v]
  | _ => Err (invalid_argument_num "CODE_POINTS_TO_STRING" args)
  end.

(** [fmt.Errorf("...: %w", err)]: the message is followed by the wrapped
    error's. *)
Definition wrap (msg : string) (e : error) : error :=
  Errorf (msg +:+ Error e).

Definition wrap_err {A} (msg : string) (m : outcome A) : outcome A :=
  match m with
  | Err e => Err (wrap msg e)
  | _ => m
  end.

Definition bindCollate : BindFunction := fun args =>
  match args with
  | [a0; a1] =>
      if isNil a0 then Ok Null
      else if isNil a1 then
        Err (Errorf "COLLATE: collation_specification must be string literal")
      else
        value ← wrap_err "COLLATE: value must be string: " (call ToString a0);
        spec ← wrap_err
                 "COLLATE: collation_specification must be string literal: "
                 (call ToString a1);
        builtin "COLLATE" [AStr value; AStr spec]
  | _ => Err (invalid_argument_num "COLLATE" args)
  end.

Definition bindConcat : BindFunction := fun args =>
  match args with
  | _ :: _ :: _ => builtin "CONCAT" [AVals args]
  | _ => Err (invalid_argument_num "CONCAT" args)
  end.

Definition bindEndsWith : BindFunction := fun args =>
  match args with
  | [a0; a1] => builtin "ENDS_WITH" [AVal a0; AVal a1]
  | _ => Err (invalid_argument_num "ENDS_WITH" args)
  end.

Definition bindFormat : BindFunction := fun args =>
  match args with
  | [] => Err (invalid_argument_num "FORMAT" args)
  | a0 :: rest =>
      format ← call ToString a0;
      builtin "FORMAT" [AStr format; AVals rest]
  end.

Definition bindFromBase32 : BindFunction := fun args =>
  match args with
  | [a0] => v ← call ToString a0; builtin "FROM_BASE32" [AStr v]
  | _ => Err (invalid_argument_num "FROM_BASE32" args)
  end.

Definition bindFromBase64 : BindFunction := fun args =>
  match args with
  | [a0] => v ← call ToString a0; builtin "FROM_BASE64" [AStr v]
  | _ => Err (invalid_argument_num "FROM_BASE64" args)
  end.

Definition bindFromHex : BindFunction := fun args =>
  match args with
  | [a0] => v ← call ToString a0; builtin "FROM_HEX" [AStr v]
  | _ => Err (invalid_argument_num "FROM_HEX" args)
  end.

Definition bindInitcap : BindFunction := fun args =>
  match args with
  | [a0] =>
      if isNil a0 then Ok Null
      else
        value ← call ToString a0;
        builtin "INITCAP" [AStr value; ARunes None]
  | [a0; a1] =>
      if isNil a0 then Ok Null
      else if isNil a1 then Ok Null
      else
        v ← call ToString a1;
        value ← call ToString a0;
        builtin "INITCAP" [AStr value; ARunes (Some v)]
  | _ => Err (invalid_argument_num "INITCAP" args)
  end.

Definition bindInstr : BindFunction := fun args =>
  match args with
  | [a0; a1] =>
      if isNil a0 then Ok Null
      else if isNil a1 then Ok Null
      else builtin "INSTR" [AVal a0; AVal a1; AInt 0; AInt 1]
  | [a0; a1; a2] =>
      if isNil a0 then Ok Null
      else if isNil a1 then Ok Null
      else
        pos ← call ToInt64 a2;
        builtin "INSTR" [AVal a0; AVal a1; AInt pos; AInt 1]
  | [a0; a1; a2; a3] =>
      if isNil a0 then Ok Null
      else if isNil a1 then Ok Null
      else
        pos ← call ToInt64 a2;
        occur ← call ToInt64 a3;
        builtin "INSTR" [AVal a0; AVal a1; AInt pos; AInt occur]
  | _ => Err (invalid_argument_num "INSTR" args)
  end.

Definition bindLeft : BindFunction := fun args =>
  match args with
  | [a0; a1] => length ← call ToInt64 a1; builtin "LEFT" [AVal a0; AInt length]
  | _ => Err (invalid_argument_num "LEFT" args)
  end.

Definition bindLength : BindFunction := fun args =>
  match args with
  | [a0] => if isNil a0 then Ok (IntValue 0) else builtin "LENGTH" [AVal a0]
  | _ => Err (invalid_argument_num "LENGTH" args)
  end.

Definition bindLower : BindFunction := fun args =>
  match args with
  | [a0] => builtin "LOWER" [AVal a0]
  | _ => Err (invalid_argument_num "LOWER" args)
  end.

Definition bindLtrim : BindFunction := fun args =>
  match args with
  | [a0] => builtin "LTRIM" [AVal a0; AStr " "]
  | [a0; a1] => v ← call ToString a1; builtin "LTRIM" [AVal a0; AStr v]
  | _ => Err (invalid_argument_num "LTRIM" args)
  end.

Definition bindStartsWith : BindFunction := fun args =>
  match args with
  | [a0; a1] => builtin "STARTS_WITH" [AVal a0; AVal a1]
  | _ => Err (invalid_argument_num "STARTS_WITH" args)
  end.

Definition bindStrpos : BindFunction := fun args =>
  match args with
  | [a0; a1] => builtin "STRPOS" [AVal a0; AVal a1]
  | _ => Err (invalid_argument_num "STRPOS" args)
  end.

Definition bindSubstr : BindFunction := fun args =>
  match args with
  | [a0; a1] =>
      pos ← call ToInt64 a1;
      builtin "SUBSTR" [AVal a0; AInt pos; AOptInt None]
  | [a0; a1; a2] =>
      pos ← call ToInt64 a1;
      v ← call ToInt64 a2;
      builtin "SUBSTR" [AVal a0; AInt pos; AOptInt (Some v)]
  | _ => Err (invalid_argument_num "SUBSTR" args)
  end.

Definition bindToBase32 : BindFunction := fun args =>
  match args with
  | [a0] => v ← call ToBytes a0; builtin "TO_BASE32" [ABytes v]
  | _ => Err (invalid_argument_num "TO_BASE32" args)
  end.

Definition bindToBase64 : BindFunction := fun args =>
  match args with
  | [a0] => v ← call ToBytes a0; builtin "TO_BASE64" [ABytes v]
  | _ => Err (invalid_argument_num "TO_BASE64" args)
  end.

Definition bindToCodePoints : BindFunction := fun args =>
  match args with
  | [a0] => builtin "TO_CODE_POINTS" [AVal a0]
  | _ => Err (invalid_argument_num "TO_CODE_POINTS" args)
  end.

Definition bindToHex : BindFunction := fun args =>
  match args with
  | [a0] => v ← call ToBytes a0; builtin "TO_HEX" [ABytes v]
  | _ => Err (invalid_argument_num "TO_HEX" args)
  end.

Definition bindTranslate : BindFunction := fun args =>
  match args with
  | [a0; a1; a2] => builtin "TRANSLATE" [AVal a0; AVal a1; AVal a2]
  | _ => Err (invalid_argument_num "TRANSLATE" args)
  end.

Definition bindTrim : BindFunction := fun args =>
  match args with
  | [a0] => builtin "TRIM" [AVal a0; AVal Null]
  | [a0; a1] => builtin "TRIM" [AVal a0; AVal a1]
  | _ => Err (invalid_argument_num "TRIM" args)
  end.

Definition bindUnicode : BindFunction := fun args =>
  match args with
  | [a0] =>
      if isNil a0 then Ok Null
      else v ← call ToString a0; builtin "UNICODE" [AStr v]
  | _ => Err (invalid_argument_num "UNICODE" args)
  end.

Definition bindUpper : BindFunction := fun args =>
  match args with
  | [a0] => if isNil a0 then Ok Null else builtin "UPPER" [AVal a0]
  | _ => Err (invalid_argument_num "UPPER" args)
  end.

(** *** JSON and conversion functions *)

Definition bindToJson : BindFunction := fun args =>
  match args with
  | [a0] => builtin "TO_JSON" [AVal a0; ABool false]
  | [a0; a1] => b ← call ToBool a1; builtin "TO_JSON" [AVal a0; ABool b]
  | _ => Err (invalid_argument_num "TO_JSON" args)
  end.

Definition bindToJsonString : BindFunction := fun args =>
  match args with
  | [a0] => builtin "TO_JSON_STRING" [AVal a0; ABool false]
  | [a0; a1] => b ← call ToBool a1; builtin "TO_JSON_STRING" [AVal a0; ABool b]
  | _ => Err (invalid_argument_num "TO_JSON_STRING" args)
  end.

Definition bindBool : BindFunction := fun args =>
  match args with
  | [a0] => Ok a0
  | _ => Err (invalid_argument_num "BOOL" args)
  end.

Definition bindInt64 : BindFunction := fun args =>
  match args with
  | [a0] => Ok a0
  | _ => Err (invalid_argument_num "INT64" args)
  end.

Definition bindDouble : BindFunction := fun args =>
  match args with
  | [a0; a1] =>
      mode ← call ToString a1;
      if String.eqb mode "exact" then Ok a0
      else if String.eqb mode "round" then Ok a0
      else Err (Errorf ("unexpected wide_number_mode: " +:+ mode))
  | _ => Err (invalid_argument_num "FLOAT64" args)
  end.

Definition bindJsonType : BindFunction := fun args =>
  match args with
  | [a0] =>
      match a0 with
      | JsonValue _ => builtin "JSON_TYPE" [AVal a0]
      | _ =>
          Err (Errorf ("JSON_TYPE: failed to convert " +:+ fmt_T a0
                       +:+ " to JSON value"))
      end
  | _ => Err (invalid_argument_num "JSON_TYPE" args)
  end.

(** *** Mathematical functions *)

Definition bindAbs : BindFunction := fun args =>
  match args with
  | [a0] => builtin "ABS" [AVal a0]
  | _ => Err (invalid_argument_num "ABS" args)
  end.

Definition bindSign : BindFunction := fun args =>
  match args with
  | [a0] => builtin "SIGN" [AVal a0]
  | _ => Err (invalid_argument_num "SIGN" args)
  end.

Definition bindIsInf : BindFunction := fun args =>
  match args with
  | [a0] => builtin "IS_INF" [AVal a0]
  | _ => Err (invalid_argument_num "IS_INF" args)
  end.

Definition bindIsNaN : BindFunction := fun args =>
  match args with
  | [a0] => builtin "IS_NAN" [AVal a0]
  | _ => Err (invalid_argument_num "IS_NAN" args)
  end.

Definition bindIEEEDivide : BindFunction := fun args =>
  match args with
  | [a0; a1] => builtin "IEEE_DIVIDE" [AVal a0; AVal a1]
  | _ => Err (invalid_argument_num "IEEE_DIVIDE" args)
  end.

Definition bindRand : BindFunction := fun args =>
  match args with
  | [] => builtin "RAND" []
  | _ => Err (invalid_argument_num "RAND" args)
  end.

Definition bindSqrt : BindFunction := fun args =>
  match args with
  | [a0] => builtin "SQRT" [AVal a0]
  | _ => Err (invalid_argument_num "SQRT" args)
  end.

Definition bindPow : BindFunction := fun args =>
  match args with
  | [a0; a1] => builtin "POW" [AVal a0; AVal a1]
  | _ => Err (invalid_argument_num "POW(ER)" args)
  end.

Definition bindExp : BindFunction := fun args =>
  match args with
  | [a0] => builtin "EXP" [AVal a0]
  | _ => Err (invalid_argument_num "EXP" args)
  end.

Definition bindLn : BindFunction := fun args =>
  match args with
  | [a0] => builtin "LN" [AVal a0]
  | _ => Err (invalid_argument_num "LN" args)
  end.

Definition bindLog : BindFunction := fun args =>
  match args with
  | [a0] => builtin "LN" [AVal a0]
  | [a0; a1] => builtin "LOG" [AVal a0; AVal a1]
  | _ => Err (invalid_argument_num "LOG" args)
  end.

Definition bindLog10 : BindFunction := fun args =>
  match args with
  | [a0] => builtin "LOG10" [AVal a0]
  | _ => Err (invalid_argument_num "LOG10" args)
  end.

Definition bindGreatest : BindFunction := fun args =>
  builtin "GREATEST" [AVals args].

Definition bindLeast : BindFunction := fun args =>
  builtin "LEAST" [AVals args].

Definition bindDiv : BindFunction := fun args =>
  match args with
  | [a0; a1] => builtin "DIV" [AVal a0; AVal a1]
  | _ => Err (invalid_argument_num "DIV" args)
  end.

Definition bindSafeDivide : BindFunction := fun args =>
  match args with
  | [a0; a1] => builtin "SAFE_DIVIDE" [AVal a0; AVal a1]
  | _ => Err (invalid_argument_num "SAFE_DIVIDE" args)
  end.

Definition bindSafeMultiply : BindFunction := fun args =>
  match args with
  | [a0; a1] => builtin "SAFE_MULTIPLY" [AVal a0; AVal a1]
  | _ => Err (invalid_argument_num "SAFE_MULTIPLY" args)
  end.

Definition bindSafeNegate : BindFunction := fun args =>
  match args with
  | [a0] => builtin "SAFE_NEGATE" [AVal a0]
  | _ => Err (invalid_argument_num "SAFE_NEGATE" args)
  end.

Definition bindSafeAdd : BindFunction := fun args =>
  match args with
  | [a0; a1] => builtin "SAFE_ADD" [AVal a0; AVal a1]
  | _ => Err (invalid_argument_num "SAFE_ADD" args)
  end.

Definition bindSafeSubtract : BindFunction := fun args =>
  match args with
  | [a0; a1] => builtin "SAFE_SUBTRACT" [AVal a0; AVal a1]
  | _ => Err (invalid_argument_num "SAFE_SUBTRACT" args)
  end.

Definition bindMod : BindFunction := fun args =>
  match args with
  | [a0; a1] => builtin "MOD" [AVal a0; AVal a1]
  | _ => Err (invalid_argument_num "MOD" args)
  end.

Definition bindRound : BindFunction := fun args =>
  match args with
  | [a0] => builtin "ROUND" [AVal a0]
  | _ => Err (invalid_argument_num "ROUND" args)
  end.

Definition bindTrunc : BindFunction := fun args =>
  match args with
  | [a0] => builtin "TRUNC" [AVal a0]
  | _ => Err (invalid_argument_num "TRUNC" args)
  end.

Definition bindCeil : BindFunction := fun args =>
  match args with
  | [a0] => builtin "CEIL" [AVal a0]
  | _ => Err (invalid_argument_num "CEIL(ING)" args)
  end.

Definition bindFloor : BindFunction := fun args =>
  match args with
  | [a0] => builtin "FLOOR" [AVal a0]
  | _ => Err (invalid_argument_num "FLOOR" args)
  end.

Definition bindCos : BindFunction := fun args =>
  match args with
  | [a0] => builtin "COS" [AVal a0]
  | _ => Err (invalid_argument_num "COS" args)
  end.

Definition bindCosh : BindFunction := fun args =>
  match args with
  | [a0] => builtin "COSH" [AVal a0]
  | _ => Err (invalid_argument_num "COSH" args)
  end.

Definition bindAcos : BindFunction := fun args =>
  match args with
  | [a0] => builtin "ACOS" [AVal a0]
  | _ => Err (invalid_argument_num "ACOS" args)
  end.

Definition bindAcosh : BindFunction := fun args =>
  match args with
  | [a0] => builtin "ACOSH" [AVal a0]
  | _ => Err (invalid_argument_num "ACOSH" args)
  end.

Definition bindSin : BindFunction := fun args =>
  match args with
  | [a0] => builtin "SIN" [AVal a0]
  | _ => Err (invalid_argument_num "SIN" args)
  end.

Definition bindSinh : BindFunction := fun args =>
  match args with
  | [a0] => builtin "SINH" [AVal a0]
  | _ => Err (invalid_argument_num "SINH" args)
  end.

Definition bindAsin : BindFunction := fun args =>
  match args with
  | [a0] => builtin "ASIN" [AVal a0]
  | _ => Err (invalid_argument_num "ASIN" args)
  end.

Definition bindAsinh : BindFunction := fun args =>
  match args with
  | [a0] => builtin "ASINH" [AVal a0]
  | _ => Err (invalid_argument_num "ASINH" args)
  end.

Definition bindTan : BindFunction := fun args =>
  match args with
  | [a0] => builtin "TAN" [AVal a0]
  | _ => Err (invalid_argument_num "TAN" args)
  end.

Definition bindTanh : BindFunction := fun args =>
  match args with
  | [a0] => builtin "TANH" [AVal a0]
  | _ => Err (invalid_argument_num "TANH" args)
  end.

Definition bindAtan : BindFunction := fun args =>
  match args with
  | [a0] => builtin "ATAN" [AVal a0]
  | _ => Err (invalid_argument_num "ATAN" args)
  end.

Definition bindAtanh : BindFunction := fun args =>
  match args with
  | [a0] => builtin "ATANH" [AVal a0]
  | _ => Err (invalid_argument_num "ATANH" args)
  end.

Definition bindAtan2 : BindFunction := fun args =>
  match args with
  | [a0; a1] => builtin "ATAN2" [AVal a0; AVal a1]
  | _ => Err (invalid_argument_num "ATAN2" args)
  end.

Definition bindRangeBucket : BindFunction := fun args =>
  match args with
  | [a0; a1] =>
      array ← call ToArray a1;
      builtin "RANGE_BUCKET" [AVal a0; AArr array]
  | _ => Err (invalid_argument_num "RANGE_BUCKET" args)
  end.

(** *** Date functions *)

Definition bindCurrentDate : BindFunction := fun args =>
  match args with
  | [] => builtin "CURRENT_DATE" [AStr ""]
  | [a0; a1] =>
      unixNano ← call ToInt64 a0;
      zone ← call ToString a1;
      loc ← LoadLocation zone;
      builtin "CURRENT_DATE_WITH_TIME" [ATime (In_ (timeFromUnixNano unixNano) loc)]
  | a0 :: _ =>
      match a0 with
      | IntValue _ =>
          unixNano ← call ToInt64 a0;
          builtin "CURRENT_DATE_WITH_TIME" [ATime (timeFromUnixNano unixNano)]
      | StringValue _ =>
          zone ← call ToString a0;
          builtin "CURRENT_DATE" [AStr zone]
      | _ => Err (Errorf ("CURRENT_DATE: unexpected argument type " +:+ fmt_T a0))
      end
  end.

Definition bindDate : BindFunction := fun args =>
  if existsNull args then Ok Null else builtin "DATE" [AVals args].

Definition bindDateAdd : BindFunction := fun args =>
  match args with
  | [a0; a1; a2] =>
      if existsNull args then Ok Null
      else
        t ← call ToTime a0;
        num ← call ToInt64 a1;
        part ← call ToString a2;
        builtin "DATE_ADD" [ATime t; AInt num; AStr part]
  | _ => Err (invalid_argument_num "DATE_ADD" args)
  end.

Definition bindDateSub : BindFunction := fun args =>
  match args with
  | [a0; a1; a2] =>
      if existsNull args then Ok Null
      else
        t ← call ToTime a0;
        num ← call ToInt64 a1;
        part ← call ToString a2;
        builtin "DATE_SUB" [ATime t; AInt num; AStr part]
  | _ => Err (invalid_argument_num "DATE_SUB" args)
  end.

Definition bindDateDiff : BindFunction := fun args =>
  match args with
  | [a0; a1; a2] =>
      if existsNull args then Ok Null
      else
        t ← call ToTime a0;
        t2 ← call ToTime a1;
        part ← call ToString a2;
        builtin "DATE_DIFF" [ATime t; ATime t2; AStr part]
  | _ => Err (invalid_argument_num "DATE_DIFF" args)
  end.

Definition bindDateTrunc : BindFunction := fun args =>
  match args with
  | [a0; a1] =>
      if existsNull args then Ok Null
      else
        t ← call ToTime a0;
        part ← call ToString a1;
        builtin "DATE_TRUNC" [ATime t; AStr part]
  | _ => Err (invalid_argument_num "DATE_TRUNC" args)
  end.

Definition bindDateFromUnixDate : BindFunction := fun args =>
  match args with
  | [a0] =>
      if existsNull args then Ok Null
      else
        unixdate ← call ToInt64 a0;
        builtin "DATE_FROM_UNIX_DATE" [AInt unixdate]
  | _ => Err (invalid_argument_num "DATE_FROM_UNIX_DATE" args)
  end.

Definition bindFormatDate : BindFunction := fun args =>
  match args with
  | [a0; a1] =>
      if existsNull args then Ok Null
      else
        format ← call ToString a0;
        t ← call ToTime a1;
        builtin "FORMAT_DATE" [AStr format; ATime t]
  | _ => Err (invalid_argument_num "FORMAT_DATE" args)
  end.

Definition bindLastDay : BindFunction := fun args =>
  match args with
  | [a0] =>
      if existsNull args then Ok Null
      else t ← call ToTime a0; builtin "LAST_DAY" [ATime t; AStr "MONTH"]
  | [a0; a1] =>
      if existsNull args then Ok Null
      else
        t ← call ToTime a0;
        p ← call ToString a1;
        builtin "LAST_DAY" [ATime t; AStr p]
  | _ => Err (invalid_argument_num "LAST_DAY" args)
  end.

Definition bindParseDate : BindFunction := fun args =>
  match args with
  | [a0; a1] =>
      if existsNull args then Ok Null
      else
        format ← call ToString a0;
        target ← call ToString a1;
        builtin "PARSE_DATE" [AStr format; AStr target]
  | _ => Err (invalid_argument_num "PARSE_DATE" args)
  end.

Definition bindUnixDate : BindFunction := fun args =>
  match args with
  | [a0] =>
      if existsNull args then Ok Null
      else
        t ← call ToTime a0;
        builtin "UNIX_DATE" [ATime t]
  | _ => Err (invalid_argument_num "UNIX_DATE" args)
  end.

(** *** Datetime functions *)

Definition bindCurrentDatetime : BindFunction := fun args =>
  match args with
  | [] => builtin "CURRENT_DATETIME" [AStr ""]
  | [a0; a1] =>
      unixNano ← call ToInt64 a0;
      zone ← call ToString a1;
      loc ← LoadLocation zone;
      builtin "CURRENT_DATETIME_WITH_TIME" [ATime (In_ (timeFromUnixNano unixNano) loc)]
  | a0 :: _ =>
      match a0 with
      | IntValue _ =>
          unixNano ← call ToInt64 a0;
          builtin "CURRENT_DATETIME_WITH_TIME" [ATime (timeFromUnixNano unixNano)]
      | StringValue _ =>
          zone ← call ToString a0;
          builtin "CURRENT_DATETIME" [AStr zone]
      | _ => Err (Errorf ("CURRENT_DATETIME: unexpected argument type " +:+ fmt_T a0))
      end
  end.

Definition bindDatetime : BindFunction := fun args =>
  if existsNull args then Ok Null else builtin "DATETIME" [AVals args].

Definition bindDatetimeAdd : BindFunction := fun args =>
  match args with
  | [a0; a1; a2] =>
      if existsNull args then Ok Null
      else
        t ← call ToTime a0;
        num ← call ToInt64 a1;
        part ← call ToString a2;
        builtin "DATETIME_ADD" [ATime t; AInt num; AStr part]
  | _ => Err (invalid_argument_num "DATETIME_ADD" args)
  end.

Definition bindDatetimeSub : BindFunction := fun args =>
  match args with
  | [a0; a1; a2] =>
      if existsNull args then Ok Null
      else
        t ← call ToTime a0;
        num ← call ToInt64 a1;
        part ← call ToString a2;
        builtin "DATETIME_SUB" [ATime t; AInt num; AStr part]
  | _ => Err (invalid_argument_num "DATETIME_SUB" args)
  end.

Definition bindDatetimeDiff : BindFunction := fun args =>
  match args with
  | [a0; a1; a2] =>
      if existsNull args then Ok Null
      else
        t ← call ToTime a0;
        t2 ← call ToTime a1;
        part ← call ToString a2;
        builtin "DATETIME_DIFF" [ATime t; ATime t2; AStr part]
  | _ => Err (invalid_argument_num "DATETIME_DIFF" args)
  end.

Definition bindDatetimeTrunc : BindFunction := fun args =>
  match args with
  | [a0; a1] =>
      if existsNull args then Ok Null
      else
        t ← call ToTime a0;
        part ← call ToString a1;
        builtin "DATETIME_TRUNC" [ATime t; AStr part]
  | _ => Err (invalid_argument_num "DATETIME_TRUNC" args)
  end.

Definition bindFormatDatetime : BindFunction := fun args =>
  match args with
  | [a0; a1] =>
      if existsNull args then Ok Null
      else
        format ← call ToString a0;
        t ← call ToTime a1;
        builtin "FORMAT_DATETIME" [AStr format; ATime t]
  | _ => Err (invalid_argument_num "FORMAT_DATETIME" args)
  end.

Definition bindParseDatetime : BindFunction := fun args =>
  match args with
  | [a0; a1] =>
      if existsNull args then Ok Null
      else
        format ← call ToString a0;
        target ← call ToString a1;
        builtin "PARSE_DATETIME" [AStr format; AStr target]
  | _ => Err (invalid_argument_num "PARSE_DATETIME" args)
  end.

(** *** Time functions *)

Definition bindCurrentTime : BindFunction := fun args =>
  match args with
  | [] => builtin "CURRENT_TIME" [AStr ""]
  | [a0; a1] =>
      unixNano ← call ToInt64 a0;
      zone ← call ToString a1;
      loc ← LoadLocation zone;
      builtin "CURRENT_TIME_WITH_TIME" [ATime (In_ (timeFromUnixNano unixNano) loc)]
  | a0 :: _ =>
      match a0 with
      | IntValue _ =>
          unixNano ← call ToInt64 a0;
          builtin "CURRENT_TIME_WITH_TIME" [ATime (timeFromUnixNano unixNano)]
      | StringValue _ =>
          zone ← call ToString a0;
          builtin "CURRENT_TIME" [AStr zone]
      | _ => Err (Errorf ("CURRENT_TIME: unexpected argument type " +:+ fmt_T a0))
      end
  end.

Definition bindTime : BindFunction := fun args =>
  if existsNull args then Ok Null else builtin "TIME" [AVals args].

Definition bindTimeAdd : BindFunction := fun args =>
  match args with
  | [a0; a1; a2] =>
      if existsNull args then Ok Null
      else
        t ← call ToTime a0;
        num ← call ToInt64 a1;
        part ← call ToString a2;
        builtin "TIME_ADD" [ATime t; AInt num; AStr part]
  | _ => Err (invalid_argument_num "TIME_ADD" args)
  end.

Definition bindTimeSub : BindFunction := fun args =>
  match args with
  | [a0; a1; a2] =>
      if existsNull args then Ok Null
      else
        t ← call ToTime a0;
        num ← call ToInt64 a1;
        part ← call ToString a2;
        builtin "TIME_SUB" [ATime t; AInt num; AStr part]
  | _ => Err (invalid_argument_num "TIME_SUB" args)
  end.

Definition bindTimeDiff : BindFunction := fun args =>
  match args with
  | [a0; a1; a2] =>
      if existsNull args then Ok Null
      else
        t ← call ToTime a0;
        t2 ← call ToTime a1;
        part ← call ToString a2;
        builtin "TIME_DIFF" [ATime t; ATime t2; AStr part]
  | _ => Err (invalid_argument_num "TIME_DIFF" args)
  end.

Definition bindTimeTrunc : BindFunction := fun args =>
  match args with
  | [a0; a1] =>
      if existsNull args then Ok Null
      else
        t ← call ToTime a0;
        part ← call ToString a1;
        builtin "TIME_TRUNC" [ATime t; AStr part]
  | _ => Err (invalid_argument_num "TIME_TRUNC" args)
  end.

Definition bindFormatTime : BindFunction := fun args =>
  match args with
  | [a0; a1] =>
      if existsNull args then Ok Null
      else
        format ← call ToString a0;
        t ← call ToTime a1;
        builtin "FORMAT_TIME" [AStr format; ATime t]
  | _ => Err (invalid_argument_num "FORMAT_TIME" args)
  end.

Definition bindParseTime : BindFunction := fun args =>
  match args with
  | [a0; a1] =>
      if existsNull args then Ok Null
      else
        format ← call ToString a0;
        target ← call ToString a1;
        builtin "PARSE_TIME" [AStr format; AStr target]
  | _ => Err (invalid_argument_num "PARSE_TIME" args)
  end.

(** *** Timestamp functions *)

Definition bindCurrentTimestamp : BindFunction := fun args =>
  match args with
  | [] => builtin "CURRENT_TIMESTAMP" [AStr ""]
  | [a0; a1] =>
      unixNano ← call ToInt64 a0;
      zone ← call ToString a1;
      loc ← LoadLocation zone;
      builtin "CURRENT_TIMESTAMP_WITH_TIME" [ATime (In_ (timeFromUnixNano unixNano) loc)]
  | a0 :: _ =>
      match a0 with
      | IntValue _ =>
          unixNano ← call ToInt64 a0;
          builtin "CURRENT_TIMESTAMP_WITH_TIME" [ATime (timeFromUnixNano unixNano)]
      | StringValue _ =>
          zone ← call ToString a0;
          builtin "CURRENT_TIMESTAMP" [AStr zone]
      | _ => Err (Errorf ("CURRENT_TIMESTAMP: unexpected argument type " +:+ fmt_T a0))
      end
  end.

Definition bindString : BindFunction := fun args =>
  let body (a0 : Value) (zone : outcome string) : outcome Value :=
    match a0 with
    | JsonValue _ => Ok (StringValue (SprintInterface a0))
    | _ =>
        t ← call ToTime a0;
        zone ← zone;
        builtin "STRING" [ATime t; AStr zone]
    end in
  match args with
  | [a0] => if existsNull args then Ok Null else body a0 (Ok "")
  | [a0; a1] =>
      if existsNull args then Ok Null else body a0 (call ToString a1)
  | _ => Err (invalid_argument_num "STRING" args)
  end.

Definition bindTimestamp : BindFunction := fun args =>
  match args with
  | [a0] =>
      if existsNull args then Ok Null
      else builtin "TIMESTAMP" [AVal a0; AStr ""]
  | [a0; a1] =>
      if existsNull args then Ok Null
      else z ← call ToString a1; builtin "TIMESTAMP" [AVal a0; AStr z]
  | _ => Err (invalid_argument_num "TIMESTAMP" args)
  end.

Definition bindTimestampAdd : BindFunction := fun args =>
  match args with
  | [a0; a1; a2] =>
      if existsNull args then Ok Null
      else
        t ← call ToTime a0;
        num ← call ToInt64 a1;
        part ← call ToString a2;
        builtin "TIMESTAMP_ADD" [ATime t; AInt num; AStr part]
  | _ => Err (invalid_argument_num "TIMESTAMP_ADD" args)
  end.

Definition bindTimestampSub : BindFunction := fun args =>
  match args with
  | [a0; a1; a2] =>
      if existsNull args then Ok Null
      else
        t ← call ToTime a0;
        num ← call ToInt64 a1;
        part ← call ToString a2;
        builtin "TIMESTAMP_SUB" [ATime t; AInt num; AStr part]
  | _ => Err (invalid_argument_num "TIMESTAMP_SUB" args)
  end.

Definition bindTimestampDiff : BindFunction := fun args =>
  match args with
  | [a0; a1; a2] =>
      if existsNull args then Ok Null
      else
        t ← call ToTime a0;
        t2 ← call ToTime a1;
        part ← call ToString a2;
        builtin "TIMESTAMP_DIFF" [ATime t; ATime t2; AStr part]
  | _ => Err (invalid_argument_num "TIMESTAMP_DIFF" args)
  end.

Definition bindTimestampTrunc : BindFunction := fun args =>
  match args with
  | [a0; a1] =>
      if existsNull args then Ok Null
      else
        t ← call ToTime a0;
        part ← call ToString a1;
        builtin "TIMESTAMP_TRUNC" [ATime t; AStr part; AStr ""]
  | [a0; a1; a2] =>
      if existsNull args then Ok Null
      else
        t ← call ToTime a0;
        part ← call ToString a1;
        z ← call ToString a2;
        builtin "TIMESTAMP_TRUNC" [ATime t; AStr part; AStr z]
  | _ => Err (invalid_argument_num "TIMESTAMP_TRUNC" args)
  end.

Definition bindFormatTimestamp : BindFunction := fun args =>
  match args with
  | [a0; a1] =>
      if existsNull args then Ok Null
      else
        format ← call ToString a0;
        t ← call ToTime a1;
        builtin "FORMAT_TIMESTAMP" [AStr format; ATime t; AStr ""]
  | [a0; a1; a2] =>
      if existsNull args then Ok Null
      else
        format ← call ToString a0;
        t ← call ToTime a1;
        z ← call ToString a2;
        builtin "FORMAT_TIMESTAMP" [AStr format; ATime t; AStr z]
  | _ => Err (invalid_argument_num "FORMAT_TIMESTAMP" args)
  end.

Definition bindParseTimestamp : BindFunction := fun args =>
  match args with
  | [a0; a1] =>
      if existsNull args then Ok Null
      else
        format ← call ToString a0;
        target ← call ToString a1;
        builtin "PARSE_TIMESTAMP" [AStr format; AStr target]
  | _ => Err (invalid_argument_num "PARSE_TIMESTAMP" args)
  end.

Definition bindTimestampSeconds : BindFunction := fun args =>
  match args with
  | [a0] =>
      if existsNull args then Ok Null
      else
        sec ← call ToInt64 a0;
        builtin "TIMESTAMP_SECONDS" [AInt sec]
  | _ => Err (invalid_argument_num "TIMESTAMP_SECONDS" args)
  end.

Definition bindTimestampMillis : BindFunction := fun args =>
  match args with
  | [a0] =>
      if existsNull args then Ok Null
      else
        millisec ← call ToInt64 a0;
        builtin "TIMESTAMP_MILLIS" [AInt millisec]
  | _ => Err (invalid_argument_num "TIMESTAMP_MILLIS" args)
  end.

Definition bindTimestampMicros : BindFunction := fun args =>
  match args with
  | [a0] =>
      if existsNull args then Ok Null
      else
        microsec ← call ToInt64 a0;
        builtin "TIMESTAMP_MICROS" [AInt microsec]
  | _ => Err (invalid_argument_num "TIMESTAMP_MICROS" args)
  end.

Definition bindUnixSeconds : BindFunction := fun args =>
  match args with
  | [a0] =>
      if existsNull args then Ok Null
      else
        t ← call ToTime a0;
        builtin "UNIX_SECONDS" [ATime t]
  | _ => Err (invalid_argument_num "UNIX_SECONDS" args)
  end.

Definition bindUnixMillis : BindFunction := fun args =>
  match args with
  | [a0] =>
      if existsNull args then Ok Null
      else
        t ← call ToTime a0;
        builtin "UNIX_MILLIS" [ATime t]
  | _ => Err (invalid_argument_num "UNIX_MILLIS" args)
  end.

Definition bindUnixMicros : BindFunction := fun args =>
  match args with
  | [a0] =>
      if existsNull args then Ok Null
      else
        t ← call ToTime a0;
        builtin "UNIX_MICROS" [ATime t]
  | _ => Err (invalid_argument_num "UNIX_MICROS" args)
  end.

(** *** Array functions *)

Definition bindDecodeArray : BindFunction := fun args =>
  match args with
  | [a0] =>
      if existsNull args then Ok Null
      else
        s ← call ToString a0;
        builtin "DECODE_ARRAY" [AStr s]
  | _ => Err (invalid_argument_num "DECODE_ARRAY" args)
  end.

Definition bindArrayConcat : BindFunction := fun args =>
  match args with
  | [] => Err (Errorf "ARRAY_CONCAT: required arguments")
  | _ => builtin "ARRAY_CONCAT" [AVals args]
  end.

Definition bindArrayLength : BindFunction := fun args =>
  match args with
  | [a0] => arr ← call ToArray a0; builtin "ARRAY_LENGTH" [AArr arr]
  | _ => Err (invalid_argument_num "ARRAY_LENGTH" args)
  end.

Definition bindArrayToString : BindFunction := fun args =>
  match args with
  | a0 :: a1 :: rest =>
      arr ← call ToArray a0;
      delim ← call ToString a1;
      match rest with
      | [a2] =>
          nullText ← call ToString a2;
          builtin "ARRAY_TO_STRING" [AArr arr; AStr delim; AStr nullText]
      | _ => builtin "ARRAY_TO_STRING" [AArr arr; AStr delim]
      end
  | _ => Err (invalid_argument_num "ARRAY_TO_STRING" args)
  end.

Definition bindGenerateArray : BindFunction := fun args =>
  match args with
  | [a0; a1; a2] => builtin "GENERATE_ARRAY" [AVal a0; AVal a1; AVal a2]
  | [a0; a1] => builtin "GENERATE_ARRAY" [AVal a0; AVal a1]
  | _ => Err (invalid_argument_num "GENERATE_ARRAY" args)
  end.

Definition bindGenerateDateArray : BindFunction := fun args =>
  match args with
  | a0 :: a1 :: rest =>
      builtin "GENERATE_DATE_ARRAY" [AVal a0; AVal a1; AVals rest]
  | _ => Err (invalid_argument_num "GENERATE_DATE_ARRAY" args)
  end.

Definition bindGenerateTimestampArray : BindFunction := fun args =>
  match args with
  | [a0; a1; a2; a3] =>
      step ← call ToInt64 a2;
      part ← call ToString a3;
      builtin "GENERATE_TIMESTAMP_ARRAY" [AVal a0; AVal a1; AInt step; AStr part]
  | _ => Err (invalid_argument_num "GENERATE_TIMESTAMP_ARRAY" args)
  end.

Definition bindArrayReverse : BindFunction := fun args =>
  match args with
  | [a0] => arr ← call ToArray a0; builtin "ARRAY_REVERSE" [AArr arr]
  | _ => Err (invalid_argument_num "ARRAY_REVERSE" args)
  end.

Definition bindMakeArray : BindFunction := fun args =>
  builtin "MAKE_ARRAY" [AVals args].

Definition bindMakeStruct : BindFunction := fun args =>
  if Nat.even (length args) then builtin "MAKE_STRUCT" [AVals args]
  else Err (Errorf ("MAKE_STRUCT: unexpected argument num " +:+ fmt_d (len args))).

(** *** Option and window-option markers *)

Definition bindDistinct : BindFunction := fun args =>
  match args with
  | [] => builtin "DISTINCT" []
  | _ => Err (invalid_argument_num "DISTINCT" args)
  end.

Definition bindLimit : BindFunction := fun args =>
  match args with
  | [a0] => i64 ← call ToInt64 a0; builtin "LIMIT" [AInt i64]
  | _ => Err (invalid_argument_num "LIMIT" args)
  end.

Definition bindIgnoreNulls : BindFunction := fun args =>
  match args with
  | [] => builtin "IGNORE_NULLS" []
  | _ => Err (invalid_argument_num "IGNORE_NULLS" args)
  end.

Definition bindOrderBy : BindFunction := fun args =>
  match args with
  | [a0; a1] => b ← call ToBool a1; builtin "ORDER_BY" [AVal a0; ABool b]
  | _ => Err (invalid_argument_num "ORDER_BY" args)
  end.

Definition bindWindowFrameUnit : BindFunction := fun args =>
  match args with
  | [a0] => i64 ← call ToInt64 a0; builtin "WINDOW_FRAME_UNIT" [AInt i64]
  | _ => Err (invalid_argument_num "WINDOW_FRAME_UNIT" args)
  end.

Definition bindWindowPartition : BindFunction := fun args =>
  match args with
  | [a0] => builtin "WINDOW_PARTITION" [AVal a0]
  | _ => Err (invalid_argument_num "WINDOW_PARTITION" args)
  end.

Definition bindWindowBoundaryStart : BindFunction := fun args =>
  match args with
  | [x0; x1] =>
      a0 ← call ToInt64 x0;
      a1 ← call ToInt64 x1;
      builtin "WINDOW_BOUNDARY_START" [AInt a0; AInt a1]
  | _ => Err (invalid_argument_num "WINDOW_BOUNDARY_START" args)
  end.

Definition bindWindowBoundaryEnd : BindFunction := fun args =>
  match args with
  | [x0; x1] =>
      a0 ← call ToInt64 x0;
      a1 ← call ToInt64 x1;
      builtin "WINDOW_BOUNDARY_END" [AInt a0; AInt a1]
  | _ => Err (invalid_argument_num "WINDOW_BOUNDARY_END" args)
  end.

Definition bindWindowRowID : BindFunction := fun args =>
  match args with
  | [x0] => a0 ← call ToInt64 x0; builtin "WINDOW_ROWID" [AInt a0]
  | _ => Err (invalid_argument_num "WINDOW_ROWID" args)
  end.

Definition bindWindowOrderBy : BindFunction := fun args =>
  match args with
  | [a0; a1] =>
      isAsc ← call ToBool a1;
      builtin "WINDOW_ORDER_BY" [AVal a0; ABool isAsc]
  | _ => Err (invalid_argument_num "WINDOW_ORDER_BY" args)
  end.

End Binders.

(** ** Aggregator and WindowAggregator *)

(** The aggregate implementations ([ARRAY_AGG], [SUM], [WINDOW_SUM], ...)
    that the aggregate binders wrap, addressed by their Go name.  [S] is the
    state of the implementation object a step closure captures, [W] is
    [*WindowFuncStatus] and [G] is [*WindowFuncAggregatedStatus]. *)
Class AggregateRuntime (S W G : Type) : Type := {
  agg_new : string -> list Arg -> S;
  agg_Step : string -> list Arg -> AggregatorOption -> S -> outcome S;
  agg_Done : string -> S -> outcome Value;
  newWindowFuncAggregatedStatus : G;
  win_Step : string -> list Arg -> W -> G -> outcome G;
  win_Done : string -> G -> outcome Value
}.

(** [type Aggregator struct].  The closures [step] and [done] share the
    implementation object they capture; [state] is that object, threaded
    through explicitly. *)
Record Aggregator (S : Type) : Type := mkAggregator {
  distinctMap : gset string;
  state : S;
  step : list Value -> AggregatorOption -> S -> outcome S;
  done : S -> outcome Value;
  converter : ReturnValueConverter
}.
Arguments mkAggregator {S}.
Arguments distinctMap {S}.
Arguments state {S}.
Arguments step {S}.
Arguments done {S}.
Arguments converter {S}.

(** [type WindowAggregator struct] *)
Record WindowAggregator (W G : Type) : Type := mkWindowAggregator {
  w_distinctMap : gset string;
  agg : G;
  w_step : list Value -> AggregatorOption -> W -> G -> outcome G;
  w_done : G -> outcome Value;
  w_converter : ReturnValueConverter
}.
Arguments mkWindowAggregator {W G}.
Arguments w_distinctMap {W G}.
Arguments agg {W G}.
Arguments w_step {W G}.
Arguments w_done {W G}.
Arguments w_converter {W G}.

Section Aggregators.
Context `{VM : ValueMethods} `{RT : Runtime}.

(** The loop of [Step] under [opt.IgnoreNulls]: every nil value of the
    row is left out, the others keep their order. *)
Definition filtered (values : list Value) : list Value :=
  List.filter (fun v => negb (isNil v)) values.

(** [a.step(values, opt)], the state of the aggregator updated. *)
Definition Aggregator_step {S} (a : Aggregator S) (seen : gset string)
    (values : list Value) (opt : AggregatorOption) : outcome (Aggregator S) :=
  s ← step a values opt (state a);
  Ok (mkAggregator seen s (step a) (done a) (converter a)).

(** [Aggregator.Step] from the [if opt.Distinct] test on. *)
Definition Aggregator_Step_distinct {S} (a : Aggregator S)
    (values : list Value) (opt : AggregatorOption) : outcome (Aggregator S) :=
  if Distinct opt then
    match values with
    | [] => Err (Errorf "DISTINCT option required at least one argument")
    | v0 :: _ =>
        if isNil v0 then Ok a
        else
          key ← call ToString v0;
          if decide (key ∈ distinctMap a) then Ok a
          else Aggregator_step a ({[ key ]} ∪ distinctMap a) values opt
    end
  else Aggregator_step a (distinctMap a) values opt.

(** [Aggregator.Step] once the options are parsed and the arguments
    converted. *)
Definition Aggregator_Step_values {S} (a : Aggregator S)
    (values : list Value) (opt : AggregatorOption) : outcome (Aggregator S) :=
  if IgnoreNulls opt then
    let values := filtered values in
    match values with
    | [] => Ok a
    | _ => Aggregator_Step_distinct a values opt
    end
  else Aggregator_Step_distinct a values opt.

(** [func (a *Aggregator) Step(stepArgs ...interface{}) error]; the
    aggregator after the call stands for the nil error. *)
Definition Aggregator_Step {S} (a : Aggregator S) (stepArgs : list Cell)
  : outcome (Aggregator S) :=
  '(args, opt) ← parseAggregateOptions stepArgs;
  values ← convertArgs args;
  Aggregator_Step_values a values opt.

Definition Aggregator_Done {S} (a : Aggregator S) : outcome Cell :=
  ret ← done a (state a);
  converter a ret.

Definition newAggregator {S} (s0 : S)
    (step : list Value -> AggregatorOption -> S -> outcome S)
    (done : S -> outcome Value)
    (converter : ReturnValueConverter) : Aggregator S :=
  mkAggregator ∅ s0 step done converter.

Section Window.
Context {W G : Type} `{WR : WindowRuntime W}.

(** [a.step(values, opt, windowOpt, a.agg)] *)
Definition WindowAggregator_step (a : WindowAggregator W G)
    (seen : gset string) (values : list Value) (opt : AggregatorOption)
    (windowOpt : W) : outcome (WindowAggregator W G) :=
  g ← w_step a values opt windowOpt (agg a);
  Ok (mkWindowAggregator seen g (w_step a) (w_done a) (w_converter a)).

(** [WindowAggregator.Step] from the [if opt.Distinct] test on. *)
Definition WindowAggregator_Step_distinct (a : WindowAggregator W G)
    (values : list Value) (opt : AggregatorOption) (windowOpt : W)
  : outcome (WindowAggregator W G) :=
  if Distinct opt then
    match values with
    | [] => Err (Errorf "DISTINCT option required at least one argument")
    | v0 :: _ =>
        key ← call ToString v0;
        if decide (key ∈ w_distinctMap a) then Ok a
        else
          WindowAggregator_step a ({[ key ]} ∪ w_distinctMap a)
            values opt windowOpt
    end
  else WindowAggregator_step a (w_distinctMap a) values opt windowOpt.

(** [WindowAggregator.Step] once the options are parsed and the
    arguments converted. *)
Definition WindowAggregator_Step_values (a : WindowAggregator W G)
    (values : list Value) (opt : AggregatorOption) (windowOpt : W)
  : outcome (WindowAggregator W G) :=
  if IgnoreNulls opt then
    WindowAggregator_Step_distinct a (filtered values) opt windowOpt
  else WindowAggregator_Step_distinct a values opt windowOpt.

(** [func (a *WindowAggregator) Step(stepArgs ...interface{}) error] *)
Definition WindowAggregator_Step (a : WindowAggregator W G)
    (stepArgs : list Cell) : outcome (WindowAggregator W G) :=
  '(args, opt) ← parseAggregateOptions stepArgs;
  '(newArgs, windowOpt) ← parseWindowOptions args;
  values ← convertArgs newArgs;
  WindowAggregator_Step_values a values opt windowOpt.

Definition WindowAggregator_Done (a : WindowAggregator W G) : outcome Cell :=
  ret ← w_done a (agg a);
  w_converter a ret.

Definition newWindowAggregator (g0 : G)
    (step : list Value -> AggregatorOption -> W -> G -> outcome G)
    (done : G -> outcome Value)
    (converter : ReturnValueConverter) : WindowAggregator W G :=
  mkWindowAggregator ∅ g0 step done converter.

End Window.

End Aggregators.

(** ** The aggregate and window binders

    Each binder is the factory the source returns, applied once: a fresh
    aggregator around a fresh implementation object. *)

Section AggregateBinders.
Context `{VM : ValueMethods} `{RT : Runtime}.
Context {S W G : Type} `{AR : AggregateRuntime S W G}.

Definition bindArrayAgg (converter : ReturnValueConverter) : Aggregator S :=
  newAggregator (agg_new "ARRAY_AGG" [])
    (fun args opt fn =>
       match args with
       | [a0] => agg_Step "ARRAY_AGG" [AVal a0] opt fn
       | _ => Err (invalid_argument_num "ARRAY_AGG" args)
       end)
    (fun fn => agg_Done "ARRAY_AGG" fn)
    converter.

Definition bindArrayConcatAgg (converter : ReturnValueConverter) : Aggregator S :=
  newAggregator (agg_new "ARRAY_CONCAT_AGG" [])
    (fun args opt fn =>
       match args with
       | [a0] =>
           if isNil a0 then Ok fn
           else
             array ← call ToArray a0;
             agg_Step "ARRAY_CONCAT_AGG" [AArr array] opt fn
       | _ => Err (invalid_argument_num "ARRAY_CONCAT_AGG" args)
       end)
    (fun fn => agg_Done "ARRAY_CONCAT_AGG" fn)
    converter.

Definition bindSum (converter : ReturnValueConverter) : Aggregator S :=
  newAggregator (agg_new "SUM" [])
    (fun args opt fn =>
       match args with
       | [a0] => agg_Step "SUM" [AVal a0] opt fn
       | _ => Err (invalid_argument_num "SUM" args)
       end)
    (fun fn => agg_Done "SUM" fn)
    converter.

Definition bindAvg (converter : ReturnValueConverter) : Aggregator S :=
  newAggregator (agg_new "AVG" [])
    (fun args opt fn =>
       match args with
       | [a0] => agg_Step "AVG" [AVal a0] opt fn
       | _ => Err (invalid_argument_num "AVG" args)
       end)
    (fun fn => agg_Done "AVG" fn)
    converter.

Definition bindCount (converter : ReturnValueConverter) : Aggregator S :=
  newAggregator (agg_new "COUNT" [])
    (fun args opt fn =>
       match args with
       | [a0] => agg_Step "COUNT" [AVal a0] opt fn
       | _ => Err (invalid_argument_num "COUNT" args)
       end)
    (fun fn => agg_Done "COUNT" fn)
    converter.

Definition bindCountStar (converter : ReturnValueConverter) : Aggregator S :=
  newAggregator (agg_new "COUNT_STAR" [])
    (fun args opt fn =>
       match args with
       | [] => agg_Step "COUNT_STAR" [] opt fn
       | _ => Err (invalid_argument_num "COUNT_STAR" args)
       end)
    (fun fn => agg_Done "COUNT_STAR" fn)
    converter.

Definition bindBitAndAgg (converter : ReturnValueConverter) : Aggregator S :=
  newAggregator (agg_new "BIT_AND_AGG" [AVal (IntValue (-1))])
    (fun args opt fn =>
       match args with
       | [a0] => agg_Step "BIT_AND_AGG" [AVal a0] opt fn
       | _ => Err (invalid_argument_num "BIT_AND_AGG" args)
       end)
    (fun fn => agg_Done "BIT_AND_AGG" fn)
    converter.

Definition bindBitOrAgg (converter : ReturnValueConverter) : Aggregator S :=
  newAggregator (agg_new "BIT_OR_AGG" [AInt (-1)])
    (fun args opt fn =>
       match args with
       | [a0] => agg_Step "BIT_OR_AGG" [AVal a0] opt fn
       | _ => Err (invalid_argument_num "BIT_OR_AGG" args)
       end)
    (fun fn => agg_Done "BIT_OR_AGG" fn)
    converter.

Definition bindBitXorAgg (converter : ReturnValueConverter) : Aggregator S :=
  newAggregator (agg_new "BIT_XOR_AGG" [AInt 1])
    (fun args opt fn =>
       match args with
       | [a0] => agg_Step "BIT_XOR_AGG" [AVal a0] opt fn
       | _ => Err (invalid_argument_num "BIT_XOR_AGG" args)
       end)
    (fun fn => agg_Done "BIT_XOR_AGG" fn)
    converter.

Definition bindCountIf (converter : ReturnValueConverter) : Aggregator S :=
  newAggregator (agg_new "COUNTIF" [])
    (fun args opt fn =>
       match args with
       | [a0] => agg_Step "COUNTIF" [AVal a0] opt fn
       | _ => Err (invalid_argument_num "COUNT_IF" args)
       end)
    (fun fn => agg_Done "COUNTIF" fn)
    converter.

Definition bindLogicalAnd (converter : ReturnValueConverter) : Aggregator S :=
  newAggregator (agg_new "LOGICAL_AND" [ABool true])
    (fun args opt fn =>
       match args with
       | [a0] => agg_Step "LOGICAL_AND" [AVal a0] opt fn
       | _ => Err (invalid_argument_num "LOGICAL_AND" args)
       end)
    (fun fn => agg_Done "LOGICAL_AND" fn)
    converter.

Definition bindLogicalOr (converter : ReturnValueConverter) : Aggregator S :=
  newAggregator (agg_new "LOGICAL_OR" [])
    (fun args opt fn =>
       match args with
       | [a0] => agg_Step "LOGICAL_OR" [AVal a0] opt fn
       | _ => Err (invalid_argument_num "LOGICAL_OR" args)
       end)
    (fun fn => agg_Done "LOGICAL_OR" fn)
    converter.

Definition bindMax (converter : ReturnValueConverter) : Aggregator S :=
  newAggregator (agg_new "MAX" [])
    (fun args opt fn =>
       match args with
       | [a0] => agg_Step "MAX" [AVal a0] opt fn
       | _ => Err (invalid_argument_num "MAX" args)
       end)
    (fun fn => agg_Done "MAX" fn)
    converter.

Definition bindMin (converter : ReturnValueConverter) : Aggregator S :=
  newAggregator (agg_new "MIN" [])
    (fun args opt fn =>
       match args with
       | [a0] => agg_Step "MIN" [AVal a0] opt fn
       | _ => Err (invalid_argument_num "MIN" args)
       end)
    (fun fn => agg_Done "MIN" fn)
    converter.

Definition bindStringAgg (converter : ReturnValueConverter) : Aggregator S :=
  newAggregator (agg_new "STRING_AGG" [])
    (fun args opt fn =>
       match args with
       | [a0] => agg_Step "STRING_AGG" [AVal a0; AStr ""] opt fn
       | [a0; a1] =>
           delim ← call ToString a1;
           agg_Step "STRING_AGG" [AVal a0; AStr delim] opt fn
       | _ => Err (invalid_argument_num "STRING_AGG" args)
       end)
    (fun fn => agg_Done "STRING_AGG" fn)
    converter.

Definition bindArray (converter : ReturnValueConverter) : Aggregator S :=
  newAggregator (agg_new "ARRAY" [])
    (fun args opt fn =>
       match args with
       | [a0] => agg_Step "ARRAY" [AVal a0] opt fn
       | _ => Err (invalid_argument_num "ARRAY" args)
       end)
    (fun fn => agg_Done "ARRAY" fn)
    converter.

Definition bindWindowSum (converter : ReturnValueConverter) : WindowAggregator W G :=
  newWindowAggregator newWindowFuncAggregatedStatus
    (fun args opt windowOpt agg =>
       match args with
       | [a0] => win_Step "WINDOW_SUM" [AVal a0] windowOpt agg
       | _ => Err (invalid_argument_num "WINDOW_SUM" args)
       end)
    (fun agg => win_Done "WINDOW_SUM" agg)
    converter.

Definition bindWindowMax (converter : ReturnValueConverter) : WindowAggregator W G :=
  newWindowAggregator newWindowFuncAggregatedStatus
    (fun args opt windowOpt agg =>
       match args with
       | [a0] => win_Step "WINDOW_MAX" [AVal a0] windowOpt agg
       | _ => Err (invalid_argument_num "WINDOW_MAX" args)
       end)
    (fun agg => win_Done "WINDOW_MAX" agg)
    converter.

Definition bindWindowMin (converter : ReturnValueConverter) : WindowAggregator W G :=
  newWindowAggregator newWindowFuncAggregatedStatus
    (fun args opt windowOpt agg =>
       match args with
       | [a0] => win_Step "WINDOW_MIN" [AVal a0] windowOpt agg
       | _ => Err (invalid_argument_num "WINDOW_MIN" args)
       end)
    (fun agg => win_Done "WINDOW_MIN" agg)
    converter.

Definition bindWindowCount (converter : ReturnValueConverter) : WindowAggregator W G :=
  newWindowAggregator newWindowFuncAggregatedStatus
    (fun args opt windowOpt agg =>
       match args with
       | [a0] => win_Step "WINDOW_COUNT" [AVal a0] windowOpt agg
       | _ => Err (invalid_argument_num "WINDOW_COUNT" args)
       end)
    (fun agg => win_Done "WINDOW_COUNT" agg)
    converter.

Definition bindWindowCountStar (converter : ReturnValueConverter) : WindowAggregator W G :=
  newWindowAggregator newWindowFuncAggregatedStatus
    (fun args opt windowOpt agg =>
       match args with
       | [] => win_Step "WINDOW_COUNT_STAR" [] windowOpt agg
       | _ => Err (invalid_argument_num "WINDOW_COUNT_STAR" args)
       end)
    (fun agg => win_Done "WINDOW_COUNT_STAR" agg)
    converter.

Definition bindWindowAvg (converter : ReturnValueConverter) : WindowAggregator W G :=
  newWindowAggregator newWindowFuncAggregatedStatus
    (fun args opt windowOpt agg =>
       match args with
       | [a0] => win_Step "WINDOW_AVG" [AVal a0] windowOpt agg
       | _ => Err (invalid_argument_num "WINDOW_AVG" args)
       end)
    (fun agg => win_Done "WINDOW_AVG" agg)
    converter.

Definition bindWindowFirstValue (converter : ReturnValueConverter) : WindowAggregator W G :=
  newWindowAggregator newWindowFuncAggregatedStatus
    (fun args opt windowOpt agg =>
       match args with
       | [a0] => win_Step "WINDOW_FIRST_VALUE" [AVal a0] windowOpt agg
       | _ => Err (invalid_argument_num "WINDOW_FIRST_VALUE" args)
       end)
    (fun agg => win_Done "WINDOW_FIRST_VALUE" agg)
    converter.

Definition bindWindowLastValue (converter : ReturnValueConverter) : WindowAggregator W G :=
  newWindowAggregator newWindowFuncAggregatedStatus
    (fun args opt windowOpt agg =>
       match args with
       | [a0] => win_Step "WINDOW_LAST_VALUE" [AVal a0] windowOpt agg
       | _ => Err (invalid_argument_num "WINDOW_LAST_VALUE" args)
       end)
    (fun agg => win_Done "WINDOW_LAST_VALUE" agg)
    converter.

Definition bindWindowLag (converter : ReturnValueConverter) : WindowAggregator W G :=
  let run (a0 : Value) (offset : Z) (defaultValue : Value) windowOpt agg :=
    if offset <? 0 then
      Err (Errorf ("WINDOW_LAG: offset is must be positive value "
                   +:+ fmt_d offset))
    else
      win_Step "WINDOW_LAG" [AVal a0; AInt offset; AVal defaultValue]
        windowOpt agg in
  newWindowAggregator newWindowFuncAggregatedStatus
    (fun args opt windowOpt agg =>
       match args with
       | [a0] => run a0 1 Null windowOpt agg
       | [a0; a1] => v ← call ToInt64 a1; run a0 v Null windowOpt agg
       | [a0; a1; a2] => v ← call ToInt64 a1; run a0 v a2 windowOpt agg
       | _ => Err (invalid_argument_num "WINDOW_LAG" args)
       end)
    (fun agg => win_Done "WINDOW_LAG" agg)
    converter.

Definition bindWindowRank (converter : ReturnValueConverter) : WindowAggregator W G :=
  newWindowAggregator newWindowFuncAggregatedStatus
    (fun args opt windowOpt agg =>
       match args with
       | [] => win_Step "WINDOW_RANK" [] windowOpt agg
       | _ => Err (invalid_argument_num "WINDOW_RANK" args)
       end)
    (fun agg => win_Done "WINDOW_RANK" agg)
    converter.

Definition bindWindowDenseRank (converter : ReturnValueConverter) : WindowAggregator W G :=
  newWindowAggregator newWindowFuncAggregatedStatus
    (fun args opt windowOpt agg =>
       match args with
       | [] => win_Step "WINDOW_DENSE_RANK" [] windowOpt agg
       | _ => Err (invalid_argument_num "WINDOW_DENSE_RANK" args)
       end)
    (fun agg => win_Done "WINDOW_DENSE_RANK" agg)
    converter.

Definition bindWindowRowNumber (converter : ReturnValueConverter) : WindowAggregator W G :=
  newWindowAggregator newWindowFuncAggregatedStatus
    (fun args opt windowOpt agg =>
       match args with
       | [] => win_Step "WINDOW_ROW_NUMBER" [] windowOpt agg
       | _ => Err (invalid_argument_num "WINDOW_ROW_NUMBER" args)
       end)
    (fun agg => win_Done "WINDOW_ROW_NUMBER" agg)
    converter.

Definition bindWindowCorr (converter : ReturnValueConverter) : WindowAggregator W G :=
  newWindowAggregator newWindowFuncAggregatedStatus
    (fun args opt windowOpt agg =>
       match args with
       | [a0; a1] => win_Step "WINDOW_CORR" [AVal a0; AVal a1] windowOpt agg
       | _ => Err (invalid_argument_num "WINDOW_CORR" args)
       end)
    (fun agg => win_Done "WINDOW_CORR" agg)
    converter.

Definition bindWindowCovarPop (converter : ReturnValueConverter) : WindowAggregator W G :=
  newWindowAggregator newWindowFuncAggregatedStatus
    (fun args opt windowOpt agg =>
       match args with
       | [a0; a1] => win_Step "WINDOW_COVAR_POP" [AVal a0; AVal a1] windowOpt agg
       | _ => Err (invalid_argument_num "WINDOW_COVAR_POP" args)
       end)
    (fun agg => win_Done "WINDOW_COVAR_POP" agg)
    converter.

Definition bindWindowCovarSamp (converter : ReturnValueConverter) : WindowAggregator W G :=
  newWindowAggregator newWindowFuncAggregatedStatus
    (fun args opt windowOpt agg =>
       match args with
       | [a0; a1] => win_Step "WINDOW_COVAR_SAMP" [AVal a0; AVal a1] windowOpt agg
       | _ => Err (invalid_argument_num "WINDOW_COVAR_SAMP" args)
       end)
    (fun agg => win_Done "WINDOW_COVAR_SAMP" agg)
    converter.

Definition bindWindowStdDevPop (converter : ReturnValueConverter) : WindowAggregator W G :=
  newWindowAggregator newWindowFuncAggregatedStatus
    (fun args opt windowOpt agg =>
       match args with
       | [a0] => win_Step "WINDOW_STDDEV_POP" [AVal a0] windowOpt agg
       | _ => Err (invalid_argument_num "WINDOW_STDDEV_POP" args)
       end)
    (fun agg => win_Done "WINDOW_STDDEV_POP" agg)
    converter.

Definition bindWindowStdDevSamp (converter : ReturnValueConverter) : WindowAggregator W G :=
  newWindowAggregator newWindowFuncAggregatedStatus
    (fun args opt windowOpt agg =>
       match args with
       | [a0] => win_Step "WINDOW_STDDEV_SAMP" [AVal a0] windowOpt agg
       | _ => Err (invalid_argument_num "WINDOW_STDDEV_SAMP" args)
       end)
    (fun agg => win_Done "WINDOW_STDDEV_SAMP" agg)
    converter.

Definition bindWindowStdDev (converter : ReturnValueConverter) : WindowAggregator W G :=
  newWindowAggregator newWindowFuncAggregatedStatus
    (fun args opt windowOpt agg =>
       match args with
       | [a0] => win_Step "WINDOW_STDDEV_SAMP" [AVal a0] windowOpt agg
       | _ => Err (invalid_argument_num "WINDOW_STDDEV" args)
       end)
    (fun agg => win_Done "WINDOW_STDDEV_SAMP" agg)
    converter.

Definition bindWindowVarPop (converter : ReturnValueConverter) : WindowAggregator W G :=
  newWindowAggregator newWindowFuncAggregatedStatus
    (fun args opt windowOpt agg =>
       match args with
       | [a0] => win_Step "WINDOW_VAR_POP" [AVal a0] windowOpt agg
       | _ => Err (invalid_argument_num "WINDOW_VAR_POP" args)
       end)
    (fun agg => win_Done "WINDOW_VAR_POP" agg)
    converter.

Definition bindWindowVarSamp (converter : ReturnValueConverter) : WindowAggregator W G :=
  newWindowAggregator newWindowFuncAggregatedStatus
    (fun args opt windowOpt agg =>
       match args with
       | [a0] => win_Step "WINDOW_VAR_SAMP" [AVal a0] windowOpt agg
       | _ => Err (invalid_argument_num "WINDOW_VAR_SAMP" args)
       end)
    (fun agg => win_Done "WINDOW_VAR_SAMP" agg)
    converter.

Definition bindWindowVariance (converter : ReturnValueConverter) : WindowAggregator W G :=
  newWindowAggregator newWindowFuncAggregatedStatus
    (fun args opt windowOpt agg =>
       match args with
       | [a0] => win_Step "WINDOW_VAR_SAMP" [AVal a0] windowOpt agg
       | _ => Err (invalid_argument_num "WINDOW_VARIANCE" args)
       end)
    (fun agg => win_Done "WINDOW_VAR_SAMP" agg)
    converter.

End AggregateBinders.

(** ** The encoder and decoder (specification, section 4.2) *)

Module Codec.

Local Open Scope string_scope.

(** Modelled from the spec: the encoder and decoder of section 4.2, whose
    source is outside the sources at hand.  The encoded form is text: "a
    self-describing tag byte followed by a payload"; strings and bytes keep
    their characters, and every payload of variable size is
    length-prefixed, so that an encoded value can sit inside an array or a
    struct.  Numbers are written in binary, least significant digit first,
    closed by a full stop.  The ordering constraint of section 4.2 on the
    encoded form is not part of this model. *)
Fixpoint encPos (p : positive) : string :=
  match p with
  | xI q => String "1" (encPos q)
  | xO q => String "0" (encPos q)
  | xH => String "." EmptyString
  end.

Definition encN (n : N) : string := encPos (N.succ_pos n).

Definition encZ (z : Z) : string :=
  String (if (z <? 0)%Z then "-"%char else "+"%char) (encN (Z.abs_N z)).

Definition encStr (s : string) : string :=
  encN (N.of_nat (String.length s)) +:+ s.

Definition encBytes (b : list Byte.byte) : string :=
  encStr (string_of_list_byte b).

Definition encName (o : option string) : string :=
  match o with
  | None => String "n" EmptyString
  | Some s => String "s" (encStr s)
  end.

(** Modelled from the spec: one tag character per variant of section 3. *)
Fixpoint encode (v : Value) : string :=
  match v with
  | Null => "N"
  | IntValue i => String "I" (encZ i)
  | FloatValue bits => String "F" (encN bits)
  | BoolValue b => String "B" (if b then "t" else "f")
  | StringValue s => String "S" (encStr s)
  | BytesValue b => String "Y" (encBytes b)
  | NumericValue n => String "M" (encZ n)
  | BigNumericValue n => String "G" (encZ n)
  | DateValue d => String "D" (encZ d)
  | TimeValue n => String "T" (encZ n)
  | DatetimeValue m => String "E" (encZ m)
  | TimestampValue m => String "P" (encZ m)
  | IntervalValue m d n => String "V" (encZ m +:+ encZ d +:+ encZ n)
  | JsonValue t => String "J" (encStr t)
  | ArrayValue elems =>
      String "A"
        (encN (N.of_nat (length elems)) +:+
         (fix go (l : list Value) : string :=
            match l with
            | [] => ""
            | x :: r => encode x +:+ go r
            end) elems)
  | StructValue fields =>
      String "R"
        (encN (N.of_nat (length fields)) +:+
         (fix go (l : list (option string * Value)) : string :=
            match l with
            | [] => ""
            | (n, x) :: r => encName n +:+ encode x +:+ go r
            end) fields)
  | SafeValue w => String "W" (encode w)
  end.

(** The elements of an array and the fields of a struct, encoded one after
    the other: the inner loops of [encode]. *)
Definition encAll : list Value -> string :=
  fix go (l : list Value) : string :=
    match l with
    | [] => ""
    | x :: r => encode x +:+ go r
    end.

Definition encFields : list (option string * Value) -> string :=
  fix go (l : list (option string * Value)) : string :=
    match l with
    | [] => ""
    | (n, x) :: r => encName n +:+ encode x +:+ go r
    end.

(** The decoder reads one item off the front of the text and returns it
    with the text that follows. *)
Fixpoint decPos (s : string) : option (positive * string) :=
  match s with
  | String c r =>
      if Ascii.eqb c "1" then '(p, rest) ← decPos r; Some (xI p, rest)
      else if Ascii.eqb c "0" then '(p, rest) ← decPos r; Some (xO p, rest)
      else if Ascii.eqb c "." then Some (xH, r)
      else None
  | EmptyString => None
  end.

Definition decN (s : string) : option (N * string) :=
  '(p, rest) ← decPos s; Some (Pos.pred_N p, rest).

Definition decZ (s : string) : option (Z * string) :=
  match s with
  | String c r =>
      if Ascii.eqb c "-" then '(n, rest) ← decN r; Some ((- Z.of_N n)%Z, rest)
      else if Ascii.eqb c "+" then '(n, rest) ← decN r; Some (Z.of_N n, rest)
      else None
  | EmptyString => None
  end.

(** [take n s]: the first [n] characters of [s] and what follows them. *)
Fixpoint take (n : nat) (s : string) : option (string * string) :=
  match n with
  | O => Some ("", s)
  | Datatypes.S m =>
      match s with
      | String c r => '(h, t) ← take m r; Some (String c h, t)
      | EmptyString => None
      end
  end.

Definition decStr (s : string) : option (string * string) :=
  '(n, rest) ← decN s; take (N.to_nat n) rest.

Definition decBytes (s : string) : option (list Byte.byte * string) :=
  '(t, rest) ← decStr s; Some (list_byte_of_string t, rest).

Definition decName (s : string) : option (option string * string) :=
  match s with
  | String c r =>
      if Ascii.eqb c "n" then Some (None, r)
      else if Ascii.eqb c "s" then '(t, rest) ← decStr r; Some (Some t, rest)
      else None
  | EmptyString => None
  end.

(** [many d k s]: [k] items read with [d], one after the other. *)
Fixpoint many {A} (d : string -> option (A * string)) (k : nat) (s : string)
  : option (list A * string) :=
  match k with
  | O => Some ([], s)
  | Datatypes.S j =>
      '(x, rest) ← d s;
      '(xs, rest') ← many d j rest;
      Some (x :: xs, rest')
  end.

Definition decField (d : string -> option (Value * string)) (s : string)
  : option ((option string * Value) * string) :=
  '(n, rest) ← decName s;
  '(x, rest') ← d rest;
  Some ((n, x), rest').

(** Modelled from the spec: the decoder dispatches on the tag.  [fuel]
    bounds the nesting of arrays, structs and safe wrappers. *)
Fixpoint dec (fuel : nat) (s : string) : option (Value * string) :=
  match fuel with
  | O => None
  | Datatypes.S f =>
      match s with
      | EmptyString => None
      | String tag r =>
          let int (k : Z -> Value) := '(z, rest) ← decZ r; Some (k z, rest) in
          if Ascii.eqb tag "N" then Some (Null, r)
          else if Ascii.eqb tag "I" then int IntValue
          else if Ascii.eqb tag "F" then
            '(n, rest) ← decN r; Some (FloatValue n, rest)
          else if Ascii.eqb tag "B" then
            match r with
            | String c rest =>
                if Ascii.eqb c "t" then Some (BoolValue true, rest)
                else if Ascii.eqb c "f" then Some (BoolValue false, rest)
                else None
            | EmptyString => None
            end
          else if Ascii.eqb tag "S" then
            '(t, rest) ← decStr r; Some (StringValue t, rest)
          else if Ascii.eqb tag "Y" then
            '(b, rest) ← decBytes r; Some (BytesValue b, rest)
          else if Ascii.eqb tag "M" then int NumericValue
          else if Ascii.eqb tag "G" then int BigNumericValue
          else if Ascii.eqb tag "D" then int DateValue
          else if Ascii.eqb tag "T" then int TimeValue
          else if Ascii.eqb tag "E" then int DatetimeValue
          else if Ascii.eqb tag "P" then int TimestampValue
          else if Ascii.eqb tag "V" then
            '(m, r1) ← decZ r;
            '(d, r2) ← decZ r1;
            '(n, r3) ← decZ r2;
            Some (IntervalValue m d n, r3)
          else if Ascii.eqb tag "J" then
            '(t, rest) ← decStr r; Some (JsonValue t, rest)
          else if Ascii.eqb tag "A" then
            '(k, r1) ← decN r;
            '(xs, rest) ← many (dec f) (N.to_nat k) r1;
            Some (ArrayValue xs, rest)
          else if Ascii.eqb tag "R" then
            '(k, r1) ← decN r;
            '(fs, rest) ← many (decField (dec f)) (N.to_nat k) r1;
            Some (StructValue fs, rest)
          else if Ascii.eqb tag "W" then
            '(w, rest) ← dec f r; Some (SafeValue w, rest)
          else None
      end
  end.


(** The nesting depth of a value. *)
Fixpoint depth (v : Value) : nat :=
  match v with
  | ArrayValue elems =>
      Datatypes.S
        ((fix go (l : list Value) : nat :=
            match l with
            | [] => O
            | x :: r => Nat.max (depth x) (go r)
            end) elems)
  | StructValue fields =>
      Datatypes.S
        ((fix go (l : list (option string * Value)) : nat :=
            match l with
            | [] => O
            | (_, x) :: r => Nat.max (depth x) (go r)
            end) fields)
  | SafeValue w => Datatypes.S (depth w)
  | _ => 1%nat
  end.

(** The deepest element of an array, the deepest field of a struct: the
    inner loops of [depth]. *)
Definition depthAll : list Value -> nat :=
  fix go (l : list Value) : nat :=
    match l with
    | [] => O
    | x :: r => Nat.max (depth x) (go r)
    end.

Definition depthFields : list (option string * Value) -> nat :=
  fix go (l : list (option string * Value)) : nat :=
    match l with
    | [] => O
    | (_, x) :: r => Nat.max (depth x) (go r)
    end.

End Codec.

(** ** The catalog (specification, sections 3 and 4.7) *)

Module Catalog.

Local Open Scope string_scope.

(** Modelled from the spec: a catalog entry of section 3, a named table of
    a dataset with its ordered columns and its rows.  The catalog and the
    statement rewriter are outside the sources at hand; only their tests
    are. *)
Record Entry : Type := mkEntry {
  dataset : string;
  table : string;
  columns : list string;
  rows : list (list Value)
}.

(** Modelled from the spec: the session state of section 3, the persistent
    tables and the session-scoped TEMP namespace.  Entries are listed
    newest first; the wildcard test expects the rows of the table created
    last to come first. *)
Record Session : Type := mkSession {
  persistent : list Entry;
  temp : list Entry
}.

Definition open : Session := mkSession [] [].

Definition named (d t : string) (e : Entry) : bool :=
  String.eqb d (dataset e) && String.eqb t (table e).

Definition declared (d t : string) (l : list Entry) : bool :=
  existsb (named d t) l.

Definition drop (d t : string) (l : list Entry) : list Entry :=
  List.filter (fun e => negb (named d t e)) l.

Inductive Statement : Type :=
| CreateTable (is_temp or_replace : bool) (e : Entry).

(** Modelled from the spec: CREATE TABLE of section 4.7.  "CREATE TEMP
    TABLE: create in a private session schema; re-creation is idempotent
    (no error); a non-TEMP CREATE of the same qualified name after a TEMP
    CREATE succeeds; a second non-TEMP CREATE fails unless OR REPLACE."
    "CREATE OR REPLACE: atomically DROP and recreate." *)
Definition exec (s : Session) (st : Statement) : outcome Session :=
  match st with
  | CreateTable true or_replace e =>
      if declared (dataset e) (table e) (temp s) then
        if or_replace then
          Ok (mkSession (persistent s)
                (e :: drop (dataset e) (table e) (temp s)))
        else Ok s
      else Ok (mkSession (persistent s) (e :: temp s))
  | CreateTable false or_replace e =>
      if declared (dataset e) (table e) (persistent s) then
        if or_replace then
          Ok (mkSession (e :: drop (dataset e) (table e) (persistent s))
                (temp s))
        else
          Err (Kinded KCatalogConflict
                 ("table " +:+ table e +:+ " already exists"))
      else Ok (mkSession (e :: persistent s) (temp s))
  end.

(** A script: the statements run in program order, the first error stops
    it (section 5). *)
Fixpoint exec_all (s : Session) (sts : list Statement) : outcome Session :=
  match sts with
  | [] => Ok s
  | st :: rest => s' ← exec s st; exec_all s' rest
  end.

(** [drop_prefix p s]: what follows [p] in [s], when [s] begins with [p]. *)
Fixpoint drop_prefix (p s : string) : option string :=
  match p, s with
  | EmptyString, _ => Some s
  | String a p', String b s' =>
      if Ascii.eqb a b then drop_prefix p' s' else None
  | String _ _, EmptyString => None
  end.

Fixpoint index_of (c : string) (cols : list string) : option nat :=
  match cols with
  | [] => None
  | c' :: rest =>
      if String.eqb c c' then Some O
      else option_map Datatypes.S (index_of c rest)
  end.

(** "a table missing a selected column contributes NULL" *)
Definition column_of (e : Entry) (row : list Value) (c : string) : Value :=
  match index_of c (columns e) with
  | Some i => nth i row Null
  | None => Null
  end.

(** Modelled from the spec: the wildcard table of section 4.7.  "expands
    to UNION ALL over every catalog entry in dataset d whose unqualified
    name begins with tbl_, synthesizing a _TABLE_SUFFIX column holding the
    trailing portion."  The scan returns the selected columns of each row
    followed by the suffix. *)
Definition scan_entry (d pre : string) (sel : list string) (e : Entry)
  : list (list Value) :=
  if String.eqb d (dataset e) then
    match drop_prefix pre (table e) with
    | Some suffix =>
        map (fun row => (map (column_of e row) sel ++ [StringValue suffix])%list)
          (rows e)
    | None => []
    end
  else [].

Definition wildcard_scan (s : Session) (d pre : string) (sel : list string)
  : list (list Value) :=
  flat_map (scan_entry d pre sel) (persistent s).

(** [v LIKE 'p%' OR v IS NULL] *)
Definition like_prefix_or_null (p : string) (v : Value) : bool :=
  match v with
  | Null => true
  | StringValue t => String.prefix p t
  | _ => false
  end.

(** [SELECT c, _TABLE_SUFFIX FROM `d.pre*` WHERE c LIKE 'p%' OR c IS NULL] *)
Definition select_like_or_null (s : Session) (d pre c p : string)
  : list (list Value) :=
  List.filter
    (fun row => like_prefix_or_null p (hd Null row))
    (wildcard_scan s d pre [c]).

(** The tables of the wildcard test, under the names the specification
    gives them, in their order of creation. *)
Definition strings (l : list string) : list (list Value) :=
  map (fun x => [StringValue x]) l.

Definition wildcard_tables : list Statement :=
  [ CreateTable false false
      (mkEntry "d" "t_a" ["specialName"] (strings ["alice_a"; "bob_a"]));
    CreateTable false false
      (mkEntry "d" "t_b" ["name"] (strings ["alice_b"; "bob_b"]));
    CreateTable false false
      (mkEntry "d" "t_c" ["name"] (strings ["alice_c"; "bob_c"]));
    CreateTable false false
      (mkEntry "d" "other_d" ["name"] (strings ["alice_d"; "bob_d"])) ].

End Catalog.

(** ** Running an aggregate over its input *)

Section Lifecycle.
Context `{VM : ValueMethods} `{RT : Runtime}.

(** The aggregate itself: its step closure applied to the rows in arrival
    order, then its done closure and the result converter. *)
Fixpoint feed {S} (step : list Value -> AggregatorOption -> S -> outcome S)
    (opt : AggregatorOption) (rows : list (list Value)) (s : S) : outcome S :=
  match rows with
  | [] => Ok s
  | row :: rest => s' ← step row opt s; feed step opt rest s'
  end.

Definition aggregate {S}
    (step : list Value -> AggregatorOption -> S -> outcome S)
    (done : S -> outcome Value) (converter : ReturnValueConverter)
    (opt : AggregatorOption) (s0 : S) (rows : list (list Value))
  : outcome Cell :=
  s ← feed step opt rows s0;
  ret ← done s;
  converter ret.

(** The aggregator's life (section 4.4): [Step] once per row in arrival
    order, then [Done]; the first error fails the aggregate. *)
Fixpoint Aggregator_feed {S} (a : Aggregator S) (opt : AggregatorOption)
    (rows : list (list Value)) : outcome (Aggregator S) :=
  match rows with
  | [] => Ok a
  | row :: rest =>
      a' ← Aggregator_Step_values a row opt;
      Aggregator_feed a' opt rest
  end.

Definition Aggregator_run {S} (a : Aggregator S) (opt : AggregatorOption)
    (rows : list (list Value)) : outcome Cell :=
  a' ← Aggregator_feed a opt rows;
  Aggregator_Done a'.

(** The canonical string form of a row's first argument. *)
Definition canonical_key (row : list Value) : string :=
  match row with
  | v :: _ => match ToString v with Ok k => k | _ => EmptyString end
  | [] => EmptyString
  end.

Definition first_is_null (row : list Value) : bool :=
  match row with
  | v :: _ => isNil v
  | [] => false
  end.

(** A row DISTINCT can key: it has a first argument, and that argument is
    NULL or has a canonical string form. *)
Definition keyed (row : list Value) : Prop :=
  match row with
  | v :: _ => isNil v = true \/ exists k, ToString v = Ok k
  | [] => False
  end.

(** [dedup_from seen xs]: of the rows whose key is equal, the first in
    arrival order is kept; [seen] are the keys met before [xs]. *)
Fixpoint dedup_from (seen : list string) (xs : list (list Value))
  : list (list Value) :=
  match xs with
  | [] => []
  | x :: rest =>
      if existsb (String.eqb (canonical_key x)) seen then dedup_from seen rest
      else x :: dedup_from (canonical_key x :: seen) rest
  end.

(** The keys of a distinct map, as the list [dedup_from] carries. *)
Definition agree (D : gset string) (seen : list string) : Prop :=
  forall k, k ∈ D <-> In k seen.

Definition dedup_by_canonical_form : list (list Value) -> list (list Value) :=
  dedup_from [].

(** The rows whose first argument is not NULL. *)
Definition drop_null_rows (xs : list (list Value)) : list (list Value) :=
  List.filter (fun row => negb (first_is_null row)) xs.

Definition nonempty (row : list Value) : bool :=
  match row with [] => false | _ => true end.

(** What IGNORE NULLS hands on: each row without its NULL arguments, the
    rows left empty dropped. *)
Definition without_nulls (xs : list (list Value)) : list (list Value) :=
  List.filter nonempty (map filtered xs).


(** The rows as [Step] has them when it reaches the DISTINCT test, and the
    rows it then hands to the step closure. *)
Definition after_ignore_nulls (opt : AggregatorOption)
    (xs : list (list Value)) : list (list Value) :=
  if IgnoreNulls opt then without_nulls xs else xs.

Definition after_distinct (opt : AggregatorOption)
    (xs : list (list Value)) : list (list Value) :=
  if Distinct opt then dedup_by_canonical_form (drop_null_rows xs) else xs.

Definition handed_on (opt : AggregatorOption)
    (xs : list (list Value)) : list (list Value) :=
  after_distinct opt (after_ignore_nulls opt xs).

End Lifecycle.

(** ** The binders by their guards *)

(** The numbers of arguments a binder accepts. *)
Inductive Arity : Type :=
| Exactly (n : nat)
| OneOf (ns : list nat)
| AtLeast (n : nat).

Definition accepts (a : Arity) (n : nat) : bool :=
  match a with
  | Exactly m => Nat.eqb n m
  | OneOf ms => existsb (Nat.eqb n) ms
  | AtLeast m => Nat.leb m n
  end.

Section Tables.
Context `{VM : ValueMethods} `{RT : Runtime}.

(** The scalar binders whose arity check reports
    "<LABEL>: invalid argument num <n>", with the label of the message and
    the arities the check accepts.  [bindGreaterOrEqual] is left out: its
    message carries the label of [bindGreater]. *)
Definition arity_checked : list (string * BindFunction * Arity) :=
  [ ("ADD", bindAdd, Exactly 2); ("SUB", bindSub, Exactly 2);
    ("MUL", bindMul, Exactly 2); ("OP_DIV", bindOpDiv, Exactly 2);
    ("EQ", bindEqual, Exactly 2); ("NOT_EQ", bindNotEqual, Exactly 2);
    ("GT", bindGreater, Exactly 2); ("LT", bindLess, Exactly 2);
    ("LTE", bindLessOrEqual, Exactly 2);
    ("BIT_NOT", bindBitNot, Exactly 1);
    ("BIT_LEFT_SHIFT", bindBitLeftShift, Exactly 2);
    ("BIT_RIGHT_SHIFT", bindBitRightShift, Exactly 2);
    ("BIT_AND", bindBitAnd, Exactly 2); ("BIT_OR", bindBitOr, Exactly 2);
    ("BIT_XOR", bindBitXor, Exactly 2);
    ("ARRAY_IN", bindInArray, Exactly 2);
    ("STRUCT_FIELD", bindStructField, Exactly 2);
    ("ARRAY_OFFSET", bindArrayAtOffset, Exactly 2);
    ("ARRAY_SAFE_OFFSET", bindSafeArrayAtOffset, Exactly 2);
    ("ARRAY_ORDINAL", bindArrayAtOrdinal, Exactly 2);
    ("ARRAY_SAFE_ORDINAL", bindSafeArrayAtOrdinal, Exactly 2);
    ("IS_DISTINCT_FROM", bindIsDistinctFrom, Exactly 2);
    ("IS_NOT_DISTINCT_FROM", bindIsNotDistinctFrom, Exactly 2);
    ("EXTRACT", bindExtract, Exactly 2);
    ("GENERATE_UUID", bindGenerateUUID, Exactly 0);
    ("LIKE", bindLike, Exactly 2); ("BETWEEN", bindBetween, Exactly 3);
    ("IN", bindIn, AtLeast 2); ("IS_NULL", bindIsNull, Exactly 1);
    ("IS_TRUE", bindIsTrue, Exactly 1); ("IS_FALSE", bindIsFalse, Exactly 1);
    ("NOT", bindNot, Exactly 1); ("AND", bindAnd, AtLeast 1);
    ("OR", bindOr, AtLeast 1);
    ("CASE_WITH_VALUE", bindCaseWithValue, AtLeast 1);
    ("CASE_NO_VALUE", bindCaseNoValue, AtLeast 1);
    ("COALESCE", bindCoalesce, AtLeast 1); ("IF", bindIf, Exactly 3);
    ("IFNULL", bindIfNull, Exactly 2); ("NULLIF", bindNullIf, Exactly 2);
    ("CAST", bindCast, Exactly 1); ("CAST", bindCastBoolString, Exactly 1);
    ("SAFE_CAST", bindSafeCast, Exactly 1);
    ("FARM_FINGERPRINT", bindFarmFingerprint, Exactly 1);
    ("MD5", bindMD5, Exactly 1); ("SHA1", bindSha1, Exactly 1);
    ("SHA256", bindSha256, Exactly 1); ("SHA512", bindSha512, Exactly 1);
    ("ASCII", bindAscii, Exactly 1);
    ("BYTE_LENGTH", bindByteLength, Exactly 1);
    ("CHAR_LENGTH", bindCharLength, Exactly 1); ("CHR", bindChr, Exactly 1);
    ("CODE_POINTS_TO_BYTES", bindCodePointsToBytes, Exactly 1);
    ("CODE_POINTS_TO_STRING", bindCodePointsToString, Exactly 1);
    ("COLLATE", bindCollate, Exactly 2); ("CONCAT", bindConcat, AtLeast 2);
    ("ENDS_WITH", bindEndsWith, Exactly 2); ("FORMAT", bindFormat, AtLeast 1);
    ("FROM_BASE32", bindFromBase32, Exactly 1);
    ("FROM_BASE64", bindFromBase64, Exactly 1);
    ("FROM_HEX", bindFromHex, Exactly 1);
    ("INITCAP", bindInitcap, OneOf [1; 2]%nat);
    ("INSTR", bindInstr, OneOf [2; 3; 4]%nat);
    ("LEFT", bindLeft, Exactly 2); ("LENGTH", bindLength, Exactly 1);
    ("LOWER", bindLower, Exactly 1); ("LTRIM", bindLtrim, OneOf [1; 2]%nat);
    ("STARTS_WITH", bindStartsWith, Exactly 2);
    ("STRPOS", bindStrpos, Exactly 2);
    ("SUBSTR", bindSubstr, OneOf [2; 3]%nat);
    ("TO_BASE32", bindToBase32, Exactly 1);
    ("TO_BASE64", bindToBase64, Exactly 1);
    ("TO_CODE_POINTS", bindToCodePoints, Exactly 1);
    ("TO_HEX", bindToHex, Exactly 1); ("TRANSLATE", bindTranslate, Exactly 3);
    ("TRIM", bindTrim, OneOf [1; 2]%nat); ("UNICODE", bindUnicode, Exactly 1);
    ("UPPER", bindUpper, Exactly 1); ("TO_JSON", bindToJson, OneOf [1; 2]%nat);
    ("TO_JSON_STRING", bindToJsonString, OneOf [1; 2]%nat);
    ("BOOL", bindBool, Exactly 1); ("INT64", bindInt64, Exactly 1);
    ("FLOAT64", bindDouble, Exactly 2);
    ("JSON_TYPE", bindJsonType, Exactly 1);
    ("ABS", bindAbs, Exactly 1); ("SIGN", bindSign, Exactly 1);
    ("IS_INF", bindIsInf, Exactly 1); ("IS_NAN", bindIsNaN, Exactly 1);
    ("IEEE_DIVIDE", bindIEEEDivide, Exactly 2); ("RAND", bindRand, Exactly 0);
    ("SQRT", bindSqrt, Exactly 1); ("POW(ER)", bindPow, Exactly 2);
    ("EXP", bindExp, Exactly 1); ("LN", bindLn, Exactly 1);
    ("LOG", bindLog, OneOf [1; 2]%nat); ("LOG10", bindLog10, Exactly 1);
    ("DIV", bindDiv, Exactly 2); ("SAFE_DIVIDE", bindSafeDivide, Exactly 2);
    ("SAFE_MULTIPLY", bindSafeMultiply, Exactly 2);
    ("SAFE_NEGATE", bindSafeNegate, Exactly 1);
    ("SAFE_ADD", bindSafeAdd, Exactly 2);
    ("SAFE_SUBTRACT", bindSafeSubtract, Exactly 2);
    ("MOD", bindMod, Exactly 2); ("ROUND", bindRound, Exactly 1);
    ("TRUNC", bindTrunc, Exactly 1); ("CEIL(ING)", bindCeil, Exactly 1);
    ("FLOOR", bindFloor, Exactly 1); ("COS", bindCos, Exactly 1);
    ("COSH", bindCosh, Exactly 1); ("ACOS", bindAcos, Exactly 1);
    ("ACOSH", bindAcosh, Exactly 1); ("SIN", bindSin, Exactly 1);
    ("SINH", bindSinh, Exactly 1); ("ASIN", bindAsin, Exactly 1);
    ("ASINH", bindAsinh, Exactly 1); ("TAN", bindTan, Exactly 1);
    ("TANH", bindTanh, Exactly 1); ("ATAN", bindAtan, Exactly 1);
    ("ATANH", bindAtanh, Exactly 1); ("ATAN2", bindAtan2, Exactly 2);
    ("RANGE_BUCKET", bindRangeBucket, Exactly 2);
    ("DATE_ADD", bindDateAdd, Exactly 3); ("DATE_SUB", bindDateSub, Exactly 3);
    ("DATE_DIFF", bindDateDiff, Exactly 3);
    ("DATE_TRUNC", bindDateTrunc, Exactly 2);
    ("DATE_FROM_UNIX_DATE", bindDateFromUnixDate, Exactly 1);
    ("FORMAT_DATE", bindFormatDate, Exactly 2);
    ("LAST_DAY", bindLastDay, OneOf [1; 2]%nat);
    ("PARSE_DATE", bindParseDate, Exactly 2);
    ("UNIX_DATE", bindUnixDate, Exactly 1);
    ("DATETIME_ADD", bindDatetimeAdd, Exactly 3);
    ("DATETIME_SUB", bindDatetimeSub, Exactly 3);
    ("DATETIME_DIFF", bindDatetimeDiff, Exactly 3);
    ("DATETIME_TRUNC", bindDatetimeTrunc, Exactly 2);
    ("FORMAT_DATETIME", bindFormatDatetime, Exactly 2);
    ("PARSE_DATETIME", bindParseDatetime, Exactly 2);
    ("TIME_ADD", bindTimeAdd, Exactly 3); ("TIME_SUB", bindTimeSub, Exactly 3);
    ("TIME_DIFF", bindTimeDiff, Exactly 3);
    ("TIME_TRUNC", bindTimeTrunc, Exactly 2);
    ("FORMAT_TIME", bindFormatTime, Exactly 2);
    ("PARSE_TIME", bindParseTime, Exactly 2);
    ("STRING", bindString, OneOf [1; 2]%nat);
    ("TIMESTAMP", bindTimestamp, OneOf [1; 2]%nat);
    ("TIMESTAMP_ADD", bindTimestampAdd, Exactly 3);
    ("TIMESTAMP_SUB", bindTimestampSub, Exactly 3);
    ("TIMESTAMP_DIFF", bindTimestampDiff, Exactly 3);
    ("TIMESTAMP_TRUNC", bindTimestampTrunc, OneOf [2; 3]%nat);
    ("FORMAT_TIMESTAMP", bindFormatTimestamp, OneOf [2; 3]%nat);
    ("PARSE_TIMESTAMP", bindParseTimestamp, Exactly 2);
    ("TIMESTAMP_SECONDS", bindTimestampSeconds, Exactly 1);
    ("TIMESTAMP_MILLIS", bindTimestampMillis, Exactly 1);
    ("TIMESTAMP_MICROS", bindTimestampMicros, Exactly 1);
    ("UNIX_SECONDS", bindUnixSeconds, Exactly 1);
    ("UNIX_MILLIS", bindUnixMillis, Exactly 1);
    ("UNIX_MICROS", bindUnixMicros, Exactly 1);
    ("DECODE_ARRAY", bindDecodeArray, Exactly 1);
    ("ARRAY_LENGTH", bindArrayLength, Exactly 1);
    ("ARRAY_TO_STRING", bindArrayToString, AtLeast 2);
    ("GENERATE_ARRAY", bindGenerateArray, OneOf [2; 3]%nat);
    ("GENERATE_DATE_ARRAY", bindGenerateDateArray, AtLeast 2);
    ("GENERATE_TIMESTAMP_ARRAY", bindGenerateTimestampArray, Exactly 4);
    ("ARRAY_REVERSE", bindArrayReverse, Exactly 1);
    ("DISTINCT", bindDistinct, Exactly 0); ("LIMIT", bindLimit, Exactly 1);
    ("IGNORE_NULLS", bindIgnoreNulls, Exactly 0);
    ("ORDER_BY", bindOrderBy, Exactly 2);
    ("WINDOW_FRAME_UNIT", bindWindowFrameUnit, Exactly 1);
    ("WINDOW_PARTITION", bindWindowPartition, Exactly 1);
    ("WINDOW_BOUNDARY_START", bindWindowBoundaryStart, Exactly 2);
    ("WINDOW_BOUNDARY_END", bindWindowBoundaryEnd, Exactly 2);
    ("WINDOW_ROWID", bindWindowRowID, Exactly 1);
    ("WINDOW_ORDER_BY", bindWindowOrderBy, Exactly 2) ].



End Tables.


(** ** A runtime to run the binders on *)

Module Example.

Local Open Scope string_scope.

Definition mismatch {A} (want : string) : outcome A :=
  Err (Kinded KTypeMismatch ("value is not " +:+ want)).

(** Modelled from the spec: the canonical string form of a value.  Text
    is its own canonical form, integers print in decimal and booleans as
    "true" and "false" (section 4.3); a structured value has the text of
    its encoding (section 4.2), which is what the string converters of
    [function_bind.go] store for it. *)
Fixpoint canonical (v : Value) : string :=
  match v with
  | StringValue s => s
  | JsonValue t => t
  | IntValue i => fmt_d i
  | BoolValue b => fmt_t b
  | SafeValue w => canonical w
  | _ => Codec.encode v
  end.

(** Modelled from the spec: the [to_<t>()] conversions of section 4.1,
    "fails with TypeMismatch if the source variant is incompatible".  A
    variant is taken to be compatible with its own target only; the safe
    wrapper converts as the value it wraps. *)
Fixpoint toInt64 (v : Value) : outcome Z :=
  match v with
  | IntValue i => Ok i
  | SafeValue w => toInt64 w
  | _ => mismatch "INT64"
  end.

Fixpoint toFloat64 (v : Value) : outcome N :=
  match v with
  | FloatValue bits => Ok bits
  | SafeValue w => toFloat64 w
  | _ => mismatch "FLOAT64"
  end.

Fixpoint toBytes (v : Value) : outcome (list Byte.byte) :=
  match v with
  | BytesValue b => Ok b
  | SafeValue w => toBytes w
  | _ => mismatch "BYTES"
  end.

Fixpoint toBool (v : Value) : outcome bool :=
  match v with
  | BoolValue b => Ok b
  | SafeValue w => toBool w
  | _ => mismatch "BOOL"
  end.

Fixpoint toTime (v : Value) : outcome Time :=
  match v with
  | DateValue days => Ok (mkTime (days * 86400000000000) "UTC")
  | TimeValue nanos => Ok (mkTime nanos "UTC")
  | DatetimeValue micros => Ok (mkTime (micros * 1000) "UTC")
  | TimestampValue micros => Ok (mkTime (micros * 1000) "UTC")
  | SafeValue w => toTime w
  | _ => mismatch "a date or time"
  end.

Fixpoint toArray (v : Value) : outcome (list Value) :=
  match v with
  | ArrayValue elems => Ok elems
  | SafeValue w => toArray w
  | _ => mismatch "ARRAY"
  end.

(** [%T]; only the names the source spells out are known. *)
Definition type_name (v : Value) : string :=
  match v with
  | Null => "<nil>"
  | IntValue _ => "internal.IntValue"
  | StringValue _ => "internal.StringValue"
  | JsonValue _ => "internal.JsonValue"
  | SafeValue _ => "*internal.SafeValue"
  | _ => "internal.Value"
  end.

#[global] Instance methods : ValueMethods := {|
  ToInt64 := toInt64;
  ToFloat64 := toFloat64;
  ToString := fun v => Ok (canonical v);
  ToBytes := toBytes;
  ToBool := toBool;
  ToTime := toTime;
  ToArray := toArray;
  SprintInterface := canonical;
  fmt_T := type_name
|}.

(** Modelled from the spec: [value_of] of section 4.1 on host scalars. *)
Definition value_of (c : Cell) : outcome Value :=
  match c with
  | CNil => Ok Null
  | CInt i => Ok (IntValue i)
  | CFloat bits => Ok (FloatValue bits)
  | CBool b => Ok (BoolValue b)
  | CText s => Ok (StringValue s)
  | CBlob b => Ok (BytesValue b)
  end.

(** Modelled from the spec: "options flow as out-of-band arguments
    appended to the step call" (section 4.4), as sentinel argument values
    (section 9).  The sentinels here are two text cells. *)
Definition DISTINCT : Cell := CText "zetasqlite_distinct".
Definition IGNORE_NULLS : Cell := CText "zetasqlite_ignore_nulls".

Definition is_text (t : string) (c : Cell) : bool :=
  match c with CText s => String.eqb s t | _ => false end.

Fixpoint parse_options (cells : list Cell) : list Cell * AggregatorOption :=
  match cells with
  | [] => ([], mkAggregatorOption false false [] None)
  | c :: rest =>
      let '(args, opt) := parse_options rest in
      if is_text "zetasqlite_distinct" c then
        (args, mkAggregatorOption true (IgnoreNulls opt) (OrderBy opt) (Limit opt))
      else if is_text "zetasqlite_ignore_nulls" c then
        (args, mkAggregatorOption (Distinct opt) true (OrderBy opt) (Limit opt))
      else (c :: args, opt)
  end.

(** Every implementation answers with its own name, so that a NULL result
    can only come from the binder. *)
#[global] Instance runtime : Runtime := {|
  builtin := fun name _ => Ok (StringValue name);
  ValueOf := value_of;
  LoadLocation := fun zone => Ok zone;
  parseAggregateOptions := fun cells => Ok (parse_options cells)
|}.

#[global] Instance window_runtime : WindowRuntime unit := {|
  parseWindowOptions := fun cells => Ok (cells, tt)
|}.

(** An aggregate that records the rows it is stepped with and returns
    them, each row as an array. *)
Definition Trace : Type := list (list Value).

Definition trace_step (row : list Value) (_ : AggregatorOption) (s : Trace)
  : outcome Trace := Ok (s ++ [row])%list.

Definition trace_done (s : Trace) : outcome Value :=
  Ok (ArrayValue (map ArrayValue s)).

Definition trace : Aggregator Trace :=
  newAggregator [] trace_step trace_done stringValueConverter.

Definition trace_window : WindowAggregator unit Trace :=
  newWindowAggregator []
    (fun row opt _ s => trace_step row opt s) trace_done stringValueConverter.

#[global] Instance aggregates : AggregateRuntime Trace unit Trace := {|
  agg_new := fun _ _ => [];
  agg_Step := fun _ args _ s =>
    Ok (s ++ [flat_map (fun a => match a with AVal v => [v] | _ => [] end) args])%list;
  agg_Done := fun _ s => trace_done s;
  newWindowFuncAggregatedStatus := [];
  win_Step := fun _ args _ s =>
    Ok (s ++ [flat_map (fun a => match a with AVal v => [v] | _ => [] end) args])%list;
  win_Done := fun _ s => trace_done s
|}.

Definition distinct_opt : AggregatorOption :=
  mkAggregatorOption true false [] None.
Definition ignore_nulls_opt : AggregatorOption :=
  mkAggregatorOption false true [] None.

End Example.


(** ** The binders as lists *)

Section MoreTables.
Context `{VM : ValueMethods} `{RT : Runtime}.

(** The scalar binders that [arity_checked] does not list: the one whose
    message names another function, and those with another message or
    without an arity check. *)
Definition other_binders : list BindFunction :=
  [ bindGreaterOrEqual; bindGreatest; bindLeast;
    bindCurrentDate; bindCurrentDatetime; bindCurrentTime;
    bindCurrentTimestamp; bindDate; bindDatetime; bindTime;
    bindArrayConcat; bindMakeArray; bindMakeStruct ].

(** Every scalar binder of the file. *)
Definition scalar_binders : list BindFunction :=
  map (fun e => snd (fst e)) arity_checked ++ other_binders.

(** The four binders of the current date and time, with the label of
    their message. *)
Definition current_binders : list (string * BindFunction) :=
  [ ("CURRENT_DATE", bindCurrentDate);
    ("CURRENT_DATETIME", bindCurrentDatetime);
    ("CURRENT_TIME", bindCurrentTime);
    ("CURRENT_TIMESTAMP", bindCurrentTimestamp) ].

(** The return-value converters. *)
Definition converters : list ReturnValueConverter :=
  [ intValueConverter; floatValueConverter; stringValueConverter;
    boolValueConverter; dateValueConverter; datetimeValueConverter;
    timeValueConverter; timestampValueConverter; jsonValueConverter;
    arrayValueConverter; structValueConverter ].

(** Each scalar wrapper beside the converter that stores a result of its
    type: [bindBytesFunc] beside the string converter, as
    [bindAggregateBytesFunc] has it. *)
Definition wrapper_converters
  : list ((BindFunction -> SQLiteFunction) * ReturnValueConverter) :=
  [ (bindIntFunc, intValueConverter); (bindFloatFunc, floatValueConverter);
    (bindStringFunc, stringValueConverter);
    (bindBytesFunc, stringValueConverter);
    (bindBoolFunc, boolValueConverter); (bindDateFunc, dateValueConverter);
    (bindDatetimeFunc, datetimeValueConverter);
    (bindTimeFunc, timeValueConverter);
    (bindTimestampFunc, timestampValueConverter);
    (bindJsonFunc, jsonValueConverter); (bindArrayFunc, arrayValueConverter);
    (bindStructFunc, structValueConverter) ].

(** The interface never panics: no conversion on a value that is not nil,
    no implementation, no time zone lookup. *)
Definition total_interface : Prop :=
  (forall v, isNil v = false -> ToInt64 v <> Panic)
  /\ (forall v, isNil v = false -> ToString v <> Panic)
  /\ (forall v, isNil v = false -> ToBytes v <> Panic)
  /\ (forall v, isNil v = false -> ToBool v <> Panic)
  /\ (forall v, isNil v = false -> ToTime v <> Panic)
  /\ (forall v, isNil v = false -> ToArray v <> Panic)
  /\ (forall name args, builtin name args <> Panic)
  /\ (forall zone, LoadLocation zone <> Panic).

End MoreTables.

Section AggregateTables.
Context `{VM : ValueMethods} `{RT : Runtime}.
Context {S W G : Type} `{AR : AggregateRuntime S W G}.

(** The aggregate binders, with the label of their arity message and the
    arities their step closure accepts. *)
Definition aggregate_binders (converter : ReturnValueConverter)
  : list (string * Aggregator S * Arity) :=
  [
    ("ARRAY_AGG", bindArrayAgg converter, Exactly 1);
    ("ARRAY_CONCAT_AGG", bindArrayConcatAgg converter, Exactly 1);
    ("SUM", bindSum converter, Exactly 1);
    ("AVG", bindAvg converter, Exactly 1);
    ("COUNT", bindCount converter, Exactly 1);
    ("COUNT_STAR", bindCountStar converter, Exactly 0);
    ("BIT_AND_AGG", bindBitAndAgg converter, Exactly 1);
    ("BIT_OR_AGG", bindBitOrAgg converter, Exactly 1);
    ("BIT_XOR_AGG", bindBitXorAgg converter, Exactly 1);
    ("COUNT_IF", bindCountIf converter, Exactly 1);
    ("LOGICAL_AND", bindLogicalAnd converter, Exactly 1);
    ("LOGICAL_OR", bindLogicalOr converter, Exactly 1);
    ("MAX", bindMax converter, Exactly 1);
    ("MIN", bindMin converter, Exactly 1);
    ("STRING_AGG", bindStringAgg converter, OneOf [1; 2]%nat);
    ("ARRAY", bindArray converter, Exactly 1) ].

(** The window binders, likewise. *)
Definition window_binders (converter : ReturnValueConverter)
  : list (string * WindowAggregator W G * Arity) :=
  [
    ("WINDOW_SUM", bindWindowSum converter, Exactly 1);
    ("WINDOW_MAX", bindWindowMax converter, Exactly 1);
    ("WINDOW_MIN", bindWindowMin converter, Exactly 1);
    ("WINDOW_COUNT", bindWindowCount converter, Exactly 1);
    ("WINDOW_COUNT_STAR", bindWindowCountStar converter, Exactly 0);
    ("WINDOW_AVG", bindWindowAvg converter, Exactly 1);
    ("WINDOW_FIRST_VALUE", bindWindowFirstValue converter, Exactly 1);
    ("WINDOW_LAST_VALUE", bindWindowLastValue converter, Exactly 1);
    ("WINDOW_LAG", bindWindowLag converter, OneOf [1; 2; 3]%nat);
    ("WINDOW_RANK", bindWindowRank converter, Exactly 0);
    ("WINDOW_DENSE_RANK", bindWindowDenseRank converter, Exactly 0);
    ("WINDOW_ROW_NUMBER", bindWindowRowNumber converter, Exactly 0);
    ("WINDOW_CORR", bindWindowCorr converter, Exactly 2);
    ("WINDOW_COVAR_POP", bindWindowCovarPop converter, Exactly 2);
    ("WINDOW_COVAR_SAMP", bindWindowCovarSamp converter, Exactly 2);
    ("WINDOW_STDDEV_POP", bindWindowStdDevPop converter, Exactly 1);
    ("WINDOW_STDDEV_SAMP", bindWindowStdDevSamp converter, Exactly 1);
    ("WINDOW_STDDEV", bindWindowStdDev converter, Exactly 1);
    ("WINDOW_VAR_POP", bindWindowVarPop converter, Exactly 1);
    ("WINDOW_VAR_SAMP", bindWindowVarSamp converter, Exactly 1);
    ("WINDOW_VARIANCE", bindWindowVariance converter, Exactly 1) ].

End AggregateTables.

(** ** Running a window aggregate over its input *)

Section WindowLifecycle.
Context `{VM : ValueMethods} `{RT : Runtime}.
Context {W G : Type}.

(** The window aggregate itself: its step closure applied to the rows, each
    with its window options, in arrival order. *)
Fixpoint window_feed
    (step : list Value -> AggregatorOption -> W -> G -> outcome G)
    (opt : AggregatorOption) (rows : list (list Value * W)) (g : G)
  : outcome G :=
  match rows with
  | [] => Ok g
  | (row, windowOpt) :: rest =>
      g' ← step row opt windowOpt g; window_feed step opt rest g'
  end.

Definition window_aggregate
    (step : list Value -> AggregatorOption -> W -> G -> outcome G)
    (done : G -> outcome Value) (converter : ReturnValueConverter)
    (opt : AggregatorOption) (g0 : G) (rows : list (list Value * W))
  : outcome Cell :=
  g ← window_feed step opt rows g0;
  ret ← done g;
  converter ret.

(** [Step] once per row in arrival order, then [Done]. *)
Fixpoint WindowAggregator_feed (a : WindowAggregator W G)
    (opt : AggregatorOption) (rows : list (list Value * W))
  : outcome (WindowAggregator W G) :=
  match rows with
  | [] => Ok a
  | (row, windowOpt) :: rest =>
      a' ← WindowAggregator_Step_values a row opt windowOpt;
      WindowAggregator_feed a' opt rest
  end.

Definition WindowAggregator_run (a : WindowAggregator W G)
    (opt : AggregatorOption) (rows : list (list Value * W)) : outcome Cell :=
  a' ← WindowAggregator_feed a opt rows;
  WindowAggregator_Done a'.

(** A window row DISTINCT can key: its first argument is not NULL and has a
    canonical string form. *)
Definition window_keyed (row : list Value * W) : Prop :=
  match fst row with
  | v :: _ => isNil v = false /\ exists k, ToString v = Ok k
  | [] => False
  end.

(** [dedup_from] on rows that carry their window options. *)
Fixpoint window_dedup_from (seen : list string) (xs : list (list Value * W))
  : list (list Value * W) :=
  match xs with
  | [] => []
  | x :: rest =>
      if existsb (String.eqb (canonical_key (fst x))) seen
      then window_dedup_from seen rest
      else x :: window_dedup_from (canonical_key (fst x) :: seen) rest
  end.

End WindowLifecycle.

(** The keys of the rows whose first argument is not NULL. *)
Definition keys_of `{VM : ValueMethods} (rows : list (list Value))
  : list string :=
  map canonical_key (drop_null_rows rows).

(** ** The wrappers of the aggregate and window binders *)

Section ResultWrappers.
Context `{VM : ValueMethods} `{RT : Runtime}.
Context {S W G : Type}.

(** [bindAggregate<T>Func]; a binder is handed the converter of the result
    type. *)
Definition bindAggregateIntFunc
    (bindFunc : ReturnValueConverter -> Aggregator S) : Aggregator S :=
  bindFunc intValueConverter.
Definition bindAggregateFloatFunc
    (bindFunc : ReturnValueConverter -> Aggregator S) : Aggregator S :=
  bindFunc floatValueConverter.
Definition bindAggregateStringFunc
    (bindFunc : ReturnValueConverter -> Aggregator S) : Aggregator S :=
  bindFunc stringValueConverter.
Definition bindAggregateBytesFunc
    (bindFunc : ReturnValueConverter -> Aggregator S) : Aggregator S :=
  bindFunc stringValueConverter.
Definition bindAggregateBoolFunc
    (bindFunc : ReturnValueConverter -> Aggregator S) : Aggregator S :=
  bindFunc boolValueConverter.
Definition bindAggregateDateFunc
    (bindFunc : ReturnValueConverter -> Aggregator S) : Aggregator S :=
  bindFunc dateValueConverter.
Definition bindAggregateDatetimeFunc
    (bindFunc : ReturnValueConverter -> Aggregator S) : Aggregator S :=
  bindFunc datetimeValueConverter.
Definition bindAggregateTimeFunc
    (bindFunc : ReturnValueConverter -> Aggregator S) : Aggregator S :=
  bindFunc timeValueConverter.
Definition bindAggregateTimestampFunc
    (bindFunc : ReturnValueConverter -> Aggregator S) : Aggregator S :=
  bindFunc timestampValueConverter.
Definition bindAggregateJsonFunc
    (bindFunc : ReturnValueConverter -> Aggregator S) : Aggregator S :=
  bindFunc jsonValueConverter.
Definition bindAggregateArrayFunc
    (bindFunc : ReturnValueConverter -> Aggregator S) : Aggregator S :=
  bindFunc arrayValueConverter.
Definition bindAggregateStructFunc
    (bindFunc : ReturnValueConverter -> Aggregator S) : Aggregator S :=
  bindFunc structValueConverter.

(** [bindWindow<T>Func] *)
Definition bindWindowIntFunc
    (bindFunc : ReturnValueConverter -> WindowAggregator W G)
  : WindowAggregator W G :=
  bindFunc intValueConverter.
Definition bindWindowFloatFunc
    (bindFunc : ReturnValueConverter -> WindowAggregator W G)
  : WindowAggregator W G :=
  bindFunc floatValueConverter.
Definition bindWindowStringFunc
    (bindFunc : ReturnValueConverter -> WindowAggregator W G)
  : WindowAggregator W G :=
  bindFunc stringValueConverter.
Definition bindWindowBytesFunc
    (bindFunc : ReturnValueConverter -> WindowAggregator W G)
  : WindowAggregator W G :=
  bindFunc stringValueConverter.
Definition bindWindowBoolFunc
    (bindFunc : ReturnValueConverter -> WindowAggregator W G)
  : WindowAggregator W G :=
  bindFunc boolValueConverter.
Definition bindWindowDateFunc
    (bindFunc : ReturnValueConverter -> WindowAggregator W G)
  : WindowAggregator W G :=
  bindFunc dateValueConverter.
Definition bindWindowDatetimeFunc
    (bindFunc : ReturnValueConverter -> WindowAggregator W G)
  : WindowAggregator W G :=
  bindFunc datetimeValueConverter.
Definition bindWindowTimeFunc
    (bindFunc : ReturnValueConverter -> WindowAggregator W G)
  : WindowAggregator W G :=
  bindFunc timeValueConverter.
Definition bindWindowTimestampFunc
    (bindFunc : ReturnValueConverter -> WindowAggregator W G)
  : WindowAggregator W G :=
  bindFunc timestampValueConverter.
Definition bindWindowJsonFunc
    (bindFunc : ReturnValueConverter -> WindowAggregator W G)
  : WindowAggregator W G :=
  bindFunc jsonValueConverter.
Definition bindWindowArrayFunc
    (bindFunc : ReturnValueConverter -> WindowAggregator W G)
  : WindowAggregator W G :=
  bindFunc arrayValueConverter.
Definition bindWindowStructFunc
    (bindFunc : ReturnValueConverter -> WindowAggregator W G)
  : WindowAggregator W G :=
  bindFunc structValueConverter.

(** The wrappers of each result type: of a scalar binder, of an aggregate
    binder and of a window binder. *)
Definition result_wrappers
  : list ((BindFunction -> SQLiteFunction)
          * ((ReturnValueConverter -> Aggregator S) -> Aggregator S)
          * ((ReturnValueConverter -> WindowAggregator W G)
             -> WindowAggregator W G)) :=
  [ (bindIntFunc, bindAggregateIntFunc, bindWindowIntFunc);
    (bindFloatFunc, bindAggregateFloatFunc, bindWindowFloatFunc);
    (bindStringFunc, bindAggregateStringFunc, bindWindowStringFunc);
    (bindBytesFunc, bindAggregateBytesFunc, bindWindowBytesFunc);
    (bindBoolFunc, bindAggregateBoolFunc, bindWindowBoolFunc);
    (bindDateFunc, bindAggregateDateFunc, bindWindowDateFunc);
    (bindDatetimeFunc, bindAggregateDatetimeFunc, bindWindowDatetimeFunc);
    (bindTimeFunc, bindAggregateTimeFunc, bindWindowTimeFunc);
    (bindTimestampFunc, bindAggregateTimestampFunc, bindWindowTimestampFunc);
    (bindJsonFunc, bindAggregateJsonFunc, bindWindowJsonFunc);
    (bindArrayFunc, bindAggregateArrayFunc, bindWindowArrayFunc);
    (bindStructFunc, bindAggregateStructFunc, bindWindowStructFunc) ].

End ResultWrappers.

(** ** A runtime that rejects some of its input *)

(** The error paths need conversions that fail: [Strict] is [Example] with
    a host conversion that takes no blob and a string conversion that takes
    no bytes. *)
Module Strict.

Local Open Scope string_scope.

Definition toString (v : Value) : outcome string :=
  match v with
  | BytesValue _ => Example.mismatch "STRING"
  | _ => Ok (Example.canonical v)
  end.

Definition methods : ValueMethods := {|
  ToInt64 := Example.toInt64;
  ToFloat64 := Example.toFloat64;
  ToString := toString;
  ToBytes := Example.toBytes;
  ToBool := Example.toBool;
  ToTime := Example.toTime;
  ToArray := Example.toArray;
  SprintInterface := Example.canonical;
  fmt_T := Example.type_name
|}.

Definition value_of (c : Cell) : outcome Value :=
  match c with
  | CBlob _ => Err (Errorf "unsupported type")
  | _ => Example.value_of c
  end.

Definition runtime : Runtime := {|
  builtin := fun name _ => Ok (StringValue name);
  ValueOf := value_of;
  LoadLocation := fun zone => Ok zone;
  parseAggregateOptions := fun cells => Ok (Example.parse_options cells)
|}.

End Strict.

(** * Properties *)

(** ** The encoder and decoder *)

Module CodecFacts.
Import Codec.

Local Open Scope string_scope.

Lemma append_cons (c : ascii) (a b : string) :
  String c a +:+ b = String c (a +:+ b).
Proof. reflexivity. Qed.

Lemma append_nil (b : string) : "" +:+ b = b.
Proof. reflexivity. Qed.


Lemma append_assoc (a b c : string) : (a +:+ b) +:+ c = a +:+ (b +:+ c).
Proof.
  induction a as [|x a IH]; rewrite ?append_cons, ?append_nil;
    [reflexivity | now rewrite IH].
Qed.


(** Pushes the text that follows through the encoder's concatenations. *)
Ltac push :=
  repeat (rewrite append_assoc || rewrite append_cons || rewrite append_nil).

Lemma decPos_encPos (p : positive) (rest : string) :
  decPos (encPos p +:+ rest) = Some (p, rest).
Proof.
  induction p as [q IH | q IH |]; simpl; push; simpl; rewrite ?IH;
    reflexivity.
Qed.

Lemma decN_encN (n : N) (rest : string) :
  decN (encN n +:+ rest) = Some (n, rest).
Proof.
  unfold decN, encN. rewrite decPos_encPos. simpl.
  now rewrite N.pos_pred_succ.
Qed.

#[local] Arguments encN : simpl never.
#[local] Arguments decN : simpl never.

Lemma decZ_encZ (z : Z) (rest : string) :
  decZ (encZ z +:+ rest) = Some (z, rest).
Proof.
  unfold encZ.
  destruct z as [|p|p]; simpl; push; simpl; rewrite ?decN_encN;
    reflexivity.
Qed.

Lemma take_append (s rest : string) :
  take (String.length s) (s +:+ rest) = Some (s, rest).
Proof.
  induction s as [|c s IH]; push; simpl; [reflexivity | now rewrite IH].
Qed.

Lemma decStr_encStr (s rest : string) :
  decStr (encStr s +:+ rest) = Some (s, rest).
Proof.
  unfold decStr, encStr. push. rewrite decN_encN. simpl.
  rewrite Nat2N.id. apply take_append.
Qed.

Lemma decBytes_encBytes (b : list Byte.byte) (rest : string) :
  decBytes (encBytes b +:+ rest) = Some (b, rest).
Proof.
  unfold decBytes, encBytes. rewrite decStr_encStr. simpl.
  now rewrite list_byte_of_string_of_list_byte.
Qed.

Lemma decName_encName (o : option string) (rest : string) :
  decName (encName o +:+ rest) = Some (o, rest).
Proof.
  destruct o as [s|]; simpl; push; simpl;
    [now rewrite decStr_encStr | reflexivity].
Qed.

(** Induction on values, with the hypothesis for every element of an array
    and every field of a struct. *)
Lemma Value_nested_ind (P : Value -> Prop) :
  (forall v, match v with
             | ArrayValue _ | StructValue _ | SafeValue _ => True
             | _ => P v
             end) ->
  (forall elems, Forall P elems -> P (ArrayValue elems)) ->
  (forall fields, Forall (fun f => P (snd f)) fields ->
                  P (StructValue fields)) ->
  (forall w, P w -> P (SafeValue w)) ->
  forall v, P v.
Proof.
  intros Hleaf Harr Hstruct Hsafe.
  fix IH 1.
  intros [ | | | | | | | | | | | | | | elems | fields | w].
  15: { apply Harr. induction elems as [|x r IHr]; constructor; auto. }
  15: { apply Hstruct.
        induction fields as [|[n x] r IHr]; constructor; auto. }
  15: { apply Hsafe, IH. }
  all: match goal with |- _ ?v => exact (Hleaf v) end.
Qed.

Lemma encode_Array (elems : list Value) :
  encode (ArrayValue elems)
  = String "A" (encN (N.of_nat (length elems)) +:+ encAll elems).
Proof. reflexivity. Qed.

Lemma encode_Struct (fields : list (option string * Value)) :
  encode (StructValue fields)
  = String "R" (encN (N.of_nat (length fields)) +:+ encFields fields).
Proof. reflexivity. Qed.

Lemma depth_Array (elems : list Value) :
  depth (ArrayValue elems) = Datatypes.S (depthAll elems).
Proof. reflexivity. Qed.

Lemma depth_Struct (fields : list (option string * Value)) :
  depth (StructValue fields) = Datatypes.S (depthFields fields).
Proof. reflexivity. Qed.

(** [many] reads back what [encAll] wrote, given that the element decoder
    reads back every element. *)
Lemma many_encAll (d : string -> option (Value * string))
    (elems : list Value) (rest : string) :
  Forall (fun x => forall r, d (encode x +:+ r) = Some (x, r)) elems ->
  many d (length elems) (encAll elems +:+ rest) = Some (elems, rest).
Proof.
  induction 1 as [|x l Hx _ IH]; [reflexivity|].
  change (encAll (x :: l)) with (encode x +:+ encAll l).
  push. simpl. rewrite Hx. simpl. rewrite IH. reflexivity.
Qed.

Lemma decField_enc (d : string -> option (Value * string))
    (n : option string) (x : Value) (rest : string) :
  (forall r, d (encode x +:+ r) = Some (x, r)) ->
  decField d (encName n +:+ encode x +:+ rest) = Some ((n, x), rest).
Proof.
  intros Hx. unfold decField. rewrite decName_encName. simpl.
  rewrite Hx. reflexivity.
Qed.

#[local] Arguments decField : simpl never.

Lemma many_encFields (d : string -> option (Value * string))
    (fields : list (option string * Value)) (rest : string) :
  Forall (fun f => forall r, d (encode (snd f) +:+ r) = Some (snd f, r))
    fields ->
  many (decField d) (length fields) (encFields fields +:+ rest)
  = Some (fields, rest).
Proof.
  induction 1 as [|[n x] l Hx _ IH]; [reflexivity|].
  change (encFields ((n, x) :: l))
    with (encName n +:+ encode x +:+ encFields l).
  push. simpl. simpl in Hx. rewrite (decField_enc d n x _ Hx). simpl.
  rewrite IH. reflexivity.
Qed.

Lemma depthAll_Forall (n : nat) (elems : list Value) :
  (depthAll elems <= n)%nat -> Forall (fun x => (depth x <= n)%nat) elems.
Proof.
  induction elems as [|x r IH]; intros H; constructor;
    change (depthAll (x :: r)) with (Nat.max (depth x) (depthAll r)) in H;
    [|apply IH]; lia.
Qed.

Lemma depthFields_Forall (n : nat) (fields : list (option string * Value)) :
  (depthFields fields <= n)%nat ->
  Forall (fun f => (depth (snd f) <= n)%nat) fields.
Proof.
  induction fields as [|[m x] r IH]; intros H; constructor;
    change (depthFields ((m, x) :: r))
      with (Nat.max (depth x) (depthFields r)) in H;
    [simpl|apply IH]; lia.
Qed.

#[local] Opaque encN encZ encStr encBytes encName.

(** Fuel as deep as the value reads the value back and leaves the text
    that follows it. *)
Lemma dec_encode (v : Value) :
  forall (fuel : nat) (rest : string),
    (depth v <= fuel)%nat ->
    dec fuel (encode v +:+ rest) = Some (v, rest).
Proof.
  revert v.
  apply (Value_nested_ind
           (fun v => forall fuel rest, (depth v <= fuel)%nat ->
                     dec fuel (encode v +:+ rest) = Some (v, rest)));
    [intros v | intros elems IH | intros fields IH | intros w IH].
  - destruct v; try exact I; intros [|f] rest Hd; simpl in Hd; try lia;
      simpl; push; simpl;
      rewrite ?decZ_encZ, ?decN_encN, ?decStr_encStr, ?decBytes_encBytes;
      simpl; rewrite ?decZ_encZ; simpl; rewrite ?decZ_encZ;
      try reflexivity.
    match goal with b : bool |- _ => destruct b; reflexivity end.
  - intros [|f] rest Hd; rewrite depth_Array in Hd; [lia|].
    rewrite encode_Array. push. simpl. rewrite decN_encN. simpl.
    rewrite Nat2N.id, many_encAll; [reflexivity|].
    assert (Hf : Forall (fun x => (depth x <= f)%nat) elems)
      by (apply depthAll_Forall; lia).
    rewrite Forall_forall in *. intros x Hx r. apply IH; auto.
  - intros [|f] rest Hd; rewrite depth_Struct in Hd; [lia|].
    rewrite encode_Struct. push. simpl. rewrite decN_encN. simpl.
    rewrite Nat2N.id, many_encFields; [reflexivity|].
    assert (Hf : Forall (fun x => (depth (snd x) <= f)%nat) fields)
      by (apply depthFields_Forall; lia).
    rewrite Forall_forall in *. intros x Hx r. apply IH; auto.
  - intros [|f] rest Hd; simpl in Hd; [lia|].
    simpl. push. simpl. rewrite IH by lia. reflexivity.
Qed.




(** The encoded form is injective. *)
Corollary encode_injective (v w : Value) : encode v = encode w -> v = w.
Proof.
  intros H.
  pose proof (dec_encode v (Nat.max (depth v) (depth w)) ""
                (Nat.le_max_l _ _)) as Hv.
  pose proof (dec_encode w (Nat.max (depth v) (depth w)) ""
                (Nat.le_max_r _ _)) as Hw.
  rewrite H, Hw in Hv. now inversion Hv.
Qed.

End CodecFacts.

(** ** The scalar binders *)


Lemma accepts_OneOf (ns : list nat) (n : nat) :
  accepts (OneOf ns) n = existsb (Nat.eqb n) ns.
Proof. reflexivity. Qed.

(** Splits an argument list far enough for every arity check of the
    binders to decide. *)
Ltac split_args args :=
  destruct args as [|?a0 [|?a1 [|?a2 [|?a3 [|?a4 args]]]]].

Ltac head_of t :=
  lazymatch t with
  | ?f _ => head_of f
  | _ => t
  end.

Section BindFacts.
Context `{VM : ValueMethods} `{RT : Runtime}.

Lemma call_not_nil {A} (m : Value -> outcome A) (v : Value) :
  isNil v = false -> call m v = m v.
Proof. now destruct v. Qed.

Lemma call_Ok_not_nil {A} (m : Value -> outcome A) (v : Value) (a : A) :
  call m v = Ok a -> isNil v = false /\ m v = Ok a.
Proof. destruct v; simpl; intros H; try discriminate; auto. Qed.

Lemma call_Err_not_nil {A} (m : Value -> outcome A) (v : Value) (e : error) :
  call m v = Err e -> isNil v = false /\ m v = Err e.
Proof. destruct v; simpl; intros H; try discriminate; auto. Qed.

Lemma existsNull_cons (v : Value) (args : list Value) :
  existsNull (v :: args) = isNil v || existsNull args.
Proof. reflexivity. Qed.




(** LENGTH answers 0, not NULL, to a NULL argument. *)
Lemma bindLength_null : bindLength [Null] = Ok (IntValue 0).
Proof. reflexivity. Qed.


(** A binder without a nil test calls the conversion on the nil value:
    LEFT with a NULL length panics. *)
Lemma bindLeft_null_length (a0 : Value) : bindLeft [a0; Null] = Panic.
Proof. reflexivity. Qed.



(** C10: the FLOAT64 conversion takes exactly two arguments; when the
    second reads as the mode 'exact' or 'round' it returns the first
    argument unchanged, the same for both modes; for any other mode
    string it fails with an error that names the mode; and whatever it
    returns is its first argument. *)
Theorem bindDouble_modes :
  (forall args : list Value,
      length args <> 2%nat ->
      bindDouble args = Err (invalid_argument_num "FLOAT64" args))
  /\ (forall (a0 a1 : Value) (mode : string),
        call ToString a1 = Ok mode ->
        (mode = "exact"%string \/ mode = "round"%string ->
         bindDouble [a0; a1] = Ok a0)
        /\ (mode <> "exact"%string -> mode <> "round"%string ->
            bindDouble [a0; a1]
            = Err (Errorf ("unexpected wide_number_mode: " +:+ mode))))
  /\ (forall (args : list Value) (v : Value),
        bindDouble args = Ok v -> exists a1, args = [v; a1]).
Proof.
  split; [|split].
  - intros args H. split_args args; simpl in H; try lia; reflexivity.
  - intros a0 a1 mode H. unfold bindDouble. rewrite H. simpl. split.
    + intros [-> | ->]; reflexivity.
    + intros H1 H2.
      apply String.eqb_neq in H1, H2. now rewrite H1, H2.
  - intros args v H. split_args args; try discriminate H.
    unfold bindDouble in H.
    destruct (call ToString a1) as [mode| |]; simpl in H;
      try discriminate H.
    destruct (String.eqb mode "exact");
      [|destruct (String.eqb mode "round")]; inversion H; subst; eauto.
Qed.

End BindFacts.

(** ** The aggregators *)

Section AggregatorFacts.
Context `{VM : ValueMethods} `{RT : Runtime}.

Lemma agree_empty : agree ∅ [].
Proof. intros k. split; [set_solver | intros []]. Qed.

Lemma agree_insert (D : gset string) (seen : list string) (k : string) :
  agree D seen -> agree ({[ k ]} ∪ D) (k :: seen).
Proof.
  intros Hag k'. specialize (Hag k'). simpl.
  rewrite elem_of_union, elem_of_singleton. intuition congruence.
Qed.

Lemma agree_existsb (D : gset string) (seen : list string) (k : string) :
  agree D seen ->
  existsb (String.eqb k) seen = (if decide (k ∈ D) then true else false).
Proof.
  intros H. destruct (decide (k ∈ D)) as [Hin | Hout].
  - apply existsb_exists. exists k. split; [now apply H | apply String.eqb_refl].
  - destruct (existsb (String.eqb k) seen) eqn:E; [|reflexivity].
    apply existsb_exists in E as (k' & Hk' & ->%String.eqb_eq).
    now apply H in Hk'.
Qed.

Lemma filtered_no_null (row : list Value) :
  existsNull row = false -> filtered row = row.
Proof.
  induction row as [|v row IH]; [reflexivity|].
  unfold existsNull. simpl. intros Hor.
  apply orb_false_elim in Hor as [Hv Hrow].
  rewrite Hv. simpl. f_equal. now apply IH.
Qed.

(** What [dedup_from] does with the last row: it is kept exactly when its
    key is equal to no key met before it. *)
Lemma dedup_from_snoc (seen : list string) (xs : list (list Value))
    (x : list Value) :
  dedup_from seen (xs ++ [x])
  = dedup_from seen xs
    ++ (if existsb (String.eqb (canonical_key x))
             (seen ++ map canonical_key xs)
        then [] else [x]).
Proof.
  revert seen. induction xs as [|y xs IH]; intros seen; simpl.
  - rewrite app_nil_r. now destruct (existsb _ seen).
  - destruct (existsb (String.eqb (canonical_key y)) seen) eqn:Hy.
    + rewrite IH. f_equal. rewrite !existsb_app. simpl.
      destruct (String.eqb_spec (canonical_key x) (canonical_key y)) as [->|];
        [now rewrite Hy | reflexivity].
    + rewrite IH. simpl. do 2 f_equal. rewrite !existsb_app. simpl.
      rewrite !orb_assoc.
      now rewrite (orb_comm (String.eqb _ _) (existsb _ seen)).
Qed.

(** Of the rows of equal key, [dedup_by_canonical_form] keeps the first:
    a row is kept exactly when no row before it has its key. *)
Lemma dedup_by_canonical_form_snoc (xs : list (list Value)) (x : list Value) :
  dedup_by_canonical_form (xs ++ [x])
  = dedup_by_canonical_form xs
    ++ (if existsb (String.eqb (canonical_key x)) (map canonical_key xs)
        then [] else [x]).
Proof. apply (dedup_from_snoc []). Qed.

(** Without options the aggregator is its step closure. *)
Lemma Aggregator_plain {S} (a : Aggregator S) (opt : AggregatorOption)
    (rows : list (list Value)) :
  Distinct opt = false -> IgnoreNulls opt = false ->
  Aggregator_run a opt rows
  = aggregate (step a) (done a) (converter a) opt (state a) rows.
Proof.
  intros HD HI. revert a.
  induction rows as [|row rest IH]; intros a; [reflexivity|].
  unfold Aggregator_run, aggregate in *. simpl.
  unfold Aggregator_Step_values, Aggregator_Step_distinct, Aggregator_step.
  rewrite HD, HI.
  destruct (step a row opt (state a)) as [s| |]; simpl; [|reflexivity..].
  apply (IH (mkAggregator _ _ _ _ _)).
Qed.

(** DISTINCT: the step closure sees the rows with a non-NULL first
    argument whose key has not been met. *)
Lemma Aggregator_distinct_run {S} (opt : AggregatorOption)
    (rows : list (list Value)) :
  Distinct opt = true -> IgnoreNulls opt = false ->
  Forall keyed rows ->
  forall (a : Aggregator S) (seen : list string),
    agree (distinctMap a) seen ->
    Aggregator_run a opt rows
    = aggregate (step a) (done a) (converter a) opt (state a)
        (dedup_from seen (drop_null_rows rows)).
Proof.
  intros HD HI HK.
  induction HK as [|row rest Hrow _ IH]; intros a seen Hag; [reflexivity|].
  destruct row as [|v vs]; [destruct Hrow|].
  unfold Aggregator_run, aggregate in *. simpl.
  unfold Aggregator_Step_values, Aggregator_Step_distinct.
  rewrite HD, HI.
  destruct (isNil v) eqn:Hnil; simpl.
  - apply IH, Hag.
  - destruct Hrow as [Hrow | [k Hk]]; [congruence|].
    rewrite call_not_nil by exact Hnil. rewrite Hk. simpl.
    rewrite (agree_existsb _ _ k Hag).
    destruct (decide (k ∈ distinctMap a)) as [Hin | Hout].
    + apply IH, Hag.
    + unfold Aggregator_step. simpl.
      destruct (step a (v :: vs) opt (state a)) as [s| |]; simpl;
        [|reflexivity..].
      apply (IH (mkAggregator _ _ _ _ _)). simpl.
      now apply agree_insert.
Qed.

(** IGNORE NULLS: the step closure sees each row without its NULL
    arguments, unless none is left. *)
Lemma Aggregator_ignore_nulls_run {S} (opt : AggregatorOption)
    (rows : list (list Value)) :
  Distinct opt = false -> IgnoreNulls opt = true ->
  forall a : Aggregator S,
    Aggregator_run a opt rows
    = aggregate (step a) (done a) (converter a) opt (state a)
        (without_nulls rows).
Proof.
  intros HD HI.
  induction rows as [|row rest IH]; intros a; [reflexivity|].
  unfold Aggregator_run, aggregate, without_nulls in *. simpl.
  unfold Aggregator_Step_values. rewrite HI.
  destruct (filtered row) as [|v vs] eqn:Hf; simpl.
  - apply IH.
  - unfold Aggregator_Step_distinct, Aggregator_step. rewrite HD.
    destruct (step a (v :: vs) opt (state a)) as [s| |]; simpl;
      [|reflexivity..].
    apply (IH (mkAggregator _ _ _ _ _)).
Qed.

Lemma filtered_head (row : list Value) (v : Value) (vs : list Value) :
  filtered row = v :: vs -> isNil v = false.
Proof.
  induction row as [|x row IH]; [discriminate|].
  unfold filtered in *. simpl.
  destruct (isNil x) eqn:Hx; simpl; [exact IH|].
  intros Heq. inversion Heq; subst. exact Hx.
Qed.

(** DISTINCT with IGNORE NULLS: the deduplication works on the rows that
    IGNORE NULLS hands on. *)
Lemma Aggregator_distinct_ignore_nulls_run {S} (opt : AggregatorOption)
    (rows : list (list Value)) :
  Distinct opt = true -> IgnoreNulls opt = true ->
  Forall keyed (without_nulls rows) ->
  forall (a : Aggregator S) (seen : list string),
    agree (distinctMap a) seen ->
    Aggregator_run a opt rows
    = aggregate (step a) (done a) (converter a) opt (state a)
        (dedup_from seen (drop_null_rows (without_nulls rows))).
Proof.
  intros HD HI.
  induction rows as [|row rest IH]; intros HK a seen Hag; [reflexivity|].
  unfold Aggregator_run, aggregate, without_nulls in *. simpl in *.
  unfold Aggregator_Step_values. rewrite HI.
  destruct (filtered row) as [|v vs] eqn:Hf; simpl in *.
  - now apply IH.
  - apply List.Forall_cons_iff in HK as [Hrow HK].
    pose proof (filtered_head _ _ _ Hf) as Hnil.
    unfold Aggregator_Step_distinct. rewrite HD, Hnil. simpl.
    destruct Hrow as [Hrow | [k Hk]]; [congruence|].
    rewrite call_not_nil by exact Hnil. rewrite Hk. simpl.
    rewrite (agree_existsb _ _ k Hag).
    destruct (decide (k ∈ distinctMap a)) as [Hin | Hout].
    + now apply IH.
    + unfold Aggregator_step. simpl.
      destruct (step a (v :: vs) opt (state a)) as [s| |]; simpl;
        [|reflexivity..].
      apply (IH HK (mkAggregator _ _ _ _ _)). simpl.
      now apply agree_insert.
Qed.

(** Under every combination of the two options, a fresh aggregator is its
    step closure over the rows [handed_on]. *)
Lemma Aggregator_run_handed_on {S} (opt : AggregatorOption)
    (rows : list (list Value)) (a : Aggregator S) :
  distinctMap a = ∅ ->
  (Distinct opt = true -> Forall keyed (after_ignore_nulls opt rows)) ->
  Aggregator_run a opt rows
  = aggregate (step a) (done a) (converter a) opt (state a)
      (handed_on opt rows).
Proof.
  intros Hfresh HK.
  assert (Hag : agree (distinctMap a) [])
    by (rewrite Hfresh; apply agree_empty).
  unfold handed_on, after_distinct, after_ignore_nulls in *.
  destruct (Distinct opt) eqn:HD, (IgnoreNulls opt) eqn:HI.
  - now apply Aggregator_distinct_ignore_nulls_run; auto.
  - now apply Aggregator_distinct_run; auto.
  - now apply Aggregator_ignore_nulls_run.
  - now apply Aggregator_plain.
Qed.

Lemma without_nulls_single (rows : list (list Value)) :
  Forall (fun row => length row = 1%nat) rows ->
  without_nulls rows = drop_null_rows rows.
Proof.
  induction 1 as [|row rest Hrow _ IH]; [reflexivity|].
  destruct row as [|v [|? ?]]; try discriminate Hrow.
  unfold without_nulls, drop_null_rows in *. simpl.
  destruct (isNil v); simpl; now rewrite IH.
Qed.

(** C3, amended: for every aggregate (a step and a done closure) run by
    the Aggregator with DISTINCT over rows that each have a first argument
    with a canonical string form or a NULL first argument, the result
    equals the result of the aggregate itself over the rows whose first
    argument is not NULL, with duplicates removed; two rows are duplicates
    exactly when the canonical string forms of their first arguments are
    equal, and the first row of each key is kept, in arrival order. *)
Theorem distinct_is_dedup_of_non_null {S}
    (s0 : S) (step : list Value -> AggregatorOption -> S -> outcome S)
    (done : S -> outcome Value) (converter : ReturnValueConverter)
    (opt : AggregatorOption) (rows : list (list Value)) :
  Distinct opt = true ->
  IgnoreNulls opt = false ->
  Forall keyed rows ->
  Aggregator_run (newAggregator s0 step done converter) opt rows
  = aggregate step done converter opt s0
      (dedup_by_canonical_form (drop_null_rows rows)).
Proof.
  intros HD HI HK.
  apply (Aggregator_distinct_run opt rows HD HI HK
           (newAggregator s0 step done converter) []).
  apply agree_empty.
Qed.

(** C5, amended: for every aggregate run by the plain Aggregator with
    IGNORE NULLS, the result over the rows equals the result of the
    aggregate itself over the rows with every NULL argument removed and
    the rows left without arguments dropped; a row without NULL arguments
    is handed on unchanged; and when every row has exactly one argument
    this is the aggregate over the rows whose argument is not NULL. *)
Theorem ignore_nulls_removes_null_arguments {S}
    (s0 : S) (step : list Value -> AggregatorOption -> S -> outcome S)
    (done : S -> outcome Value) (converter : ReturnValueConverter)
    (opt : AggregatorOption) (rows : list (list Value)) :
  Distinct opt = false ->
  IgnoreNulls opt = true ->
  Aggregator_run (newAggregator s0 step done converter) opt rows
  = aggregate step done converter opt s0 (without_nulls rows)
  /\ (forall row, existsNull row = false -> filtered row = row)
  /\ (Forall (fun row => length row = 1%nat) rows ->
      Aggregator_run (newAggregator s0 step done converter) opt rows
      = aggregate step done converter opt s0 (drop_null_rows rows)).
Proof.
  intros HD HI.
  pose proof (Aggregator_ignore_nulls_run opt rows HD HI
                (newAggregator s0 step done converter)) as Hrun.
  split; [exact Hrun|]. split; [exact filtered_no_null|].
  intros Hone. rewrite Hrun. now rewrite without_nulls_single.
Qed.

(** With DISTINCT and without IGNORE NULLS, the plain Aggregator rejects
    a step without arguments and skips a row whose first argument is
    NULL. *)
Lemma Aggregator_Step_distinct_no_argument {S} (a : Aggregator S)
    (opt : AggregatorOption) :
  Distinct opt = true -> IgnoreNulls opt = false ->
  Aggregator_Step_values a [] opt
  = Err (Errorf "DISTINCT option required at least one argument").
Proof.
  intros HD HI. unfold Aggregator_Step_values, Aggregator_Step_distinct.
  now rewrite HI, HD.
Qed.

Lemma Aggregator_Step_distinct_null {S} (a : Aggregator S)
    (opt : AggregatorOption) (rest : list Value) :
  Distinct opt = true -> IgnoreNulls opt = false ->
  Aggregator_Step_values a (Null :: rest) opt = Ok a.
Proof.
  intros HD HI. unfold Aggregator_Step_values, Aggregator_Step_distinct.
  now rewrite HI, HD.
Qed.

Section WindowFacts.
Context {W G : Type} `{WR : WindowRuntime W}.

Lemma WindowAggregator_Step_distinct_no_argument
    (a : WindowAggregator W G) (opt : AggregatorOption) (windowOpt : W) :
  Distinct opt = true ->
  WindowAggregator_Step_values a [] opt windowOpt
  = Err (Errorf "DISTINCT option required at least one argument").
Proof.
  intros HD.
  unfold WindowAggregator_Step_values, WindowAggregator_Step_distinct.
  rewrite HD. now destruct (IgnoreNulls opt).
Qed.

(** With IGNORE NULLS as well, a row of NULL arguments reaches the
    DISTINCT test empty and is rejected. *)
Lemma WindowAggregator_Step_distinct_ignore_nulls_null_row
    (a : WindowAggregator W G) (opt : AggregatorOption) (windowOpt : W)
    (values : list Value) :
  Distinct opt = true -> IgnoreNulls opt = true ->
  filtered values = [] ->
  WindowAggregator_Step_values a values opt windowOpt
  = Err (Errorf "DISTINCT option required at least one argument").
Proof.
  intros HD HI Hf.
  unfold WindowAggregator_Step_values, WindowAggregator_Step_distinct.
  now rewrite HI, HD, Hf.
Qed.

(** C4, at the input where the code leaves it: a WindowAggregator step
    that carries DISTINCT, not IGNORE NULLS, and whose first argument is
    NULL does not skip the row: it calls [ToString] on the nil value and
    panics. *)
Theorem WindowAggregator_Step_distinct_null_panics
    (a : WindowAggregator W G) (stepArgs args newArgs : list Cell)
    (opt : AggregatorOption) (windowOpt : W) (rest : list Value) :
  parseAggregateOptions stepArgs = Ok (args, opt) ->
  parseWindowOptions args = Ok (newArgs, windowOpt) ->
  convertArgs newArgs = Ok (Null :: rest) ->
  Distinct opt = true ->
  IgnoreNulls opt = false ->
  WindowAggregator_Step a stepArgs = Panic.
Proof.
  intros Hp Hw Hc HD HI. unfold WindowAggregator_Step.
  rewrite Hp. simpl. rewrite Hw. simpl. rewrite Hc. simpl.
  unfold WindowAggregator_Step_values, WindowAggregator_Step_distinct.
  now rewrite HI, HD.
Qed.

End WindowFacts.

End AggregatorFacts.

(** ** The catalog *)

Module CatalogFacts.
Import Catalog.

Lemma named_refl (d t : string) (c : list string) (r : list (list Value)) :
  named d t (mkEntry d t c r) = true.
Proof. unfold named. simpl. now rewrite !String.eqb_refl. Qed.

(** A table whose name does not begin with the prefix adds no row. *)
Lemma scan_entry_other (d pre : string) (sel : list string) (e : Entry) :
  drop_prefix pre (table e) = None -> scan_entry d pre sel e = [].
Proof.
  intros H. unfold scan_entry. rewrite H. now destruct (String.eqb _ _).
Qed.

(** C6 (specification, section 8, scenario 2): with the tables t_a, t_b,
    t_c and other_d of dataset d, of which t_a has the column specialName
    and the others the column name, the query
    SELECT name, _TABLE_SUFFIX FROM `d.t_*`
    WHERE name LIKE 'alice%' OR name IS NULL
    returns exactly the rows (alice_c, c), (alice_b, b), (NULL, a),
    (NULL, a); and in any catalog a table whose name does not begin with
    the prefix contributes no rows. *)
Theorem wildcard_table_scenario :
  (exists s,
      exec_all open wildcard_tables = Ok s
      /\ select_like_or_null s "d" "t_" "name" "alice"
         = [ [StringValue "alice_c"; StringValue "c"];
             [StringValue "alice_b"; StringValue "b"];
             [Null; StringValue "a"];
             [Null; StringValue "a"] ])
  /\ (forall (s : Session) (d pre : string) (sel : list string) (e : Entry),
        drop_prefix pre (table e) = None ->
        wildcard_scan (mkSession (e :: persistent s) (temp s)) d pre sel
        = wildcard_scan s d pre sel).
Proof.
  split.
  - eexists. split; reflexivity.
  - intros s d pre sel e H. unfold wildcard_scan. simpl.
    now rewrite scan_entry_other.
Qed.

(** C7 (specification, section 8, scenario 5): for any table name that no
    persistent table carries yet, two consecutive CREATE TEMP TABLE
    statements with that name both succeed, a following non-TEMP CREATE
    TABLE with the name succeeds, and a second non-TEMP CREATE TABLE
    without OR REPLACE fails with CatalogConflict. *)
Theorem create_temp_table_scenario
    (s : Session) (d t : string)
    (c1 c2 c3 c4 : list string) (r1 r2 r3 r4 : list (list Value)) :
  declared d t (persistent s) = false ->
  exists s1 s2 s3 msg,
    exec s (CreateTable true false (mkEntry d t c1 r1)) = Ok s1
    /\ exec s1 (CreateTable true false (mkEntry d t c2 r2)) = Ok s2
    /\ exec s2 (CreateTable false false (mkEntry d t c3 r3)) = Ok s3
    /\ exec s3 (CreateTable false false (mkEntry d t c4 r4))
       = Err (Kinded KCatalogConflict msg).
Proof.
  intros Hfresh.
  destruct (declared d t (temp s)) eqn:Htemp.
  - exists s, s, (mkSession (mkEntry d t c3 r3 :: persistent s) (temp s)).
    eexists. unfold exec, declared in *. simpl.
    rewrite Htemp, Hfresh, named_refl. simpl. repeat split.
  - exists (mkSession (persistent s) (mkEntry d t c1 r1 :: temp s)),
           (mkSession (persistent s) (mkEntry d t c1 r1 :: temp s)),
           (mkSession (mkEntry d t c3 r3 :: persistent s)
              (mkEntry d t c1 r1 :: temp s)).
    eexists. unfold exec, declared in *. simpl.
    rewrite Htemp, Hfresh, !named_refl. simpl. repeat split.
Qed.

End CatalogFacts.

(** ** The properties at concrete inputs *)

Module Instances.
Import Example.

Local Open Scope string_scope.



(** C3 as stated fails where a row has a NULL first argument: the row is
    no duplicate of another, yet DISTINCT never hands it to the
    aggregate. *)
Lemma distinct_drops_null_rows :
  dedup_by_canonical_form [[IntValue 1]; [Null]] = [[IntValue 1]; [Null]]
  /\ Aggregator_run trace distinct_opt [[IntValue 1]; [Null]]
     <> aggregate trace_step trace_done stringValueConverter distinct_opt []
          (dedup_by_canonical_form [[IntValue 1]; [Null]]).
Proof. split; [reflexivity|]. vm_compute. discriminate. Qed.

Lemma distinct_is_dedup_of_non_null_witness :
  Aggregator_run trace distinct_opt
    [[IntValue 1]; [Null]; [StringValue "1"]; [IntValue 2]]
  = aggregate trace_step trace_done stringValueConverter distinct_opt []
      (dedup_by_canonical_form
         (drop_null_rows
            [[IntValue 1]; [Null]; [StringValue "1"]; [IntValue 2]])).
Proof.
  apply (distinct_is_dedup_of_non_null [] trace_step trace_done
           stringValueConverter distinct_opt
           [[IntValue 1]; [Null]; [StringValue "1"]; [IntValue 2]]);
    try reflexivity.
  repeat (apply List.Forall_cons;
          [first [left; reflexivity | right; eexists; reflexivity]|]).
  apply List.Forall_nil.
Defined.

(** C4: WINDOW_SUM(DISTINCT x) on a row whose x is NULL. *)
Lemma WindowAggregator_Step_distinct_null_panics_witness :
  WindowAggregator_Step (bindWindowSum stringValueConverter) [CNil; DISTINCT]
  = Panic.
Proof.
  apply (WindowAggregator_Step_distinct_null_panics
           (bindWindowSum stringValueConverter)
           [CNil; DISTINCT] [CNil] [CNil] distinct_opt tt []);
    reflexivity.
Defined.

(** C5 as stated fails for a row with a NULL second argument: the row is
    kept, and the aggregate receives it without that argument. *)
Lemma ignore_nulls_drops_other_arguments :
  drop_null_rows [[StringValue "a"; Null]] = [[StringValue "a"; Null]]
  /\ Aggregator_run trace ignore_nulls_opt [[StringValue "a"; Null]]
     = aggregate trace_step trace_done stringValueConverter ignore_nulls_opt
         [] [[StringValue "a"]]
  /\ Aggregator_run trace ignore_nulls_opt [[StringValue "a"; Null]]
     <> aggregate trace_step trace_done stringValueConverter
          ignore_nulls_opt [] (drop_null_rows [[StringValue "a"; Null]]).
Proof. repeat split. vm_compute. discriminate. Qed.

Lemma ignore_nulls_removes_null_arguments_witness :
  Aggregator_run trace ignore_nulls_opt
    [[StringValue "a"; Null]; [Null]; [Null; StringValue "b"]]
  = aggregate trace_step trace_done stringValueConverter ignore_nulls_opt []
      (without_nulls
         [[StringValue "a"; Null]; [Null]; [Null; StringValue "b"]])
  /\ Aggregator_run trace ignore_nulls_opt [[IntValue 1]; [Null]; [IntValue 2]]
     = aggregate trace_step trace_done stringValueConverter ignore_nulls_opt
         [] (drop_null_rows [[IntValue 1]; [Null]; [IntValue 2]]).
Proof.
  split.
  - apply (ignore_nulls_removes_null_arguments [] trace_step trace_done
             stringValueConverter ignore_nulls_opt
             [[StringValue "a"; Null]; [Null]; [Null; StringValue "b"]]);
      reflexivity.
  - apply (ignore_nulls_removes_null_arguments [] trace_step trace_done
             stringValueConverter ignore_nulls_opt
             [[IntValue 1]; [Null]; [IntValue 2]]);
      try reflexivity.
    repeat (apply List.Forall_cons; [reflexivity|]). apply List.Forall_nil.
Defined.

Lemma wildcard_table_scenario_witness :
  Catalog.wildcard_scan
    (Catalog.mkSession
       [Catalog.mkEntry "d" "other_d" ["name"] (Catalog.strings ["alice_d"])]
       [])
    "d" "t_" ["name"]
  = [].
Proof.
  apply (proj2 CatalogFacts.wildcard_table_scenario
           (Catalog.mkSession [] []) "d" "t_" ["name"]
           (Catalog.mkEntry "d" "other_d" ["name"]
              (Catalog.strings ["alice_d"]))).
  reflexivity.
Defined.

Lemma create_temp_table_scenario_witness :
  Catalog.declared "" "tmp_table" (Catalog.persistent Catalog.open) = false
  /\ exists s1 s2 s3 msg,
       Catalog.exec Catalog.open
         (Catalog.CreateTable true false
            (Catalog.mkEntry "" "tmp_table" ["id"] []))
       = Ok s1
       /\ Catalog.exec s1
            (Catalog.CreateTable true false
               (Catalog.mkEntry "" "tmp_table" ["id"] []))
          = Ok s2
       /\ Catalog.exec s2
            (Catalog.CreateTable false false
               (Catalog.mkEntry "" "tmp_table" ["id"] []))
          = Ok s3
       /\ Catalog.exec s3
            (Catalog.CreateTable false false
               (Catalog.mkEntry "" "tmp_table" ["id"] []))
          = Err (Kinded KCatalogConflict msg).
Proof.
  split; [reflexivity|].
  apply (CatalogFacts.create_temp_table_scenario Catalog.open "" "tmp_table"
           ["id"] ["id"] ["id"] ["id"] [] [] [] []).
  reflexivity.
Defined.




Lemma bindDouble_modes_witness :
  bindDouble [FloatValue 7] = Err (invalid_argument_num "FLOAT64" [FloatValue 7])
  /\ bindDouble [NumericValue 15; StringValue "exact"] = Ok (NumericValue 15)
  /\ bindDouble [NumericValue 15; StringValue "round"] = Ok (NumericValue 15)
  /\ bindDouble [NumericValue 15; StringValue "fast"]
     = Err (Errorf ("unexpected wide_number_mode: " +:+ "fast")).
Proof.
  split; [|split; [|split]].
  - apply (proj1 bindDouble_modes). simpl. lia.
  - apply (proj1 (proj2 bindDouble_modes) (NumericValue 15)
             (StringValue "exact") "exact"); [reflexivity | now left].
  - apply (proj1 (proj2 bindDouble_modes) (NumericValue 15)
             (StringValue "round") "round"); [reflexivity | now right].
  - apply (proj1 (proj2 bindDouble_modes) (NumericValue 15)
             (StringValue "fast") "fast"); [reflexivity | discriminate..].
Defined.
End Instances.


(** * Further properties of [function_bind.go] *)

(** ** Arguments in, results out *)

Section ConversionFacts.
Context `{VM : ValueMethods} `{RT : Runtime}.

Lemma bind_Ok {A B} (m : outcome A) (k : A -> outcome B) (b : B) :
  m ≫= k = Ok b <-> exists a, m = Ok a /\ k a = Ok b.
Proof.
  destruct m as [a| |]; simpl; split; try discriminate.
  - eauto.
  - now intros (a' & [= ->] & H).
  - now intros (a' & [=] & _).
  - now intros (a' & [=] & _).
Qed.

(** X1: [convertArgs] succeeds exactly when [ValueOf] succeeds on every
    cell, and then returns the values of the cells, one for one and in their
    order. *)
Theorem convertArgs_Forall2 (args : list Cell) (values : list Value) :
  convertArgs args = Ok values
  <-> Forall2 (fun c v => ValueOf c = Ok v) args values.
Proof.
  revert values. induction args as [|c args IH]; intros values; simpl.
  - split.
    + intros [= <-]. constructor.
    + intros H. now inversion H.
  - rewrite bind_Ok. split.
    + intros (v & Hv & H). apply bind_Ok in H as (vs & Hvs & [= <-]).
      constructor; [exact Hv | now apply IH].
    + intros H. inversion H as [|c' v args' vs Hv Hvs]; subst.
      exists v. split; [exact Hv|]. apply bind_Ok.
      exists vs. split; [now apply IH | reflexivity].
Qed.

(** X2: when the cells before a cell convert and [ValueOf] rejects that
    cell, [convertArgs] returns the error of that cell, whatever follows. *)
Theorem convertArgs_first_error (pre post : list Cell) (c : Cell)
    (values : list Value) (e : error) :
  convertArgs pre = Ok values ->
  ValueOf c = Err e ->
  convertArgs (pre ++ c :: post) = Err e.
Proof.
  revert values. induction pre as [|p pre IH]; intros values Hpre Hc; simpl.
  - now rewrite Hc.
  - simpl in Hpre. apply bind_Ok in Hpre as (v & Hv & H).
    apply bind_Ok in H as (vs & Hvs & _).
    rewrite Hv. simpl. now rewrite (IH vs Hvs Hc).
Qed.

(** X3: every scalar wrapper is [convertArgs], then the binder, then the
    return-value converter of its type; the wrapper of BYTES stores its
    result through the string converter. *)
Theorem wrapper_is_converter :
  forall (wrap : BindFunction -> SQLiteFunction)
         (converter : ReturnValueConverter)
         (fn : BindFunction) (cells : list Cell),
    In (wrap, converter) wrapper_converters ->
    wrap fn cells
    = (values ← convertArgs cells; ret ← fn values; converter ret).
Proof.
  intros wrap converter fn cells Hin. unfold wrapper_converters in Hin.
  simpl in Hin.
  repeat (destruct Hin as [[= <- <-] | Hin]; [reflexivity|]).
  destruct Hin.
Qed.

(** X4: a return-value converter stores NULL exactly for the nil value. *)
Theorem converter_null_iff :
  forall (converter : ReturnValueConverter) (v : Value),
    In converter converters ->
    (converter v = Ok CNil <-> isNil v = true).
Proof.
  intros converter v Hin. unfold converters in Hin. simpl in Hin.
  repeat (destruct Hin as [<- | Hin];
          [unfold dateValueConverter, datetimeValueConverter,
             timeValueConverter, timestampValueConverter, jsonValueConverter,
             arrayValueConverter, structValueConverter, intValueConverter,
             floatValueConverter, stringValueConverter, boolValueConverter;
           destruct (isNil v); [tauto|];
           split; [|discriminate];
           match goal with
           | |- context [?m ≫= _] => destruct m; simpl; discriminate
           end|]).
  destruct Hin.
Qed.

End ConversionFacts.


(** ** Panics *)

Section PanicFacts.
Context `{VM : ValueMethods} `{RT : Runtime}.

Lemma bind_no_panic {A B} (m : outcome A) (k : A -> outcome B) :
  m <> Panic -> (forall a, k a <> Panic) -> m ≫= k <> Panic.
Proof. destruct m as [a| |]; simpl; intros Hm Hk; auto; discriminate. Qed.

Lemma wrap_err_no_panic {A} (msg : string) (m : outcome A) :
  m <> Panic -> wrap_err msg m <> Panic.
Proof. destruct m; simpl; auto; discriminate. Qed.

Lemma call_no_panic {A} (m : Value -> outcome A) (v : Value) :
  isNil v = false -> (forall w, isNil w = false -> m w <> Panic) ->
  call m v <> Panic.
Proof. intros Hv Hm. rewrite call_not_nil by exact Hv. now apply Hm. Qed.

(** Decides that a binder's body cannot panic, from the totality of the
    interface and the arguments' not being nil. *)
Ltac no_panic :=
  repeat first
    [ apply bind_no_panic; [|intros ?]
    | apply wrap_err_no_panic
    | apply call_no_panic; [assumption | assumption]
    | match goal with
      | H : forall name args, builtin name args <> Panic
        |- builtin _ _ <> Panic => apply H
      | H : forall zone, LoadLocation zone <> Panic
        |- LoadLocation _ <> Panic => apply H
      | |- Ok _ <> Panic => discriminate
      | |- Err _ <> Panic => discriminate
      | |- (if ?b then _ else _) <> Panic => destruct b eqn:?
      | |- match ?v with _ => _ end <> Panic => is_var v; destruct v
      end ].

(** X5: no scalar binder panics on arguments that are all non-NULL, as long
    as the conversions and the implementations do not: a panic of the
    binding layer always comes from a NULL argument. *)
Theorem scalar_binders_no_panic :
  total_interface ->
  forall (f : BindFunction) (args : list Value),
    In f scalar_binders ->
    existsNull args = false ->
    f args <> Panic.
Proof.
  intros (HI & HS & HB & HO & HT & HA & Hb & Hl) f args Hin.
  revert args.
  assert (HF : Forall (fun f : BindFunction =>
                         forall args, existsNull args = false ->
                                      f args <> Panic) scalar_binders).
  { unfold scalar_binders, arity_checked, other_binders.
    cbn [map app fst snd].
    repeat (apply List.Forall_cons;
            [intros args Hnn; split_args args;
             cbn [existsNull existsb] in Hnn;
             repeat (apply orb_false_elim in Hnn as [? Hnn]);
             match goal with
             | |- ?f _ <> _ => let h := head_of f in unfold h
             end;
             cbv beta iota zeta; no_panic|]).
    apply List.Forall_nil. }
  rewrite List.Forall_forall in HF. now apply HF.
Qed.

End PanicFacts.


(** ** Edges of single binders *)

Section EdgeFacts.
Context `{VM : ValueMethods} `{RT : Runtime}.

(** X6: INSTR returns NULL when its first or its second argument is NULL, at
    each of its arities; a NULL position or a NULL occurrence is not tested
    and panics. *)
Theorem bindInstr_null :
  (forall (a0 a1 : Value) (rest : list Value),
      isNil a0 || isNil a1 = true ->
      (length rest <= 2)%nat ->
      bindInstr (a0 :: a1 :: rest) = Ok Null)
  /\ (forall (a0 a1 : Value) (rest : list Value),
        isNil a0 = false -> isNil a1 = false ->
        (length rest <= 1)%nat ->
        bindInstr (a0 :: a1 :: Null :: rest) = Panic)
  /\ (forall (a0 a1 a2 : Value) (pos : Z),
        isNil a0 = false -> isNil a1 = false ->
        call ToInt64 a2 = Ok pos ->
        bindInstr [a0; a1; a2; Null] = Panic).
Proof.
  split; [|split].
  - intros a0 a1 rest Hn Hlen.
    destruct rest as [|a2 [|a3 [|a4 rest]]]; simpl in Hlen; try lia;
      unfold bindInstr; destruct (isNil a0); try reflexivity;
      simpl in Hn; now rewrite Hn.
  - intros a0 a1 rest H0 H1 Hlen.
    destruct rest as [|a3 [|a4 rest]]; simpl in Hlen; try lia;
      unfold bindInstr; now rewrite H0, H1.
  - intros a0 a1 a2 pos H0 H1 H2. unfold bindInstr.
    now rewrite H0, H1, H2.
Qed.

(** X7: COLLATE tests its value first: a NULL value gives NULL whatever the
    specification is.  For a value that is not NULL, a NULL specification
    is an error, an error of either conversion is wrapped in a message that
    names the argument, and only two strings reach the implementation. *)
Theorem bindCollate_order :
  (forall a0 a1 : Value, isNil a0 = true -> bindCollate [a0; a1] = Ok Null)
  /\ (forall (a0 a1 : Value) (e : error),
        isNil a1 = false ->
        call ToString a0 = Err e ->
        bindCollate [a0; a1]
        = Err (Errorf ("COLLATE: value must be string: " +:+ Error e)))
  /\ (forall (a0 a1 : Value) (value : string) (e : error),
        call ToString a0 = Ok value ->
        call ToString a1 = Err e ->
        bindCollate [a0; a1]
        = Err (Errorf
                 ("COLLATE: collation_specification must be string literal: "
                  +:+ Error e)))
  /\ (forall (a0 a1 : Value) (value spec : string),
        call ToString a0 = Ok value ->
        call ToString a1 = Ok spec ->
        bindCollate [a0; a1] = builtin "COLLATE" [AStr value; AStr spec]).
Proof.
  repeat split.
  - intros a0 a1 H. unfold bindCollate. now rewrite H.
  - intros a0 a1 e H1 H. apply call_Err_not_nil in H as H0.
    destruct H0 as [H0 _]. unfold bindCollate. now rewrite H0, H1, H.
  - intros a0 a1 value e Hv He.
    apply call_Ok_not_nil in Hv as H0. destruct H0 as [H0 _].
    apply call_Err_not_nil in He as H1. destruct H1 as [H1 _].
    unfold bindCollate. now rewrite H0, H1, Hv, He.
  - intros a0 a1 value spec Hv Hs.
    apply call_Ok_not_nil in Hv as H0. destruct H0 as [H0 _].
    apply call_Ok_not_nil in Hs as H1. destruct H1 as [H1 _].
    unfold bindCollate. now rewrite H0, H1, Hv, Hs.
Qed.

(** X8: the binders without an upper bound on their arguments drop what
    they do not read: CURRENT_DATE, CURRENT_DATETIME, CURRENT_TIME and
    CURRENT_TIMESTAMP with three or more arguments answer as with the first
    alone, and ARRAY_TO_STRING with four or more answers as with its first
    two, the null text left out. *)
Theorem extra_arguments_ignored :
  (forall (label : string) (f : BindFunction) (a0 a1 a2 : Value)
          (rest : list Value),
      In (label, f) current_binders ->
      f (a0 :: a1 :: a2 :: rest) = f [a0])
  /\ (forall (a0 a1 a2 a3 : Value) (rest : list Value),
        bindArrayToString (a0 :: a1 :: a2 :: a3 :: rest)
        = bindArrayToString [a0; a1]).
Proof.
  split.
  - intros label f a0 a1 a2 rest Hin. unfold current_binders in Hin.
    simpl in Hin.
    repeat (destruct Hin as [[= <- <-] | Hin]; [reflexivity|]). destruct Hin.
  - reflexivity.
Qed.

(** X9: with one argument that is neither an integer nor a string, NULL
    included, the four CURRENT binders fail with an error that reports the
    argument's type; they neither return NULL nor panic. *)
Theorem current_binders_type_error :
  forall (label : string) (f : BindFunction) (v : Value),
    In (label, f) current_binders ->
    (forall i, v <> IntValue i) ->
    (forall s, v <> StringValue s) ->
    f [v] = Err (Errorf (label +:+ ": unexpected argument type " +:+ fmt_T v)).
Proof.
  intros label f v Hin Hi Hs. unfold current_binders in Hin. simpl in Hin.
  repeat (destruct Hin as [[= <- <-] | Hin];
          [destruct v; try reflexivity;
           [now destruct (Hi i) | now destruct (Hs s)]|]).
  destruct Hin.
Qed.

End EdgeFacts.


(** ** The aggregators, further *)

Section AggregatorMore.
Context `{VM : ValueMethods} `{RT : Runtime}.

#[local] Set Warnings "-clear-no-such-hyp".

(** A step that succeeds keeps the closures and the converter. *)
Lemma Aggregator_Step_values_closures {S} (a a' : Aggregator S)
    (values : list Value) (opt : AggregatorOption) :
  Aggregator_Step_values a values opt = Ok a' ->
  step a' = step a /\ done a' = done a /\ converter a' = converter a.
Proof.
  unfold Aggregator_Step_values, Aggregator_Step_distinct, Aggregator_step.
  intros H.
  repeat match type of H with
         | Ok _ = Ok _ => injection H as <-; auto
         | context [if ?b then _ else _] => destruct b
         | context [match ?l with [] => _ | _ :: _ => _ end] => destruct l
         | context [?m ≫= _] =>
             let E := fresh in destruct m eqn:E; simpl in H
         | _ => discriminate H
         end.
Qed.

Lemma keys_of_app (xs ys : list (list Value)) :
  keys_of (xs ++ ys) = keys_of xs ++ keys_of ys.
Proof.
  unfold keys_of, drop_null_rows. now rewrite List.filter_app, List.map_app.
Qed.

Lemma after_ignore_nulls_cons (opt : AggregatorOption) (row : list Value)
    (rest : list (list Value)) :
  after_ignore_nulls opt (row :: rest)
  = after_ignore_nulls opt [row] ++ after_ignore_nulls opt rest.
Proof.
  unfold after_ignore_nulls, without_nulls.
  destruct (IgnoreNulls opt); simpl; [|reflexivity].
  now destruct (nonempty (filtered row)).
Qed.

(** One step under DISTINCT adds the key of the row it is given, as IGNORE
    NULLS hands the row on, and no other. *)
Lemma Aggregator_Step_values_distinctMap {S} (a a' : Aggregator S)
    (row : list Value) (opt : AggregatorOption) :
  Distinct opt = true ->
  Aggregator_Step_values a row opt = Ok a' ->
  distinctMap a'
  = list_to_set (keys_of (after_ignore_nulls opt [row])) ∪ distinctMap a.
Proof.
  intros HD.
  assert (Hd : forall values,
             Aggregator_Step_distinct a values opt = Ok a' ->
             distinctMap a' = list_to_set (keys_of [values]) ∪ distinctMap a).
  { intros values. unfold Aggregator_Step_distinct. rewrite HD.
    destruct values as [|v vs]; [discriminate|].
    unfold keys_of, drop_null_rows. simpl.
    destruct (isNil v) eqn:Hnil; simpl.
    - intros [= <-]. set_solver.
    - rewrite call_not_nil by exact Hnil.
      destruct (ToString v) as [k| |]; simpl; try discriminate.
      destruct (decide (k ∈ distinctMap a)) as [Hin | Hout].
      + intros [= <-]. set_solver.
      + unfold Aggregator_step.
        destruct (step a (v :: vs) opt (state a)); simpl; try discriminate.
        intros [= <-]. simpl. set_solver. }
  unfold Aggregator_Step_values, after_ignore_nulls, without_nulls.
  destruct (IgnoreNulls opt); [|apply Hd].
  simpl. destruct (filtered row) as [|v vs] eqn:Hf; simpl.
  - intros [= <-]. unfold keys_of. simpl. set_solver.
  - apply Hd.
Qed.

(** X10: the distinct map is the record of DISTINCT and of nothing else.
    After a run of steps that all succeed it holds, beside what it held
    before, exactly the canonical keys of the rows handed on with a first
    argument that is not NULL; without DISTINCT it is never written. *)
Theorem Aggregator_feed_distinctMap {S} (opt : AggregatorOption)
    (rows : list (list Value)) :
  forall a a' : Aggregator S,
    Aggregator_feed a opt rows = Ok a' ->
    (Distinct opt = true ->
     distinctMap a'
     = list_to_set (keys_of (after_ignore_nulls opt rows)) ∪ distinctMap a)
    /\ (Distinct opt = false -> distinctMap a' = distinctMap a).
Proof.
  induction rows as [|row rest IH]; intros a a' H.
  - injection H as <-. split; intros _; [|reflexivity].
    unfold after_ignore_nulls, without_nulls, keys_of.
    destruct (IgnoreNulls opt); simpl; set_solver.
  - simpl in H. apply bind_Ok in H as (a1 & H1 & Hrest).
    destruct (IH _ _ Hrest) as [IHd IHn]. split; intros HD.
    + rewrite (IHd HD), (Aggregator_Step_values_distinctMap _ _ _ _ HD H1).
      rewrite (after_ignore_nulls_cons opt row rest), keys_of_app.
      rewrite list_to_set_app_L. set_solver.
    + rewrite (IHn HD). clear - H1 HD.
      unfold Aggregator_Step_values, Aggregator_Step_distinct,
        Aggregator_step in H1. rewrite HD in H1.
      destruct (IgnoreNulls opt);
        [destruct (filtered row) as [|v vs]; [now injection H1 as <-|]|];
        match type of H1 with
        | context [step a ?r opt (state a)] =>
            destruct (step a r opt (state a)); simpl in H1;
            try discriminate H1; now injection H1 as <-
        end.
Qed.

(** Rows whose keys have all occurred add nothing to a deduplication. *)
Lemma dedup_from_absorb (seen : list string) (zs ws : list (list Value)) :
  (forall w, In w ws -> In (canonical_key w) (map canonical_key zs)) ->
  dedup_from seen (zs ++ ws) = dedup_from seen zs.
Proof.
  induction ws as [|w ws IH] using rev_ind; intros Hk.
  - now rewrite app_nil_r.
  - rewrite app_assoc, dedup_from_snoc.
    assert (Hw : existsb (String.eqb (canonical_key w))
                   (seen ++ map canonical_key (zs ++ ws)) = true).
    { apply existsb_exists. exists (canonical_key w).
      split; [|apply String.eqb_refl].
      apply in_or_app. right. rewrite List.map_app. apply in_or_app. left.
      apply Hk, in_or_app. right. now left. }
    rewrite Hw, app_nil_r. apply IH.
    intros w' Hw'. apply Hk, in_or_app. now left.
Qed.

(** X11: under DISTINCT, rows delivered again change nothing: when every
    row of [ws] with a first argument that is not NULL has the key of a row
    of [xs], the aggregate over [xs] followed by [ws] is the aggregate over
    [xs]; feeding the input twice is feeding it once. *)
Theorem distinct_absorbs_repeated_rows {S}
    (s0 : S) (step : list Value -> AggregatorOption -> S -> outcome S)
    (done : S -> outcome Value) (converter : ReturnValueConverter)
    (opt : AggregatorOption) (xs ws : list (list Value)) :
  Distinct opt = true ->
  IgnoreNulls opt = false ->
  Forall keyed xs -> Forall keyed ws ->
  (forall w, In w ws -> first_is_null w = false ->
             In (canonical_key w) (keys_of xs)) ->
  Aggregator_run (newAggregator s0 step done converter) opt (xs ++ ws)
  = Aggregator_run (newAggregator s0 step done converter) opt xs.
Proof.
  intros HD HI Hxs Hws Hk.
  rewrite (Aggregator_distinct_run opt (xs ++ ws) HD HI
             (proj2 (List.Forall_app _ _ _) (conj Hxs Hws))
             (newAggregator s0 step done converter) [] agree_empty).
  rewrite (Aggregator_distinct_run opt xs HD HI Hxs
             (newAggregator s0 step done converter) [] agree_empty).
  f_equal. unfold drop_null_rows. rewrite List.filter_app.
  apply dedup_from_absorb.
  intros w Hw. apply List.filter_In in Hw as [Hw Hn].
  apply Hk; [exact Hw | now destruct (first_is_null w)].
Qed.

Lemma drop_null_rows_without_nulls (rows : list (list Value)) :
  drop_null_rows (without_nulls rows) = without_nulls rows.
Proof.
  induction rows as [|row rest IH]; [reflexivity|].
  unfold drop_null_rows, without_nulls in *. simpl.
  destruct (filtered row) as [|v vs] eqn:Hf; simpl; [exact IH|].
  rewrite (filtered_head _ _ _ Hf). simpl. now rewrite IH.
Qed.

(** X18: with DISTINCT and IGNORE NULLS together, the NULL arguments go
    first: the aggregate sees the rows without their NULL arguments, the
    rows left empty dropped, and of these the first of each key, the key
    being the canonical string form of the first argument that is not
    NULL. *)
Theorem distinct_after_ignore_nulls {S}
    (s0 : S) (step : list Value -> AggregatorOption -> S -> outcome S)
    (done : S -> outcome Value) (converter : ReturnValueConverter)
    (opt : AggregatorOption) (rows : list (list Value)) :
  Distinct opt = true ->
  IgnoreNulls opt = true ->
  Forall keyed (without_nulls rows) ->
  Aggregator_run (newAggregator s0 step done converter) opt rows
  = aggregate step done converter opt s0
      (dedup_by_canonical_form (without_nulls rows)).
Proof.
  intros HD HI HK.
  rewrite (Aggregator_distinct_ignore_nulls_run opt rows HD HI HK
             (newAggregator s0 step done converter) [] agree_empty).
  now rewrite drop_null_rows_without_nulls.
Qed.

End AggregatorMore.


(** ** The window aggregator and the aggregate binders *)

Section WindowMore.
Context `{VM : ValueMethods} `{RT : Runtime}.
Context {W G : Type}.

(** The window rows after DISTINCT, by the keys met so far. *)
Lemma WindowAggregator_distinct_run (opt : AggregatorOption)
    (rows : list (list Value * W)) :
  Distinct opt = true -> IgnoreNulls opt = false ->
  Forall window_keyed rows ->
  forall (a : WindowAggregator W G) (seen : list string),
    agree (w_distinctMap a) seen ->
    WindowAggregator_run a opt rows
    = window_aggregate (w_step a) (w_done a) (w_converter a) opt (agg a)
        (window_dedup_from seen rows).
Proof.
  intros HD HI HK.
  induction HK as [|[row windowOpt] rest Hrow _ IH]; intros a seen Hag;
    [reflexivity|].
  destruct row as [|v vs]; [destruct Hrow|].
  destruct Hrow as [Hnil [k Hk]]. simpl in Hnil, Hk.
  unfold WindowAggregator_run, window_aggregate in *. simpl.
  unfold WindowAggregator_Step_values, WindowAggregator_Step_distinct.
  rewrite HD, HI. rewrite call_not_nil by exact Hnil. rewrite Hk. simpl.
  rewrite (agree_existsb _ _ k Hag).
  destruct (decide (k ∈ w_distinctMap a)) as [Hin | Hout].
  - apply IH, Hag.
  - unfold WindowAggregator_step. simpl.
    destruct (w_step a (v :: vs) opt windowOpt (agg a)) as [g| |]; simpl;
      [|reflexivity..].
    apply (IH (mkWindowAggregator _ _ _ _ _)). simpl.
    now apply agree_insert.
Qed.

(** X12: for every window aggregate run by the WindowAggregator with
    DISTINCT, over rows whose first argument is not NULL and has a canonical
    string form, the result is the result of the window aggregate itself
    over the rows that are the first of their key: the later rows of a key
    never reach the step closure, with their window options. *)
Theorem window_distinct_is_dedup
    (g0 : G) (step : list Value -> AggregatorOption -> W -> G -> outcome G)
    (done : G -> outcome Value) (converter : ReturnValueConverter)
    (opt : AggregatorOption) (rows : list (list Value * W)) :
  Distinct opt = true ->
  IgnoreNulls opt = false ->
  Forall window_keyed rows ->
  WindowAggregator_run (newWindowAggregator g0 step done converter) opt rows
  = window_aggregate step done converter opt g0 (window_dedup_from [] rows).
Proof.
  intros HD HI HK.
  apply (WindowAggregator_distinct_run opt rows HD HI HK
           (newWindowAggregator g0 step done converter) []).
  apply agree_empty.
Qed.

End WindowMore.

Section AggregateBinderFacts.
Context `{VM : ValueMethods} `{RT : Runtime}.
Context {S W G : Type} `{AR : AggregateRuntime S W G}.

Lemma aggregate_binders_arity (converter : ReturnValueConverter)
    (label : string) (a : Aggregator S) (ar : Arity)
    (args : list Value) (opt : AggregatorOption) (s : S) :
  In (label, a, ar) (aggregate_binders converter) ->
  accepts ar (length args) = false ->
  step a args opt s = Err (invalid_argument_num label args).
Proof.
  intros Hin Hbad. unfold aggregate_binders in Hin. simpl in Hin.
  repeat (destruct Hin as [[= <- <- <-] | Hin];
          [split_args args; simpl in Hbad; try discriminate Hbad;
           reflexivity|]).
  destruct Hin.
Qed.

Lemma window_binders_arity (converter : ReturnValueConverter)
    (label : string) (a : WindowAggregator W G) (ar : Arity)
    (args : list Value) (opt : AggregatorOption) (windowOpt : W) (g : G) :
  In (label, a, ar) (window_binders converter) ->
  accepts ar (length args) = false ->
  w_step a args opt windowOpt g = Err (invalid_argument_num label args).
Proof.
  intros Hin Hbad. unfold window_binders in Hin. simpl in Hin.
  repeat (destruct Hin as [[= <- <- <-] | Hin];
          [split_args args; simpl in Hbad; try discriminate Hbad;
           reflexivity|]).
  destruct Hin.
Qed.

(** X13: the step closure of every aggregate binder and of every window
    binder rejects a row of another arity with the message
    "<LABEL>: invalid argument num <n>", before the implementation is
    called. *)
Theorem aggregate_arity_error (converter : ReturnValueConverter) :
  (forall (label : string) (a : Aggregator S) (ar : Arity)
          (args : list Value) (opt : AggregatorOption) (s : S),
      In (label, a, ar) (aggregate_binders converter) ->
      accepts ar (length args) = false ->
      step a args opt s = Err (invalid_argument_num label args))
  /\ (forall (label : string) (a : WindowAggregator W G) (ar : Arity)
            (args : list Value) (opt : AggregatorOption) (windowOpt : W)
            (g : G),
        In (label, a, ar) (window_binders converter) ->
        accepts ar (length args) = false ->
        w_step a args opt windowOpt g
        = Err (invalid_argument_num label args)).
Proof.
  split.
  - intros label a ar args opt s. apply aggregate_binders_arity.
  - intros label a ar args opt windowOpt g. apply window_binders_arity.
Qed.

(** X14: IGNORE NULLS on a row whose arguments are all NULL: the plain
    Aggregator skips the row, whatever the aggregate and with or without
    DISTINCT; the WindowAggregator hands the emptied row on: with DISTINCT
    it fails for want of an argument, and without it every window binder
    that takes an argument fails with "<LABEL>: invalid argument num 0". *)
Theorem ignore_nulls_null_row (converter : ReturnValueConverter)
    (opt : AggregatorOption) (values : list Value) :
  IgnoreNulls opt = true ->
  filtered values = [] ->
  (forall a : Aggregator S, Aggregator_Step_values a values opt = Ok a)
  /\ (forall (a : WindowAggregator W G) (windowOpt : W),
        Distinct opt = true ->
        WindowAggregator_Step_values a values opt windowOpt
        = Err (Errorf "DISTINCT option required at least one argument"))
  /\ (forall (label : string) (a : WindowAggregator W G) (ar : Arity)
            (windowOpt : W),
        In (label, a, ar) (window_binders converter) ->
        accepts ar 0 = false ->
        Distinct opt = false ->
        WindowAggregator_Step_values a values opt windowOpt
        = Err (Errorf (label +:+ ": invalid argument num 0"))).
Proof.
  intros HI Hf. split; [|split].
  - intros a. unfold Aggregator_Step_values. now rewrite HI, Hf.
  - intros a windowOpt HD.
    now apply WindowAggregator_Step_distinct_ignore_nulls_null_row.
  - intros label a ar windowOpt Hin Hbad HD.
    unfold WindowAggregator_Step_values, WindowAggregator_Step_distinct,
      WindowAggregator_step.
    rewrite HI, HD, Hf.
    rewrite (window_binders_arity converter label a ar [] opt windowOpt
               (agg a) Hin Hbad).
    reflexivity.
Qed.

(** X15: the offset of WINDOW_LAG: one argument means offset 1 and no
    default; an offset below 0 is rejected with a message that prints it,
    before the implementation is called; offset 0 passes, though the message
    asks for a positive value; without a third argument the default is
    NULL. *)
Theorem bindWindowLag_offset (converter : ReturnValueConverter)
    (opt : AggregatorOption) (windowOpt : W) (g : G) :
  (forall a0 : Value,
      w_step (bindWindowLag converter) [a0] opt windowOpt g
      = win_Step "WINDOW_LAG" [AVal a0; AInt 1; AVal Null] windowOpt g)
  /\ (forall (a0 a1 : Value) (rest : list Value) (offset : Z),
        (length rest <= 1)%nat ->
        call ToInt64 a1 = Ok offset ->
        (offset < 0 ->
         w_step (bindWindowLag converter) (a0 :: a1 :: rest) opt windowOpt g
         = Err (Errorf ("WINDOW_LAG: offset is must be positive value "
                        +:+ fmt_d offset)))
        /\ (0 <= offset ->
            w_step (bindWindowLag converter) (a0 :: a1 :: rest) opt
              windowOpt g
            = win_Step "WINDOW_LAG"
                [AVal a0; AInt offset; AVal (hd Null rest)] windowOpt g)).
Proof.
  split; [reflexivity|].
  intros a0 a1 rest offset Hlen Hoff.
  destruct rest as [|a2 [|a3 rest]]; simpl in Hlen; try lia;
    simpl; rewrite Hoff; simpl;
    (split; intros Ho;
     [apply Z.ltb_lt in Ho | apply Z.ltb_ge in Ho]; rewrite Ho; reflexivity).
Qed.

(** A NULL row leaves an aggregator around ARRAY_CONCAT_AGG as it is,
    whatever the options. *)
Lemma ArrayConcatAgg_null_step (converter : ReturnValueConverter)
    (a : Aggregator S) (opt : AggregatorOption) :
  step a = step (bindArrayConcatAgg converter) ->
  Aggregator_Step_values a [Null] opt = Ok a.
Proof.
  intros Hs. destruct a as [D s st dn cv]. simpl in Hs. subst st.
  unfold Aggregator_Step_values, Aggregator_Step_distinct, Aggregator_step.
  simpl. destruct (IgnoreNulls opt); [reflexivity|].
  destruct (Distinct opt); reflexivity.
Qed.

Lemma ArrayConcatAgg_run (converter : ReturnValueConverter)
    (opt : AggregatorOption) (rows : list (list Value)) :
  Forall (fun row => length row = 1%nat) rows ->
  forall a : Aggregator S,
    step a = step (bindArrayConcatAgg converter) ->
    Aggregator_run a opt rows = Aggregator_run a opt (drop_null_rows rows).
Proof.
  induction 1 as [|row rest Hrow _ IH]; intros a Hs; [reflexivity|].
  destruct row as [|v [|? ?]]; try discriminate Hrow.
  unfold Aggregator_run, drop_null_rows in *. simpl.
  destruct (isNil v) eqn:Hnil; simpl.
  - destruct v; try discriminate Hnil.
    rewrite (ArrayConcatAgg_null_step converter a opt Hs). simpl.
    now apply IH.
  - destruct (Aggregator_Step_values a [v] opt) as [a'| |] eqn:Hstep; simpl;
      [|reflexivity..].
    apply IH.
    apply Aggregator_Step_values_closures in Hstep as (-> & _). exact Hs.
Qed.

(** X16: ARRAY_CONCAT_AGG skips NULL arrays by itself: over rows of one
    argument, under any options, the result is the result over the rows
    whose argument is not NULL. *)
Theorem ArrayConcatAgg_skips_null (converter : ReturnValueConverter)
    (opt : AggregatorOption) (rows : list (list Value)) :
  Forall (fun row => length row = 1%nat) rows ->
  Aggregator_run (bindArrayConcatAgg converter) opt rows
  = Aggregator_run (bindArrayConcatAgg converter) opt (drop_null_rows rows).
Proof.
  intros Hone. now apply (ArrayConcatAgg_run converter).
Qed.

(** X17: the delimiter of STRING_AGG: with one argument it is the empty
    string; a NULL delimiter is not tested and panics; under IGNORE NULLS
    the NULL delimiter is removed with the other NULL arguments, and the
    row is aggregated with the empty delimiter. *)
Theorem bindStringAgg_delimiter (converter : ReturnValueConverter)
    (opt : AggregatorOption) (v : Value) :
  isNil v = false ->
  (forall s : S,
      step (bindStringAgg converter) [v] opt s
      = agg_Step "STRING_AGG" [AVal v; AStr ""] opt s)
  /\ (forall s : S, step (bindStringAgg converter) [v; Null] opt s = Panic)
  /\ (forall a : Aggregator S,
        IgnoreNulls opt = true ->
        Aggregator_Step_values a [v; Null] opt
        = Aggregator_Step_values a [v] opt).
Proof.
  intros Hnil. repeat split.
  intros a HI. unfold Aggregator_Step_values. rewrite HI.
  unfold filtered. simpl. now rewrite Hnil.
Qed.

End AggregateBinderFacts.

(** ** Results out of the aggregators *)

Section ResultFacts.
Context `{VM : ValueMethods} `{RT : Runtime}.
Context {S W G : Type}.

(** Steps that succeed keep the closures and the converter. *)
Lemma Aggregator_feed_closures (opt : AggregatorOption)
    (rows : list (list Value)) :
  forall a a' : Aggregator S,
    Aggregator_feed a opt rows = Ok a' ->
    step a' = step a /\ done a' = done a /\ converter a' = converter a.
Proof.
  induction rows as [|row rest IH]; intros a a' H.
  - now injection H as <-.
  - simpl in H. apply bind_Ok in H as (a1 & H1 & Hrest).
    apply Aggregator_Step_values_closures in H1 as (Hs & Hd & Hc).
    destruct (IH _ _ Hrest) as (Hs' & Hd' & Hc').
    now rewrite Hs', Hd', Hc'.
Qed.

Lemma WindowAggregator_Step_values_closures (a a' : WindowAggregator W G)
    (values : list Value) (opt : AggregatorOption) (windowOpt : W) :
  WindowAggregator_Step_values a values opt windowOpt = Ok a' ->
  w_step a' = w_step a /\ w_done a' = w_done a
  /\ w_converter a' = w_converter a.
Proof.
  unfold WindowAggregator_Step_values, WindowAggregator_Step_distinct,
    WindowAggregator_step.
  intros H.
  repeat match type of H with
         | Ok _ = Ok _ => injection H as <-; auto
         | context [if ?b then _ else _] => destruct b
         | context [match ?l with [] => _ | _ :: _ => _ end] => destruct l
         | context [?m ≫= _] =>
             let E := fresh in destruct m eqn:E; simpl in H
         | _ => discriminate H
         end.
Qed.

Lemma WindowAggregator_feed_closures (opt : AggregatorOption)
    (rows : list (list Value * W)) :
  forall a a' : WindowAggregator W G,
    WindowAggregator_feed a opt rows = Ok a' ->
    w_step a' = w_step a /\ w_done a' = w_done a
    /\ w_converter a' = w_converter a.
Proof.
  induction rows as [|[row windowOpt] rest IH]; intros a a' H.
  - now injection H as <-.
  - simpl in H. apply bind_Ok in H as (a1 & H1 & Hrest).
    apply WindowAggregator_Step_values_closures in H1 as (Hs & Hd & Hc).
    destruct (IH _ _ Hrest) as (Hs' & Hd' & Hc').
    now rewrite Hs', Hd', Hc'.
Qed.

(** X19: a result is stored alike by the three families of wrappers.  For
    each result type, [Done] of an aggregate or of a window aggregate bound
    through the wrapper of that type, after any steps that succeed, stores
    the value of its [done] closure as the scalar wrapper of the type stores
    the value of a function that returns it: NULL for nil, the type's
    conversion otherwise, BYTES through the string conversion. *)
Theorem results_stored_alike :
  forall (wrap : BindFunction -> SQLiteFunction)
         (awrap : (ReturnValueConverter -> Aggregator S) -> Aggregator S)
         (wwrap : (ReturnValueConverter -> WindowAggregator W G)
                  -> WindowAggregator W G),
    In (wrap, awrap, wwrap) result_wrappers ->
    (forall (s0 : S) (step : list Value -> AggregatorOption -> S -> outcome S)
            (done : S -> outcome Value) (opt : AggregatorOption)
            (rows : list (list Value)) (a' : Aggregator S),
        Aggregator_feed (awrap (newAggregator s0 step done)) opt rows = Ok a' ->
        Aggregator_Done a' = wrap (fun _ => done (state a')) [])
    /\ (forall (g0 : G)
               (step : list Value -> AggregatorOption -> W -> G -> outcome G)
               (done : G -> outcome Value) (opt : AggregatorOption)
               (rows : list (list Value * W)) (a' : WindowAggregator W G),
          WindowAggregator_feed (wwrap (newWindowAggregator g0 step done))
            opt rows = Ok a' ->
          WindowAggregator_Done a' = wrap (fun _ => done (agg a')) []).
Proof.
  intros wrap awrap wwrap Hin. unfold result_wrappers in Hin. simpl in Hin.
  repeat (destruct Hin as [[= <- <- <-] | Hin];
          [split;
           [intros s0 step0 done0 opt rows a' H;
            apply Aggregator_feed_closures in H as (_ & Hd & Hc);
            unfold Aggregator_Done; rewrite Hd, Hc; reflexivity
           |intros g0 step0 done0 opt rows a' H;
            apply WindowAggregator_feed_closures in H as (_ & Hd & Hc);
            unfold WindowAggregator_Done; rewrite Hd, Hc; reflexivity]|]).
  destruct Hin.
Qed.

End ResultFacts.

(** ** The further properties on the runtimes of [Example] and [Strict] *)

Module MoreInstances.
Import Example.

Local Open Scope string_scope.

(** The interface of [Example] never panics. *)
Lemma Example_total_interface : total_interface.
Proof.
  unfold total_interface. simpl.
  repeat split; try discriminate;
    intros v _; induction v; simpl; try discriminate; assumption.
Qed.

(** A blob after two cells that convert: the error is the blob's. *)
Lemma convertArgs_first_error_witness :
  convertArgs (RT := Strict.runtime)
    ([CInt 1; CText "a"] ++ CBlob [] :: [CInt 2])
  = Err (Errorf "unsupported type").
Proof.
  apply (convertArgs_first_error (RT := Strict.runtime)
           [CInt 1; CText "a"] [CInt 2] (CBlob [])
           [IntValue 1; StringValue "a"]);
    reflexivity.
Defined.

Lemma wrapper_is_converter_witness :
  bindBytesFunc bindLower [CText "A"]
  = (values ← convertArgs [CText "A"];
     ret ← bindLower values;
     stringValueConverter ret).
Proof.
  apply (wrapper_is_converter bindBytesFunc stringValueConverter bindLower
           [CText "A"]).
  unfold wrapper_converters. do 3 right. left. reflexivity.
Defined.

Lemma converter_null_iff_witness :
  (timestampValueConverter Null = Ok CNil <-> isNil Null = true)
  /\ (intValueConverter (StringValue "a") = Ok CNil
      <-> isNil (StringValue "a") = true).
Proof.
  split.
  - apply (converter_null_iff timestampValueConverter Null).
    unfold converters. do 7 right. left. reflexivity.
  - apply (converter_null_iff intValueConverter (StringValue "a")).
    unfold converters. left. reflexivity.
Defined.

Lemma scalar_binders_no_panic_witness :
  bindAdd [IntValue 1; StringValue "a"] <> Panic.
Proof.
  apply (scalar_binders_no_panic Example_total_interface bindAdd
           [IntValue 1; StringValue "a"]); [|reflexivity].
  unfold scalar_binders, arity_checked. left. reflexivity.
Defined.

Lemma bindInstr_null_witness :
  bindInstr [StringValue "abc"; Null; IntValue 1; IntValue 1] = Ok Null
  /\ bindInstr [StringValue "abc"; StringValue "b"; Null] = Panic
  /\ bindInstr [StringValue "abc"; StringValue "b"; IntValue 1; Null] = Panic.
Proof.
  split; [|split].
  - apply (proj1 bindInstr_null (StringValue "abc") Null
             [IntValue 1; IntValue 1]); [reflexivity | simpl; lia].
  - apply (proj1 (proj2 bindInstr_null) (StringValue "abc") (StringValue "b")
             []); [reflexivity | reflexivity | simpl; lia].
  - apply (proj2 (proj2 bindInstr_null) (StringValue "abc") (StringValue "b")
             (IntValue 1) 1); reflexivity.
Defined.

Lemma bindCollate_order_witness :
  bindCollate (VM := Strict.methods) [Null; BytesValue []] = Ok Null
  /\ bindCollate (VM := Strict.methods) [BytesValue []; StringValue "und:ci"]
     = Err (Errorf ("COLLATE: value must be string: "
                    +:+ Error (Kinded KTypeMismatch "value is not STRING")))
  /\ bindCollate (VM := Strict.methods) [StringValue "a"; BytesValue []]
     = Err (Errorf
              ("COLLATE: collation_specification must be string literal: "
               +:+ Error (Kinded KTypeMismatch "value is not STRING")))
  /\ bindCollate (VM := Strict.methods) [StringValue "a"; StringValue "und:ci"]
     = builtin "COLLATE" [AStr "a"; AStr "und:ci"].
Proof.
  split; [|split; [|split]].
  - apply (proj1 (bindCollate_order (VM := Strict.methods))). reflexivity.
  - apply (proj1 (proj2 (bindCollate_order (VM := Strict.methods))));
      reflexivity.
  - apply (proj1 (proj2 (proj2 (bindCollate_order (VM := Strict.methods))))
             (StringValue "a") (BytesValue []) "a"); reflexivity.
  - apply (proj2 (proj2 (proj2 (bindCollate_order (VM := Strict.methods)))));
      reflexivity.
Defined.

Lemma extra_arguments_ignored_witness :
  bindCurrentTime [IntValue 5; Null; BoolValue true; IntValue 7]
  = bindCurrentTime [IntValue 5].
Proof.
  apply (proj1 extra_arguments_ignored "CURRENT_TIME" bindCurrentTime).
  unfold current_binders. do 2 right. left. reflexivity.
Defined.

Lemma current_binders_type_error_witness :
  bindCurrentDate [Null]
  = Err (Errorf ("CURRENT_DATE" +:+ ": unexpected argument type "
                 +:+ fmt_T Null))
  /\ bindCurrentTimestamp [BoolValue true]
     = Err (Errorf ("CURRENT_TIMESTAMP" +:+ ": unexpected argument type "
                    +:+ fmt_T (BoolValue true))).
Proof.
  split.
  - apply (current_binders_type_error "CURRENT_DATE" bindCurrentDate Null);
      [unfold current_binders; left; reflexivity | discriminate..].
  - apply (current_binders_type_error "CURRENT_TIMESTAMP" bindCurrentTimestamp
             (BoolValue true));
      [unfold current_binders; do 3 right; left; reflexivity
      | discriminate..].
Defined.

Lemma Aggregator_feed_distinctMap_witness :
  match Aggregator_feed trace distinct_opt
          [[IntValue 1]; [Null]; [StringValue "1"]; [IntValue 2]] with
  | Ok a' =>
      distinctMap a'
      = list_to_set
          (keys_of
             (after_ignore_nulls distinct_opt
                [[IntValue 1]; [Null]; [StringValue "1"]; [IntValue 2]]))
        ∪ distinctMap trace
  | _ => False
  end.
Proof.
  destruct (Aggregator_feed trace distinct_opt
              [[IntValue 1]; [Null]; [StringValue "1"]; [IntValue 2]])
    as [a'| |] eqn:E.
  - apply (proj1 (Aggregator_feed_distinctMap distinct_opt
                    [[IntValue 1]; [Null]; [StringValue "1"]; [IntValue 2]]
                    trace a' E)).
    reflexivity.
  - vm_compute in E. discriminate E.
  - vm_compute in E. discriminate E.
Defined.

Lemma distinct_absorbs_repeated_rows_witness :
  Aggregator_run trace distinct_opt
    ([[IntValue 1]; [IntValue 2]] ++ [[StringValue "2"]; [Null]; [IntValue 1]])
  = Aggregator_run trace distinct_opt [[IntValue 1]; [IntValue 2]].
Proof.
  apply (distinct_absorbs_repeated_rows [] trace_step trace_done
           stringValueConverter distinct_opt
           [[IntValue 1]; [IntValue 2]]
           [[StringValue "2"]; [Null]; [IntValue 1]]);
    try reflexivity.
  - repeat (apply List.Forall_cons;
            [first [left; reflexivity | right; eexists; reflexivity]|]).
    apply List.Forall_nil.
  - repeat (apply List.Forall_cons;
            [first [left; reflexivity | right; eexists; reflexivity]|]).
    apply List.Forall_nil.
  - intros w [<- | [<- | [<- | []]]] Hn.
    + right. left. reflexivity.
    + discriminate Hn.
    + left. reflexivity.
Defined.

Lemma distinct_after_ignore_nulls_witness :
  Aggregator_run trace (mkAggregatorOption true true [] None)
    [[Null; IntValue 1]; [Null]; [StringValue "1"; Null]; [IntValue 2]]
  = aggregate trace_step trace_done stringValueConverter
      (mkAggregatorOption true true [] None) []
      (dedup_by_canonical_form
         (without_nulls
            [[Null; IntValue 1]; [Null]; [StringValue "1"; Null];
             [IntValue 2]])).
Proof.
  apply (distinct_after_ignore_nulls [] trace_step trace_done
           stringValueConverter (mkAggregatorOption true true [] None)
           [[Null; IntValue 1]; [Null]; [StringValue "1"; Null];
            [IntValue 2]]);
    try reflexivity.
  unfold without_nulls. simpl.
  repeat (apply List.Forall_cons;
          [first [left; reflexivity | right; eexists; reflexivity]|]).
  apply List.Forall_nil.
Defined.

Lemma window_distinct_is_dedup_witness :
  WindowAggregator_run trace_window distinct_opt
    [([IntValue 1], tt); ([StringValue "1"], tt); ([IntValue 2], tt)]
  = window_aggregate (fun row opt _ s => trace_step row opt s) trace_done
      stringValueConverter distinct_opt []
      (window_dedup_from []
         [([IntValue 1], tt); ([StringValue "1"], tt); ([IntValue 2], tt)]).
Proof.
  apply (window_distinct_is_dedup [] (fun row opt _ s => trace_step row opt s)
           trace_done stringValueConverter distinct_opt
           [([IntValue 1], tt); ([StringValue "1"], tt); ([IntValue 2], tt)]);
    try reflexivity.
  repeat (apply List.Forall_cons;
          [split; [reflexivity | eexists; reflexivity]|]).
  apply List.Forall_nil.
Defined.

Lemma aggregate_arity_error_witness :
  step (bindSum stringValueConverter) [IntValue 1; IntValue 2] distinct_opt []
  = Err (invalid_argument_num "SUM" [IntValue 1; IntValue 2])
  /\ w_step (bindWindowRank stringValueConverter) [IntValue 1] distinct_opt
       tt []
     = Err (invalid_argument_num "WINDOW_RANK" [IntValue 1]).
Proof.
  split.
  - apply (proj1 (aggregate_arity_error (W := unit) (G := Trace)
                    stringValueConverter)
             "SUM" (bindSum stringValueConverter) (Exactly 1));
      [|reflexivity].
    unfold aggregate_binders. do 2 right. left. reflexivity.
  - apply (proj2 (aggregate_arity_error (S := Trace) stringValueConverter)
             "WINDOW_RANK" (bindWindowRank stringValueConverter) (Exactly 0));
      [|reflexivity].
    unfold window_binders. do 9 right. left. reflexivity.
Defined.

Lemma ignore_nulls_null_row_witness :
  Aggregator_Step_values (bindSum stringValueConverter) [Null; Null]
    ignore_nulls_opt
  = Ok (bindSum stringValueConverter)
  /\ WindowAggregator_Step_values (bindWindowSum stringValueConverter)
       [Null; Null] (mkAggregatorOption true true [] None) tt
     = Err (Errorf "DISTINCT option required at least one argument")
  /\ WindowAggregator_Step_values (bindWindowSum stringValueConverter)
       [Null; Null] ignore_nulls_opt tt
     = Err (Errorf ("WINDOW_SUM" +:+ ": invalid argument num 0")).
Proof.
  split; [|split].
  - apply (proj1 (ignore_nulls_null_row (W := unit) (G := Trace)
                    stringValueConverter ignore_nulls_opt [Null; Null]
                    eq_refl eq_refl)).
  - apply (proj1 (proj2 (ignore_nulls_null_row (S := Trace)
                           stringValueConverter
                           (mkAggregatorOption true true [] None)
                           [Null; Null] eq_refl eq_refl))).
    reflexivity.
  - apply (proj2 (proj2 (ignore_nulls_null_row (S := Trace)
                           stringValueConverter ignore_nulls_opt
                           [Null; Null] eq_refl eq_refl))
             "WINDOW_SUM" (bindWindowSum stringValueConverter) (Exactly 1));
      [|reflexivity..].
    unfold window_binders. left. reflexivity.
Defined.

Lemma bindWindowLag_offset_witness :
  w_step (bindWindowLag stringValueConverter)
    [StringValue "a"; IntValue (-1)] distinct_opt tt []
  = Err (Errorf ("WINDOW_LAG: offset is must be positive value "
                 +:+ fmt_d (-1)))
  /\ w_step (bindWindowLag stringValueConverter)
       [StringValue "a"; IntValue 0; StringValue "none"] distinct_opt tt []
     = win_Step "WINDOW_LAG"
         [AVal (StringValue "a"); AInt 0;
          AVal (hd Null [StringValue "none"])] tt [].
Proof.
  split.
  - apply (proj1 (proj2 (bindWindowLag_offset (S := Trace)
                           stringValueConverter distinct_opt tt [])
                    (StringValue "a") (IntValue (-1)) [] (-1)
                    ltac:(simpl; lia) eq_refl)).
    lia.
  - apply (proj2 (proj2 (bindWindowLag_offset (S := Trace)
                           stringValueConverter distinct_opt tt [])
                    (StringValue "a") (IntValue 0) [StringValue "none"] 0
                    ltac:(simpl; lia) eq_refl)).
    lia.
Defined.

Lemma ArrayConcatAgg_skips_null_witness :
  Aggregator_run (bindArrayConcatAgg stringValueConverter) distinct_opt
    [[ArrayValue [IntValue 1]]; [Null]; [ArrayValue [IntValue 2]]]
  = Aggregator_run (bindArrayConcatAgg stringValueConverter) distinct_opt
      (drop_null_rows
         [[ArrayValue [IntValue 1]]; [Null]; [ArrayValue [IntValue 2]]]).
Proof.
  apply (ArrayConcatAgg_skips_null (W := unit) (G := Trace)
           stringValueConverter distinct_opt
           [[ArrayValue [IntValue 1]]; [Null]; [ArrayValue [IntValue 2]]]).
  repeat (apply List.Forall_cons; [reflexivity|]). apply List.Forall_nil.
Defined.

Lemma bindStringAgg_delimiter_witness :
  step (bindStringAgg stringValueConverter) [StringValue "a"; Null]
    ignore_nulls_opt []
  = Panic
  /\ Aggregator_Step_values (bindStringAgg stringValueConverter)
       [StringValue "a"; Null] ignore_nulls_opt
     = Aggregator_Step_values (bindStringAgg stringValueConverter)
         [StringValue "a"] ignore_nulls_opt.
Proof.
  split.
  - apply (proj1 (proj2 (bindStringAgg_delimiter (W := unit) (G := Trace)
                           stringValueConverter ignore_nulls_opt
                           (StringValue "a") eq_refl))).
  - apply (proj2 (proj2 (bindStringAgg_delimiter (W := unit) (G := Trace)
                           stringValueConverter ignore_nulls_opt
                           (StringValue "a") eq_refl))).
    reflexivity.
Defined.

Lemma results_stored_alike_witness :
  match Aggregator_feed
          (bindAggregateBytesFunc (newAggregator [] trace_step trace_done))
          distinct_opt [[IntValue 1]; [IntValue 1]] with
  | Ok a' =>
      Aggregator_Done a' = bindBytesFunc (fun _ => trace_done (state a')) []
  | _ => False
  end.
Proof.
  destruct (Aggregator_feed
              (bindAggregateBytesFunc (newAggregator [] trace_step trace_done))
              distinct_opt [[IntValue 1]; [IntValue 1]])
    as [a'| |] eqn:E.
  - apply (proj1 (results_stored_alike (W := unit) (G := Trace)
                    bindBytesFunc bindAggregateBytesFunc bindWindowBytesFunc
                    ltac:(unfold result_wrappers; do 3 right; left;
                          reflexivity))
             [] trace_step trace_done distinct_opt
             [[IntValue 1]; [IntValue 1]] a' E).
  - vm_compute in E. discriminate E.
  - vm_compute in E. discriminate E.
Defined.

End MoreInstances.
